(** * Measure_RV: the measurement session controller of [UI_2.py] and [UI_test.py]

    A shallow embedding of the two Tkinter programs of the repository:

    - [UI_2.py], the basic variant: limits are stored as explicit
      [r_min]/[r_max]/[v_min]/[v_max]; every reading is simulated;
    - [UI_test.py], the refined variant: limits are stored as
      [r_set]/[r_tol]/[v_set]/[v_tol] and derived on demand by [_r_bounds] and
      [_v_bounds]; a reading is queried from a serial instrument with [FETC?]
      and falls back to the simulated generator.

    Python [float]s are IEEE-754 binary64 values, modelled by Rocq's primitive
    [float]; Python [int]s are [Z]; [str] values are [string]s of bytes (the
    UTF-8 encoding, which is what the export writes and what the decoded serial
    line holds).  A method of [App] is a computation in a state-and-exception
    monad over the fields of [self] and the outside world that the method
    touches (Tk's timer queue and message boxes, the random generator, the
    clock, the file system, the serial device). *)

From Stdlib Require Import ZArith List String Ascii Bool Lia.
From Stdlib Require Import Floats.
From Stdlib Require Import Permutation Sorted.
Import ListNotations.

Set Warnings "-inexact-float".

Local Open Scope string_scope.
Local Open Scope list_scope.
Local Open Scope Z_scope.

(* ================================================================== *)
(** * Python values and built-ins *)
(* ================================================================== *)

Module Py.

(** ** Strings *)

Definition TAB : string := String (ascii_of_nat 9) EmptyString.
Definition CR  : string := String (ascii_of_nat 13) EmptyString.
Definition LF  : string := String (ascii_of_nat 10) EmptyString.

(** [str.isspace] on the ASCII range: TAB, LF, VT, FF, CR, the four
    separators FS, GS, RS, US, and the blank. *)
Definition is_space (c : ascii) : bool :=
  let n := nat_of_ascii c in
  ((9 <=? n) && (n <=? 13) || (28 <=? n) && (n <=? 32))%nat.

Definition is_digit (c : ascii) : bool :=
  let n := nat_of_ascii c in ((48 <=? n) && (n <=? 57))%nat.

Definition digit_val (c : ascii) : Z := Z.of_nat (nat_of_ascii c) - 48.

Fixpoint lstrip (s : string) : string :=
  match s with
  | String c s' => if is_space c then lstrip s' else s
  | EmptyString => EmptyString
  end.

(** [rstrip]: a character is kept when something that is not a blank follows
    it or it is not a blank itself. *)
Fixpoint rstrip (s : string) : string :=
  match s with
  | EmptyString => EmptyString
  | String c s' =>
      match rstrip s' with
      | EmptyString => if is_space c then EmptyString else String c EmptyString
      | t => String c t
      end
  end.

(** [s.strip()] *)
Definition strip (s : string) : string := rstrip (lstrip s).

(** [s.split(sep)] for a one-character separator: never empty, one more
    field than there are separators. *)
Fixpoint split_on (sep : ascii) (s : string) : list string :=
  match s with
  | EmptyString => [EmptyString]
  | String c s' =>
      if Ascii.eqb c sep then EmptyString :: split_on sep s'
      else match split_on sep s' with
           | f :: fs => String c f :: fs
           | [] => [String c EmptyString]
           end
  end.

(** [s.replace(c, "")]: every occurrence of [c] is removed. *)
Fixpoint remove_char (x : ascii) (s : string) : string :=
  match s with
  | EmptyString => EmptyString
  | String c s' => if Ascii.eqb c x then remove_char x s' else String c (remove_char x s')
  end.

(** ["sep".join(parts)] *)
Fixpoint join (sep : string) (parts : list string) : string :=
  match parts with
  | [] => EmptyString
  | [p] => p
  | p :: ps => (p ++ sep ++ join sep ps)%string
  end.

(** Bytes that survive [raw.decode("ascii", errors="ignore")]. *)
Fixpoint decode_ascii_ignore (raw : string) : string :=
  match raw with
  | EmptyString => EmptyString
  | String c s' =>
      if (nat_of_ascii c <? 128)%nat then String c (decode_ascii_ignore s')
      else decode_ascii_ignore s'
  end.

(** ** Decimal text of an [int] *)

Definition digit_char (d : Z) : ascii := ascii_of_nat (Z.to_nat (48 + d)).

Fixpoint digits_fuel (fuel : nat) (n : Z) (acc : string) : string :=
  match fuel with
  | O => acc
  | S k =>
      let acc' := String (digit_char (n mod 10)) acc in
      if n <? 10 then acc' else digits_fuel k (n / 10) acc'
  end.

(** Decimal digits of [n >= 0]; the fuel, one more than the bit length,
    exceeds the number of decimal digits. *)
Definition nat_digits (n : Z) : string :=
  digits_fuel (S (Z.to_nat (Z.log2 n + 1))) n EmptyString.

(** [str(n)] *)
Definition str_int (n : Z) : string :=
  if n <? 0 then String "-" (nat_digits (- n)) else nat_digits n.

(** ** [int(s)]: a decimal literal *)

(** Digits with single underscores between them (PEP 515), read most
    significant first.  [prev_digit] tells whether the character before was
    a digit; the text may not end on an underscore. *)
Fixpoint read_digits (s : string) (acc : Z) (prev_digit : bool) : option Z :=
  match s with
  | EmptyString => if prev_digit then Some acc else None
  | String c s' =>
      if is_digit c then read_digits s' (10 * acc + digit_val c) true
      else if Ascii.eqb c "_" then
        if prev_digit then read_digits s' acc false else None
      else None
  end.

(** [int(s)] in base ten: blanks around, an optional sign, digits.  [None]
    stands for [ValueError]. *)
Definition int (s : string) : option Z :=
  match strip s with
  | String "-" d => option_map Z.opp (read_digits d 0 false)
  | String "+" d => read_digits d 0 false
  | d => read_digits d 0 false
  end.

(** ** Lists indexed by an [int] *)

(** The position a Python index denotes in a list of length [n]: negative
    indices count from the end; [None] is [IndexError]. *)
Definition norm_index (n : nat) (i : Z) : option nat :=
  let zn := Z.of_nat n in
  if (0 <=? i) && (i <? zn) then Some (Z.to_nat i)
  else if (- zn <=? i) && (i <? 0) then Some (Z.to_nat (i + zn))
  else None.

(** [l[i]] *)
Definition getitem {A} (l : list A) (i : Z) : option A :=
  match norm_index (List.length l) i with
  | Some k => nth_error l k
  | None => None
  end.

Fixpoint update_nth {A} (l : list A) (k : nat) (x : A) : list A :=
  match l, k with
  | [], _ => []
  | _ :: t, O => x :: t
  | h :: t, S k' => h :: update_nth t k' x
  end.

(** [l[i] = x] *)
Definition setitem {A} (l : list A) (i : Z) (x : A) : option (list A) :=
  match norm_index (List.length l) i with
  | Some k => Some (update_nth l k x)
  | None => None
  end.

(** [[x] * n]: empty when [n <= 0]. *)
Definition replicate {A} (x : A) (n : Z) : list A := repeat x (Z.to_nat n).

(** [all(l)] *)
Definition all (l : list bool) : bool := forallb (fun b => b) l.

(** ** [float(s)]: a decimal literal, correctly rounded *)

(** The binary64 value nearest to [m * 10^e] ([m > 0]), ties to even, as
    CPython's [strtod] returns it.  A value at or above [10^400] overflows to
    infinity and one below [10^-400] rounds to zero, whatever the digits:
    the exact power of ten is only computed in between. *)
Definition decimal_to_SF (m e : Z) : spec_float :=
  if 400 <? e then S754_infinity false
  else if 0 <=? e then binary_normalize prec emax (m * 10 ^ e) 0 false
  else if e + Z.log2 m + 1 <? -400 then S754_zero false
  else SFdiv prec emax (S754_finite false (Z.to_pos m) 0)
                       (S754_finite false (Z.to_pos (10 ^ (- e))) 0).

Definition decimal_to_float (neg : bool) (m e : Z) : float :=
  let x := if m =? 0 then zero else SF2Prim (decimal_to_SF m e) in
  if neg then (- x)%float else x.

(** A run of digits continuing the number [acc]: its value, how many digits
    were read, and the text left. *)
Fixpoint take_digits (s : string) (acc n : Z) : Z * Z * string :=
  match s with
  | String c s' =>
      if is_digit c then take_digits s' (10 * acc + digit_val c) (n + 1)
      else (acc, n, s)
  | EmptyString => (acc, n, s)
  end.

Definition lower (c : ascii) : ascii :=
  let n := nat_of_ascii c in
  if ((65 <=? n) && (n <=? 90))%nat then ascii_of_nat (n + 32) else c.

Fixpoint lower_str (s : string) : string :=
  match s with
  | EmptyString => EmptyString
  | String c s' => String (lower c) (lower_str s')
  end.

(** The exponent part: empty, or [e] or [E], an optional sign and at least
    one digit, up to the end of the text. *)
Definition read_exponent (s : string) : option Z :=
  match s with
  | EmptyString => Some 0
  | String c s' =>
      if Ascii.eqb (lower c) "e" then
        let '(neg, d) := match s' with
                         | String "-" d => (true, d)
                         | String "+" d => (false, d)
                         | d => (false, d)
                         end in
        match take_digits d 0 0 with
        | (x, n, EmptyString) => if 0 <? n then Some (if neg then - x else x) else None
        | _ => None
        end
      else None
  end.

(** The unsigned part of a float literal: digits, an optional point and
    digits (at least one digit in all), an optional exponent; or [inf],
    [infinity], [nan] in any case. *)
Definition read_unsigned_float (neg : bool) (s : string) : option float :=
  let l := lower_str s in
  if (String.eqb l "inf" || String.eqb l "infinity")%bool
  then Some (if neg then neg_infinity else infinity)
  else if String.eqb l "nan" then Some nan
  else
    let '(ip, n1, rest1) := take_digits s 0 0 in
    let '(m, n2, rest2) := match rest1 with
                           | String "." f => take_digits f ip 0
                           | _ => (ip, 0, rest1)
                           end in
    if n1 + n2 =? 0 then None
    else match read_exponent rest2 with
         | Some x => Some (decimal_to_float neg m (x - n2))
         | None => None
         end.

(** Underscores of a numeric literal stand between two digits; the text
    without them, or [None]. *)
Fixpoint drop_underscores (s : string) (prev : ascii) : option string :=
  match s with
  | EmptyString => if Ascii.eqb prev "_" then None else Some EmptyString
  | String c s' =>
      if Ascii.eqb c "_" then
        if is_digit prev then drop_underscores s' c else None
      else if (Ascii.eqb prev "_" && negb (is_digit c))%bool then None
      else option_map (String c) (drop_underscores s' c)
  end.

(** [float(s)]; [None] stands for [ValueError]. *)
Definition float_of_str (s : string) : option float :=
  match drop_underscores (strip s) "000" with
  | Some (String "-" d) => read_unsigned_float true d
  | Some (String "+" d) => read_unsigned_float false d
  | Some d => read_unsigned_float false d
  | None => None
  end.

(** ** Formatting a float *)

(** The integer nearest to [n / d] ([d > 0]), ties to even. *)
Definition round_half_even (n d : Z) : Z :=
  let q := n / d in
  let r := n mod d in
  match 2 * r ?= d with
  | Lt => q
  | Gt => q + 1
  | Eq => if Z.even q then q else q + 1
  end.

Fixpoint zeros (n : nat) : string :=
  match n with
  | O => EmptyString
  | S k => String "0" (zeros k)
  end.

(** [s] filled with zeros on the left up to [width] characters. *)
Definition pad_zeros (width : nat) (s : string) : string :=
  (zeros (width - String.length s) ++ s)%string.

(** [|x| * 10^p] rounded to an integer, for a finite [x = m * 2^e]. *)
Definition scaled_digits (p : nat) (m : positive) (e : Z) : Z :=
  if 0 <=? e then Z.pos m * 2 ^ e * 10 ^ Z.of_nat p
  else round_half_even (Z.pos m * 10 ^ Z.of_nat p) (2 ^ (- e)).

Definition fixed_text (p : nat) (k : Z) : string :=
  let ip := nat_digits (k / 10 ^ Z.of_nat p) in
  match p with
  | O => ip
  | _ => (ip ++ "." ++ pad_zeros p (nat_digits (k mod 10 ^ Z.of_nat p)))%string
  end.

Definition sign_text (s : bool) : string := if s then "-" else "".

(** [format(x, ".pf")], as in [f"{x:.6f}"]: [p] digits after the point, the
    exact binary value rounded half to even. *)
Definition format_f (p : nat) (x : float) : string :=
  match Prim2SF x with
  | S754_nan => "nan"
  | S754_infinity s => (sign_text s ++ "inf")%string
  | S754_zero s => (sign_text s ++ fixed_text p 0)%string
  | S754_finite s m e => (sign_text s ++ fixed_text p (scaled_digits p m e))%string
  end.

(** ** [repr(x)], the text of [f"{x}"] *)

(** [d] with [10^(d-1) <= num/den < 10^d], found from the bit lengths and
    corrected by at most two steps either way. *)
Fixpoint fix_magnitude (fuel : nat) (num den d : Z) : Z :=
  match fuel with
  | O => d
  | S k =>
      let below := if 0 <=? d - 1 then num <? 10 ^ (d - 1) * den
                   else num * 10 ^ (1 - d) <? den in
      let above := if 0 <=? d then 10 ^ d * den <=? num
                   else den <=? num * 10 ^ (- d) in
      if below then fix_magnitude k num den (d - 1)
      else if above then fix_magnitude k num den (d + 1)
      else d
  end.

Definition magnitude10 (num den : Z) : Z :=
  fix_magnitude 6 num den ((Z.log2 num - Z.log2 den) * 30103 / 100000 + 1).

Fixpoint strip_zeros_fuel (fuel : nat) (c : Z) : Z :=
  match fuel with
  | O => c
  | S k => if (c mod 10 =? 0) && negb (c =? 0) then strip_zeros_fuel k (c / 10) else c
  end.

(** The [p]-digit decimals on either side of [x = num/den] that read back
    as [x]; the nearer one when both do. [None] when neither does. The
    result is the digits as an integer and the power of ten they are
    scaled by. *)
Definition candidate (x : float) (num den : Z) (d10 : Z) (p : Z) : option (Z * Z) :=
  let s := p - d10 in
  let n' := if 0 <=? s then num * 10 ^ s else num in
  let d' := if 0 <=? s then den else den * 10 ^ (- s) in
  let lo := n' / d' in
  let r := n' mod d' in
  let hi := lo + 1 in
  let ok c := (0 <? c) && PrimFloat.eqb (decimal_to_float false c (- s)) x in
  let pick :=
    if r =? 0 then (if ok lo then Some lo else None)
    else match ok lo, ok hi with
         | true, true => Some (match 2 * r ?= d' with
                               | Lt => lo | Gt => hi
                               | Eq => if Z.even lo then lo else hi end)
         | true, false => Some lo
         | false, true => Some hi
         | false, false => None
         end in
  option_map (fun c => (c, - s)) pick.

Fixpoint shortest_fuel (fuel : nat) (x : float) (num den d10 p : Z) : Z * Z :=
  match fuel with
  | O => (0, 0)
  | S k =>
      match candidate x num den d10 p with
      | Some r => r
      | None => shortest_fuel k x num den d10 (p + 1)
      end
  end.

(** The shortest decimal that reads back as the finite [x = m * 2^e > 0]:
    seventeen digits always suffice. *)
Definition shortest_digits (x : float) (m : positive) (e : Z) : Z * Z :=
  let num := if 0 <=? e then Z.pos m * 2 ^ e else Z.pos m in
  let den := if 0 <=? e then 1 else 2 ^ (- e) in
  shortest_fuel 17 x num den (magnitude10 num den) 1.

Definition repr_text (c sc : Z) : string :=
  let c' := strip_zeros_fuel 400 c in
  let sc' := sc + (Z.of_nat (String.length (nat_digits c)) - Z.of_nat (String.length (nat_digits c'))) in
  let ds := nat_digits c' in
  let nd := Z.of_nat (String.length ds) in
  let decpt := nd + sc' in
  if (decpt <=? -4) || (16 <? decpt) then
    let x := decpt - 1 in
    let mant := match ds with
                | String d EmptyString => String d EmptyString
                | String d rest => String d ("." ++ rest)
                | EmptyString => EmptyString
                end in
    (mant ++ "e" ++ (if (x <? 0)%Z then "-" else "+") ++ pad_zeros 2 (nat_digits (Z.abs x)))%string
  else if decpt <=? 0 then
    ("0." ++ zeros (Z.to_nat (- decpt)) ++ ds)%string
  else if nd <=? decpt then
    (ds ++ zeros (Z.to_nat (decpt - nd)) ++ ".0")%string
  else
    (substring 0%nat (Z.to_nat decpt) ds ++ "." ++
     substring (Z.to_nat decpt) (Z.to_nat (nd - decpt)) ds)%string.

(** [repr(x)] and [str(x)] of a float. *)
Definition repr_float (x : float) : string :=
  match Prim2SF x with
  | S754_nan => "nan"
  | S754_infinity s => (sign_text s ++ "inf")%string
  | S754_zero s => (sign_text s ++ "0.0")%string
  | S754_finite s m e =>
      let '(c, sc) := shortest_digits (abs x) m e in
      (sign_text s ++ repr_text c sc)%string
  end.

(** ** Text tests and [sorted] *)

Fixpoint all_digits (s : string) : bool :=
  match s with
  | EmptyString => true
  | String c s' => is_digit c && all_digits s'
  end.

(** [s.isdigit()] on ASCII text: not empty, decimal digits only. *)
Definition isdigit (s : string) : bool := negb (String.eqb s "") && all_digits s.

(** [s[k:]] *)
Definition drop (k : nat) (s : string) : string :=
  substring k (String.length s - k) s.

(** [s.replace(pat, "")] for a pattern that is not empty: the occurrences
    are removed from left to right; [skip] characters of an occurrence
    found are still to be passed over. *)
Fixpoint remove_str_from (pat : string) (skip : nat) (s : string) : string :=
  match s with
  | EmptyString => EmptyString
  | String c s' =>
      match skip with
      | S k => remove_str_from pat k s'
      | O =>
          if String.prefix pat s then remove_str_from pat (String.length pat - 1) s'
          else String c (remove_str_from pat 0 s')
      end
  end.

Definition remove_str (pat s : string) : string := remove_str_from pat 0 s.

(** [x] put into a list sorted by [key], behind the elements whose key is
    not greater. *)
Fixpoint insert_sorted {A K} (leb : K -> K -> bool) (key : A -> K) (x : A) (l : list A)
  : list A :=
  match l with
  | [] => [x]
  | y :: l' => if leb (key y) (key x) then y :: insert_sorted leb key x l' else x :: l
  end.

(** [sorted(l, key=key)], the keys being compared by [leb]: the sort of
    Python is stable, and a stable sorted arrangement is unique, so that
    inserting the elements one after the other yields it. *)
Definition sorted_by {A K} (leb : K -> K -> bool) (key : A -> K) (l : list A) : list A :=
  fold_left (fun acc x => insert_sorted leb key x acc) l [].

(** [len(s)] of a text held as UTF-8: the bytes that begin a character. *)
Definition is_continuation (c : ascii) : bool :=
  let n := nat_of_ascii c in ((128 <=? n) && (n <? 192))%nat.

Fixpoint len (s : string) : nat :=
  match s with
  | EmptyString => O
  | String c s' => if is_continuation c then len s' else S (len s')
  end.

(** [c * n] *)
Fixpoint repeat_char (c : ascii) (n : nat) : string :=
  match n with
  | O => EmptyString
  | S k => String c (repeat_char c k)
  end.

(** [f"{s:<w}"]: [s] filled with blanks on the right up to [w] characters. *)
Definition ljust (w : nat) (s : string) : string :=
  (s ++ repeat_char " " (w - len s))%string.

End Py.

(* ================================================================== *)
(** * Exceptions and the monad of methods *)
(* ================================================================== *)

(** The exceptions the two programs can meet; all derive from
    [Exception], which is what their [except] clauses catch. *)
Inductive Exn : Type :=
| IndexError | TclError | OSError | ValueError | RuntimeError
| TimeoutError | AssertionError | SerialException.

Inductive Outcome (A : Type) : Type :=
| Ret (a : A)
| Raise (e : Exn).
Arguments Ret {A} a.
Arguments Raise {A} e.

(** A method body: it ends normally or raises, and the mutations made
    before a [raise] stay. *)
Definition M (S A : Type) : Type := S -> Outcome A * S.

Section MonadOps.
Context {S : Type}.

Definition ret {A} (a : A) : M S A := fun s => (Ret a, s).

Definition bind {A B} (c : M S A) (k : A -> M S B) : M S B :=
    fun s => match c s with
             | (Ret a, s') => k a s'
             | (Raise e, s') => (Raise e, s')
             end.

Definition raise {A} (e : Exn) : M S A := fun s => (Raise e, s).

Definition gets {A} (f : S -> A) : M S A := fun s => (Ret (f s), s).

Definition modify (f : S -> S) : M S unit := fun s => (Ret tt, f s).

  (** [try: c  except Exception as e: h e] *)
Definition try_except {A} (c : M S A) (h : Exn -> M S A) : M S A :=
    fun s => match c s with
             | (Ret a, s') => (Ret a, s')
             | (Raise e, s') => h e s'
             end.

  (** [try: c  finally: f] *)
Definition try_finally {A} (c : M S A) (f : M S unit) : M S A :=
    fun s => match c s with
             | (r, s') => match f s' with
                          | (Ret _, s'') => (r, s'')
                          | (Raise e, s'') => (Raise e, s'')
                          end
             end.

Definition lift_opt {A} (e : Exn) (o : option A) : M S A :=
    match o with Some a => ret a | None => raise e end.

  (** [assert b] *)
Definition assert (b : bool) : M S unit :=
    if b then ret tt else raise AssertionError.

Definition when (b : bool) (c : M S unit) : M S unit :=
    if b then c else ret tt.
End MonadOps.

Notation "x <- c ;; k" := (bind c (fun x => k))
  (at level 61, c at next level, right associativity).
Notation "' pat <- c ;; k" := (bind c (fun x => match x with pat => k end))
  (at level 61, pat pattern, c at next level, right associativity).
Notation "c ;; k" := (bind c (fun _ => k))
  (at level 61, right associativity).

(* ================================================================== *)
(** * The world outside [self] *)
(* ================================================================== *)

(** ** The file system

    [os.makedirs], [os.getcwd] and [open] are calls into the operating
    system.  The model is a small POSIX-like tree: a path is its list of
    components from the root, [dirs] and [files] are what exists besides the
    root, and [locked] lists the entries without write permission (nothing can
    be created in a locked directory, a locked file cannot be rewritten). *)

Definition path : Type := list string.

Record FS : Type := mkFS {
  dirs : list path;
  files : list (path * string);
  locked : list path
}.

Definition path_eqb (p q : path) : bool :=
  if list_eq_dec string_dec p q then true else false.

Definition mem_path (p : path) (l : list path) : bool := existsb (path_eqb p) l.

Definition is_dir (fs : FS) (p : path) : bool :=
  match p with
  | [] => true
  | _ => mem_path p (dirs fs)
  end.

Definition is_file (fs : FS) (p : path) : bool := mem_path p (map fst (files fs)).

(** [os.path.exists] *)
Definition path_exists (fs : FS) (p : path) : bool := is_dir fs p || is_file fs p.

Definition parent (p : path) : path := removelast p.

(** [os.mkdir(p)]; [None] is [OSError]. *)
Definition mkdir (fs : FS) (p : path) : option FS :=
  if path_exists fs p then None
  else if negb (is_dir fs (parent p)) then None
  else if mem_path (parent p) (locked fs) then None
  else Some (mkFS (p :: dirs fs) (files fs) (locked fs)).

(** [os.makedirs(p, exist_ok=True)] on the reversed path: a missing parent
    is made first, then the leaf; [mkdir] failing on a directory that is
    already there is not an error. *)
Fixpoint makedirs_rev (fs : FS) (rp : list string) : option FS :=
  match rp with
  | [] => Some fs
  | _ :: rparent =>
      let made := if negb (path_exists fs (rev rparent))
                  then makedirs_rev fs rparent else Some fs in
      match made with
      | None => None
      | Some fs1 =>
          match mkdir fs1 (rev rp) with
          | Some fs2 => Some fs2
          | None => if is_dir fs1 (rev rp) then Some fs1 else None
          end
      end
  end.

Definition makedirs (fs : FS) (p : path) : option FS := makedirs_rev fs (rev p).

Fixpoint replace_file (p : path) (text : string) (l : list (path * string))
  : list (path * string) :=
  match l with
  | [] => []
  | (q, t) :: l' => if path_eqb p q then (q, text) :: l' else (q, t) :: replace_file p text l'
  end.

(** [with open(p, "w") as f: f.write(text)]; [None] is [OSError]. *)
Definition write_file (fs : FS) (p : path) (text : string) : option FS :=
  if is_dir fs p then None
  else if is_file fs p then
    if mem_path p (locked fs) then None
    else Some (mkFS (dirs fs) (replace_file p text (files fs)) (locked fs))
  else if is_dir fs (parent p) && negb (mem_path (parent p) (locked fs))
  then Some (mkFS (dirs fs) ((p, text) :: files fs) (locked fs))
  else None.

(** The components of a path text, [.] and empty ones dropped. *)
Definition components (s : string) : path :=
  filter (fun c => negb (String.eqb c "" || String.eqb c ".")) (Py.split_on "/" s).

Definition is_abs (s : string) : bool :=
  match s with String "/" _ => true | _ => false end.

(** The path a text names, relative ones taken from the working directory. *)
Definition resolve (cwd : path) (s : string) : path :=
  if is_abs s then components s else cwd ++ components s.

Fixpoint last_char (s : string) : option ascii :=
  match s with
  | EmptyString => None
  | String c EmptyString => Some c
  | String _ s' => last_char s'
  end.

(** [os.path.join(a, b)] *)
Definition os_path_join (a b : string) : string :=
  if is_abs b then b
  else match last_char a with
       | None => b
       | Some c => if Ascii.eqb c "/" then (a ++ b)%string else (a ++ "/" ++ b)%string
       end.

(** ** The clock *)

Record Time : Type := mkTime {
  year : Z; month : Z; day : Z; hour : Z; minute : Z; second : Z
}.

Definition two (n : Z) : string := Py.pad_zeros 2 (Py.nat_digits n).

(** [time.strftime("%Y%m%d_%H%M%S")] *)
Definition stamp_compact (t : Time) : string :=
  (Py.pad_zeros 4 (Py.nat_digits (year t)) ++ two (month t) ++ two (day t) ++ "_" ++
   two (hour t) ++ two (minute t) ++ two (second t))%string.

(** [time.strftime("%Y-%m-%d %H:%M:%S")] *)
Definition stamp_text (t : Time) : string :=
  (Py.pad_zeros 4 (Py.nat_digits (year t)) ++ "-" ++ two (month t) ++ "-" ++ two (day t) ++ " " ++
   two (hour t) ++ ":" ++ two (minute t) ++ ":" ++ two (second t))%string.

(** ** Tk: timers and message boxes *)

(** What [after] was given to call. *)
Inductive Callback : Type :=
| CbTickAuto                              (* self._tick_auto *)
| CbShowInfo (title text : string)        (* lambda: messagebox.showinfo(...) *)
| CbDestroyPopup.                         (* top.destroy *)

Record Job : Type := mkJob { job_id : nat; job_delay : Z; job_cb : Callback }.

(** What the user is shown. *)
Inductive UiEvent : Type :=
| ShowInfo (title text : string)
| ShowWarning (title text : string)
| ShowError (title : string) (e : Exn)
| NextCellPopup
| NotConnected.

(** ** The serial device *)

(** One [FETC?] exchange as the port lives it: the write fails, no byte
    comes back before the timeout, or [readline] returns some bytes. *)
Inductive Reply : Type :=
| WriteFails
| NoReply
| Line (raw : string).

(** ** What the outside decides

    The draws of [random.random()] and of [random.choice([-1, 1])] (the index
    drawn), the clock readings, the answers of the save dialog (empty when
    cancelled) and the device's replies, each in the order it is asked. *)
Record Oracle : Type := mkOracle {
  rand_tape : nat -> float;
  choice_tape : nat -> bool;
  clock : nat -> Time;
  dialog : nat -> string;
  device : nat -> Reply
}.

Record World : Type := mkWorld {
  oracle : Oracle;
  rand_pos : nat;
  choice_pos : nat;
  clock_pos : nat;
  dialog_pos : nat;
  device_pos : nat;
  jobs : list Job;
  next_job : nat;
  events : list UiEvent;
  fs : FS;
  cwd : path
}.

Definition set_rand_pos (x : nat) (w : World) : World :=
  mkWorld (oracle w) x (choice_pos w) (clock_pos w) (dialog_pos w) (device_pos w)
          (jobs w) (next_job w) (events w) (fs w) (cwd w).
Definition set_choice_pos (x : nat) (w : World) : World :=
  mkWorld (oracle w) (rand_pos w) x (clock_pos w) (dialog_pos w) (device_pos w)
          (jobs w) (next_job w) (events w) (fs w) (cwd w).
Definition set_clock_pos (x : nat) (w : World) : World :=
  mkWorld (oracle w) (rand_pos w) (choice_pos w) x (dialog_pos w) (device_pos w)
          (jobs w) (next_job w) (events w) (fs w) (cwd w).
Definition set_dialog_pos (x : nat) (w : World) : World :=
  mkWorld (oracle w) (rand_pos w) (choice_pos w) (clock_pos w) x (device_pos w)
          (jobs w) (next_job w) (events w) (fs w) (cwd w).
Definition set_device_pos (x : nat) (w : World) : World :=
  mkWorld (oracle w) (rand_pos w) (choice_pos w) (clock_pos w) (dialog_pos w) x
          (jobs w) (next_job w) (events w) (fs w) (cwd w).
Definition set_jobs (x : list Job) (w : World) : World :=
  mkWorld (oracle w) (rand_pos w) (choice_pos w) (clock_pos w) (dialog_pos w) (device_pos w)
          x (next_job w) (events w) (fs w) (cwd w).
Definition set_next_job (x : nat) (w : World) : World :=
  mkWorld (oracle w) (rand_pos w) (choice_pos w) (clock_pos w) (dialog_pos w) (device_pos w)
          (jobs w) x (events w) (fs w) (cwd w).
Definition set_events (x : list UiEvent) (w : World) : World :=
  mkWorld (oracle w) (rand_pos w) (choice_pos w) (clock_pos w) (dialog_pos w) (device_pos w)
          (jobs w) (next_job w) x (fs w) (cwd w).
Definition set_fs (x : FS) (w : World) : World :=
  mkWorld (oracle w) (rand_pos w) (choice_pos w) (clock_pos w) (dialog_pos w) (device_pos w)
          (jobs w) (next_job w) (events w) x (cwd w).

(** [os.getcwd()] *)
Definition getcwd (w : World) : string := ("/" ++ Py.join "/" (cwd w))%string.

(* ================================================================== *)
(** * The fields of [App] *)
(* ================================================================== *)

(** [self.mode]: the radio buttons offer ["manual"] and ["auto"]. *)
Inductive Mode : Type := Manual | Auto.

(** [self.ser]: an open [serial.Serial]; its [timeout] is the one field the
    programs write. *)
Record Serial : Type := mkSerial {
  ser_port : string;
  ser_baud : Z;
  ser_timeout : float
}.

(** The lamp of a row and the colour of its two entries. *)
Inductive Lamp : Type := COLOR_GREEN | COLOR_RED | COLOR_NEUTRAL.
Inductive Fg : Type := FgRed | FgText.

(** One element of [self.row_widgets].  The two text variables of a row
    receive a formatted copy of the readings that nothing reads back; the
    model keeps the colours. *)
Record Row : Type := mkRow { lamp : Lamp; r_fg : Fg; v_fg : Fg }.

(** [self.point_combo]: how many values it offers and which is selected. *)
Record Combo : Type := mkCombo { combo_values : Z; combo_sel : Z }.

(** [self.big_canvas]: blank, [LABEL_OK] on green or [LABEL_NG] on red. *)
Inductive Big : Type := BigIdle | BigPass | BigFail.

Definition LABEL_OK : string := "PASS".
Definition LABEL_NG : string := "NOT PASS".

(** The attributes of [self] that the methods below read or write; [L] is
    the variant's representation of the limits ([r_min .. v_max] in
    [UI_2.py], [r_set .. v_tol] in [UI_test.py]).  A Tk variable is modelled
    by the value its [get] returns. *)

Record App (L : Type) : Type := mkApp {
  model_name : string;
  num_points : Z;
  auto_interval : Z;
  mode : Mode;
  save_folder : string;
  auto_export : bool;
  limits : L;
  ser : option Serial;
  r_values : list (option float);
  v_values : list (option float);
  flags : list bool;
  current_idx : Z;
  _auto_running : bool;
  _auto_job : option nat;
  row_widgets : list Row;
  point_combo : Combo;
  big_canvas : Big;
  world : World
}.
Arguments model_name {L} _.
Arguments num_points {L} _.
Arguments auto_interval {L} _.
Arguments mode {L} _.
Arguments save_folder {L} _.
Arguments auto_export {L} _.
Arguments limits {L} _.
Arguments ser {L} _.
Arguments r_values {L} _.
Arguments v_values {L} _.
Arguments flags {L} _.
Arguments current_idx {L} _.
Arguments _auto_running {L} _.
Arguments _auto_job {L} _.
Arguments row_widgets {L} _.
Arguments point_combo {L} _.
Arguments big_canvas {L} _.
Arguments world {L} _.
Arguments mkApp {L}.

Section Setters.
Context {L : Type}.
Definition set_model_name (x : string) (st : App L) : App L :=
    mkApp x (num_points st) (auto_interval st) (mode st) (save_folder st) (auto_export st) (limits st) (ser st) (r_values st) (v_values st) (flags st) (current_idx st) (_auto_running st) (_auto_job st) (row_widgets st) (point_combo st) (big_canvas st) (world st).
Definition set_num_points (x : Z) (st : App L) : App L :=
    mkApp (model_name st) x (auto_interval st) (mode st) (save_folder st) (auto_export st) (limits st) (ser st) (r_values st) (v_values st) (flags st) (current_idx st) (_auto_running st) (_auto_job st) (row_widgets st) (point_combo st) (big_canvas st) (world st).
Definition set_auto_interval (x : Z) (st : App L) : App L :=
    mkApp (model_name st) (num_points st) x (mode st) (save_folder st) (auto_export st) (limits st) (ser st) (r_values st) (v_values st) (flags st) (current_idx st) (_auto_running st) (_auto_job st) (row_widgets st) (point_combo st) (big_canvas st) (world st).
Definition set_mode (x : Mode) (st : App L) : App L :=
    mkApp (model_name st) (num_points st) (auto_interval st) x (save_folder st) (auto_export st) (limits st) (ser st) (r_values st) (v_values st) (flags st) (current_idx st) (_auto_running st) (_auto_job st) (row_widgets st) (point_combo st) (big_canvas st) (world st).
Definition set_save_folder (x : string) (st : App L) : App L :=
    mkApp (model_name st) (num_points st) (auto_interval st) (mode st) x (auto_export st) (limits st) (ser st) (r_values st) (v_values st) (flags st) (current_idx st) (_auto_running st) (_auto_job st) (row_widgets st) (point_combo st) (big_canvas st) (world st).
Definition set_auto_export (x : bool) (st : App L) : App L :=
    mkApp (model_name st) (num_points st) (auto_interval st) (mode st) (save_folder st) x (limits st) (ser st) (r_values st) (v_values st) (flags st) (current_idx st) (_auto_running st) (_auto_job st) (row_widgets st) (point_combo st) (big_canvas st) (world st).
Definition set_limits (x : L) (st : App L) : App L :=
    mkApp (model_name st) (num_points st) (auto_interval st) (mode st) (save_folder st) (auto_export st) x (ser st) (r_values st) (v_values st) (flags st) (current_idx st) (_auto_running st) (_auto_job st) (row_widgets st) (point_combo st) (big_canvas st) (world st).
Definition set_ser (x : option Serial) (st : App L) : App L :=
    mkApp (model_name st) (num_points st) (auto_interval st) (mode st) (save_folder st) (auto_export st) (limits st) x (r_values st) (v_values st) (flags st) (current_idx st) (_auto_running st) (_auto_job st) (row_widgets st) (point_combo st) (big_canvas st) (world st).
Definition set_r_values (x : list (option float)) (st : App L) : App L :=
    mkApp (model_name st) (num_points st) (auto_interval st) (mode st) (save_folder st) (auto_export st) (limits st) (ser st) x (v_values st) (flags st) (current_idx st) (_auto_running st) (_auto_job st) (row_widgets st) (point_combo st) (big_canvas st) (world st).
Definition set_v_values (x : list (option float)) (st : App L) : App L :=
    mkApp (model_name st) (num_points st) (auto_interval st) (mode st) (save_folder st) (auto_export st) (limits st) (ser st) (r_values st) x (flags st) (current_idx st) (_auto_running st) (_auto_job st) (row_widgets st) (point_combo st) (big_canvas st) (world st).
Definition set_flags (x : list bool) (st : App L) : App L :=
    mkApp (model_name st) (num_points st) (auto_interval st) (mode st) (save_folder st) (auto_export st) (limits st) (ser st) (r_values st) (v_values st) x (current_idx st) (_auto_running st) (_auto_job st) (row_widgets st) (point_combo st) (big_canvas st) (world st).
Definition set_current_idx (x : Z) (st : App L) : App L :=
    mkApp (model_name st) (num_points st) (auto_interval st) (mode st) (save_folder st) (auto_export st) (limits st) (ser st) (r_values st) (v_values st) (flags st) x (_auto_running st) (_auto_job st) (row_widgets st) (point_combo st) (big_canvas st) (world st).
Definition set__auto_running (x : bool) (st : App L) : App L :=
    mkApp (model_name st) (num_points st) (auto_interval st) (mode st) (save_folder st) (auto_export st) (limits st) (ser st) (r_values st) (v_values st) (flags st) (current_idx st) x (_auto_job st) (row_widgets st) (point_combo st) (big_canvas st) (world st).
Definition set__auto_job (x : option nat) (st : App L) : App L :=
    mkApp (model_name st) (num_points st) (auto_interval st) (mode st) (save_folder st) (auto_export st) (limits st) (ser st) (r_values st) (v_values st) (flags st) (current_idx st) (_auto_running st) x (row_widgets st) (point_combo st) (big_canvas st) (world st).
Definition set_row_widgets (x : list Row) (st : App L) : App L :=
    mkApp (model_name st) (num_points st) (auto_interval st) (mode st) (save_folder st) (auto_export st) (limits st) (ser st) (r_values st) (v_values st) (flags st) (current_idx st) (_auto_running st) (_auto_job st) x (point_combo st) (big_canvas st) (world st).
Definition set_point_combo (x : Combo) (st : App L) : App L :=
    mkApp (model_name st) (num_points st) (auto_interval st) (mode st) (save_folder st) (auto_export st) (limits st) (ser st) (r_values st) (v_values st) (flags st) (current_idx st) (_auto_running st) (_auto_job st) (row_widgets st) x (big_canvas st) (world st).
Definition set_big_canvas (x : Big) (st : App L) : App L :=
    mkApp (model_name st) (num_points st) (auto_interval st) (mode st) (save_folder st) (auto_export st) (limits st) (ser st) (r_values st) (v_values st) (flags st) (current_idx st) (_auto_running st) (_auto_job st) (row_widgets st) (point_combo st) x (world st).
Definition set_world (x : World) (st : App L) : App L :=
    mkApp (model_name st) (num_points st) (auto_interval st) (mode st) (save_folder st) (auto_export st) (limits st) (ser st) (r_values st) (v_values st) (flags st) (current_idx st) (_auto_running st) (_auto_job st) (row_widgets st) (point_combo st) (big_canvas st) x.
End Setters.

(* ================================================================== *)
(** * What the two files share

    The methods of this section have the same text in [UI_2.py] and in
    [UI_test.py], up to where the four bounds come from. *)
(* ================================================================== *)

Section Shared.
Context {L : Type}.

Definition on_world (f : World -> World) : M (App L) unit :=
  modify (fun st => set_world (f (world st)) st).

(** A message box or popup is shown. *)
Definition show (e : UiEvent) : M (App L) unit :=
  on_world (fun w => set_events (events w ++ [e]) w).

(** [self.after(ms, cb)]: the job is queued and its handle returned. *)
Definition after (ms : Z) (cb : Callback) : M (App L) nat :=
  j <- gets (fun st => next_job (world st)) ;;
  on_world (fun w => set_next_job (S j) (set_jobs (jobs w ++ [mkJob j ms cb]) w)) ;;
  ret j.

(** [self.after_cancel(j)] *)
Definition after_cancel (j : nat) : M (App L) unit :=
  on_world (fun w => set_jobs (filter (fun b => negb (Nat.eqb (job_id b) j)) (jobs w)) w).

(** [random.random()] *)
Definition random_random : M (App L) float :=
  w <- gets world ;;
  on_world (set_rand_pos (S (rand_pos w))) ;;
  ret (rand_tape (oracle w) (rand_pos w)).

(** [random.uniform(a, b)], which is [a + (b - a) * random()]. *)
Definition random_uniform (a b : float) : M (App L) float :=
  u <- random_random ;;
  ret (a + (b - a) * u)%float.

(** [random.choice([-1, 1])], as the float it is multiplied into. *)
Definition random_choice_sign : M (App L) float :=
  w <- gets world ;;
  on_world (set_choice_pos (S (choice_pos w))) ;;
  ret (if choice_tape (oracle w) (choice_pos w) then 1%float else (-1)%float).

(** The clock is read. *)
Definition now : M (App L) Time :=
  w <- gets world ;;
  on_world (set_clock_pos (S (clock_pos w))) ;;
  ret (clock (oracle w) (clock_pos w)).

(** [filedialog.asksaveasfilename(...)] *)
Definition asksaveasfilename : M (App L) string :=
  w <- gets world ;;
  on_world (set_dialog_pos (S (dialog_pos w))) ;;
  ret (dialog (oracle w) (dialog_pos w)).

(** [_init_arrays] *)
Definition _init_arrays : M (App L) unit :=
  n <- gets num_points ;;
  modify (set_r_values (Py.replicate None n)) ;;
  modify (set_v_values (Py.replicate None n)) ;;
  modify (set_flags (Py.replicate false n)) ;;
  modify (set_current_idx 0).

(** [_update_mode_buttons] enables and disables three buttons. *)
Definition _update_mode_buttons : M (App L) unit := ret tt.

(** [_scroll_row_into_view] moves the canvas view. *)
Definition _scroll_row_into_view (idx : Z) : M (App L) unit := ret tt.

(** [self.point_combo.current(idx)]: Tk refuses an index it has no value for. *)
Definition combo_current (idx : Z) : M (App L) unit :=
  c <- gets point_combo ;;
  if (0 <=? idx) && (idx <? combo_values c)
  then modify (set_point_combo (mkCombo (combo_values c) idx))
  else raise TclError.

(** [self.point_combo.get()]: the text of the selected value, the values
    being [1 .. n]; empty when nothing is selected. *)
Definition combo_get (c : Combo) : string :=
  if (0 <=? combo_sel c) && (combo_sel c <? combo_values c)
  then Py.str_int (combo_sel c + 1) else "".

(** [_auto_stop] *)
Definition _auto_stop : M (App L) unit :=
  modify (set__auto_running false) ;;
  j <- gets _auto_job ;;
  match j with
  | Some k => after_cancel k ;; modify (set__auto_job None)
  | None => ret tt
  end ;;
  _update_mode_buttons.

(** [lo <= x <= hi] *)
Definition within (lo hi x : float) : bool := ((lo <=? x) && (x <=? hi))%float.

Definition is_some {A} (o : option A) : bool :=
  match o with Some _ => true | None => false end.

(** [(x is not None) and (lo <= x <= hi)] *)
Definition ok_reading (lo hi : float) (x : option float) : bool :=
  match x with
  | Some y => within lo hi y
  | None => false
  end.

(** The value stored in [self.flags[i]] by [_refresh_rows]. *)
Definition pass_flag (rmin rmax vmin vmax : float) (r v : option float) : bool :=
  let ok_r := ok_reading rmin rmax r in
  let ok_v := ok_reading vmin vmax v in
  let is_pass := ok_r && ok_v in
  is_some r && is_some v && is_pass.

(** The colours [_refresh_rows] gives a row. *)
Definition row_view (rmin rmax vmin vmax : float) (r v : option float) : Row :=
  let ok_r := ok_reading rmin rmax r in
  let ok_v := ok_reading vmin vmax v in
  let is_pass := ok_r && ok_v in
  mkRow (if is_pass then COLOR_GREEN
         else if is_some r || is_some v then COLOR_RED else COLOR_NEUTRAL)
        (if is_some r && negb ok_r then FgRed else FgText)
        (if is_some v && negb ok_v then FgRed else FgText).

(** One turn of the loop of [_refresh_rows], at row [i]. *)
Definition refresh_at (rmin rmax vmin vmax : float) (i : nat) : M (App L) unit :=
  rs <- gets r_values ;;
  r <- lift_opt IndexError (Py.getitem rs (Z.of_nat i)) ;;
  vs <- gets v_values ;;
  v <- lift_opt IndexError (Py.getitem vs (Z.of_nat i)) ;;
  fl <- gets flags ;;
  fl' <- lift_opt IndexError (Py.setitem fl (Z.of_nat i) (pass_flag rmin rmax vmin vmax r v)) ;;
  modify (set_flags fl') ;;
  ws <- gets row_widgets ;;
  modify (set_row_widgets (Py.update_nth ws i (row_view rmin rmax vmin vmax r v))).

(** [for i, row in enumerate(self.row_widgets): ...], [k] rows from row [i] on. *)
Fixpoint refresh_loop (rmin rmax vmin vmax : float) (k i : nat) : M (App L) unit :=
  match k with
  | O => ret tt
  | S k' => refresh_at rmin rmax vmin vmax i ;; refresh_loop rmin rmax vmin vmax k' (S i)
  end.

(** [_refresh_rows], the bounds given. *)
Definition refresh_rows_with (rmin rmax vmin vmax : float) : M (App L) unit :=
  ws <- gets row_widgets ;;
  refresh_loop rmin rmax vmin vmax (List.length ws) 0.

(** The simulated reading of [_read_meter]: one draw decides between a value
    near the centre and a value displaced from it. *)
Definition simulate (rmin rmax vmin vmax : float) : M (App L) (float * float) :=
  let r_center := ((rmin + rmax) / 2)%float in
  let v_center := ((vmin + vmax) / 2)%float in
  let r_span := ((rmax - rmin) / 2)%float in
  let v_span := ((vmax - vmin) / 2)%float in
  u <- random_random ;;
  if (u <? 0.8)%float then
    r <- random_uniform (r_center - 0.6 * r_span)%float (r_center + 0.6 * r_span)%float ;;
    v <- random_uniform (v_center - 0.6 * v_span)%float (v_center + 0.6 * v_span)%float ;;
    ret (r, v)
  else
    sr <- random_choice_sign ;;
    ur <- random_uniform (0.7 * r_span)%float (1.6 * r_span)%float ;;
    sv <- random_choice_sign ;;
    uv <- random_uniform (0.7 * v_span)%float (1.6 * v_span)%float ;;
    ret ((r_center + sr * ur)%float, (v_center + sv * uv)%float).

(** [self.save_folder.get().strip() or os.getcwd()] *)
Definition export_folder (st : App L) : string :=
  let f := Py.strip (save_folder st) in
  if String.eqb f "" then getcwd (world st) else f.

(** [f"{self.model_name.get().strip() or 'model'}_{ts}.txt"] *)
Definition export_name (st : App L) (t : Time) : string :=
  let m := Py.strip (model_name st) in
  ((if String.eqb m "" then "model" else m) ++ "_" ++ stamp_compact t ++ ".txt")%string.

(** [os.makedirs(folder, exist_ok=True)] *)
Definition os_makedirs (folder : string) : M (App L) unit :=
  w <- gets world ;;
  fs' <- lift_opt OSError (makedirs (fs w) (resolve (cwd w) folder)) ;;
  on_world (set_fs fs').

(** [with open(path, "w", encoding="utf-8") as f: f.write("\n".join(lines()))]:
    the file is opened, which empties it, before the lines are computed. *)
Definition write_report (file : string) (lines : M (App L) (list string)) : M (App L) unit :=
  w <- gets world ;;
  let p := resolve (cwd w) file in
  fs1 <- lift_opt OSError (write_file (fs w) p "") ;;
  on_world (set_fs fs1) ;;
  ls <- lines ;;
  on_world (fun w' => set_fs (mkFS (dirs (fs w')) (replace_file p (Py.join Py.LF ls) (files (fs w')))
                                   (locked (fs w'))) w').

(** One row of the report of [_result_lines]. *)
Definition result_row (i : Z) (r v : option float) (flag : bool) : string :=
  match r, v with
  | Some x, Some y =>
      let res := if flag then LABEL_OK else LABEL_NG in
      (Py.str_int (i + 1) ++ Py.TAB ++ Py.format_f 6 x ++ Py.TAB ++ Py.format_f 6 y
       ++ Py.TAB ++ res)%string
  | _, _ => (Py.str_int (i + 1) ++ Py.TAB ++ Py.TAB ++ Py.TAB ++ "N/A")%string
  end.

(** [for i in range(k): ...] of [_result_lines], from [i] on. *)
Fixpoint result_rows (k : nat) (i : Z) : M (App L) (list string) :=
  match k with
  | O => ret []
  | S k' =>
      rs <- gets r_values ;;
      r <- lift_opt IndexError (Py.getitem rs i) ;;
      vs <- gets v_values ;;
      v <- lift_opt IndexError (Py.getitem vs i) ;;
      line <- match r, v with
              | Some _, Some _ =>
                  fl <- gets flags ;;
                  f <- lift_opt IndexError (Py.getitem fl i) ;;
                  ret (result_row i r v f)
              | _, _ => ret (result_row i r v false)
              end ;;
      rest <- result_rows k' (i + 1) ;;
      ret (line :: rest)
  end.

(** [c] called [k] times in a row. *)
Fixpoint times (k : nat) (c : M (App L) unit) : M (App L) unit :=
  match k with
  | O => ret tt
  | S k' => c ;; times k' c
  end.

(** [_update_serial_buttons] enables one of two buttons. *)
Definition _update_serial_buttons : M (App L) unit := ret tt.

(** [_connect_serial].  [com_port] and [baudrate] are what the two combo
    boxes of the settings hold; [refused] is what [serial.Serial(port=...,
    baudrate=..., timeout=1)] raises, if it raises.  A port that was open is
    closed before the new one is opened.  The import of [serial] at the
    head of the method is taken to succeed. *)
Definition _connect_serial (com_port baudrate : string) (refused : option Exn)
  : M (App L) unit :=
  returned <-
    try_except
      (let port := Py.strip com_port in
       if String.eqb port "" then
         show (ShowWarning "Serial" "Please select a COM Port.") ;; ret true
       else
         baud <- lift_opt ValueError (Py.int baudrate) ;;
         match refused with
         | Some e => raise e
         | None =>
             modify (set_ser (Some (mkSerial port baud 1))) ;;
             show (ShowInfo "Serial"
                     ("Connected to " ++ port ++ " @ " ++ Py.str_int baud ++ " bps")) ;;
             ret false
         end)
      (fun e =>
         modify (set_ser None) ;;
         show (ShowError "Serial" e) ;;
         ret false) ;;
  if returned then ret tt else _update_serial_buttons.

(** [_disconnect_serial] *)
Definition _disconnect_serial : M (App L) unit :=
  modify (set_ser None) ;;
  _update_serial_buttons ;;
  show (ShowInfo "Serial" "Disconnected").

(** The session has [n] points: the arrays, the rows on screen, the values
    of the combo box and [num_points] agree. *)
Definition shaped (n : nat) (st : App L) : Prop :=
  num_points st = Z.of_nat n /\
  List.length (r_values st) = n /\ List.length (v_values st) = n /\
  List.length (flags st) = n /\ List.length (row_widgets st) = n /\
  combo_values (point_combo st) = Z.of_nat n.

(** The note under the reading of the [Test Read] button. *)
Definition TEST_READ_NOTE : string :=
  "(*จะอ่านจริงเมื่อคุณใส่โปรโตคอลกับเครื่องวัดแล้ว)".

End Shared.

(* ================================================================== *)
(** * [UI_2.py]: explicit min/max limits, simulated readings *)
(* ================================================================== *)

Module UI_2.

(** [self.r_min], [self.r_max], [self.v_min], [self.v_max] *)
Record Limits : Type := mkLimits {
  r_min : float; r_max : float; v_min : float; v_max : float
}.

Definition App : Type := App Limits.

(** [_refresh_rows] *)
Definition _refresh_rows : M App unit :=
  l <- gets limits ;;
  refresh_rows_with (r_min l) (r_max l) (v_min l) (v_max l).

(** [_draw_big_box]: an absent reading is compared as [1e9]. *)
Definition _draw_big_box : M App unit :=
  idx <- gets current_idx ;;
  rs <- gets r_values ;;
  r <- lift_opt IndexError (Py.getitem rs idx) ;;
  vs <- gets v_values ;;
  v <- lift_opt IndexError (Py.getitem vs idx) ;;
  l <- gets limits ;;
  match r, v with
  | None, None => modify (set_big_canvas BigIdle)
  | _, _ =>
      let ok_r := within (r_min l) (r_max l) (match r with Some x => x | None => 1e9%float end) in
      let ok_v := within (v_min l) (v_max l) (match v with Some x => x | None => 1e9%float end) in
      let is_pass := ok_r && ok_v in
      modify (set_big_canvas (if is_pass then BigPass else BigFail))
  end.

(** [_update_big_box]: the two live labels are set from the readings at the
    cursor, then the box is drawn. *)
Definition _update_big_box : M App unit :=
  idx <- gets current_idx ;;
  rs <- gets r_values ;;
  _ <- lift_opt IndexError (Py.getitem rs idx) ;;
  vs <- gets v_values ;;
  _ <- lift_opt IndexError (Py.getitem vs idx) ;;
  _draw_big_box.

(** [_build_main]: the widgets are made anew for [num_points] rows. *)
Definition _build_main : M App unit :=
  n <- gets num_points ;;
  idx <- gets current_idx ;;
  modify (set_point_combo (mkCombo (Z.max 0 n) (-1))) ;;
  combo_current idx ;;
  _draw_big_box ;;
  modify (set_row_widgets (Py.replicate (mkRow COLOR_NEUTRAL FgText FgText) n)) ;;
  _update_mode_buttons ;;
  _refresh_rows ;;
  _update_big_box.

(** [_apply_settings] *)
Definition _apply_settings : M App unit :=
  checked <-
    try_except
      (new_n <- gets num_points ;;
       assert (0 <? new_n) ;;
       iv <- gets auto_interval ;;
       modify (set_auto_interval (Z.max 10 iv)) ;;
       ret (Some new_n))
      (fun e => show (ShowError "Invalid" e) ;; ret None) ;;
  match checked with
  | None => ret tt
  | Some new_n =>
      rs <- gets r_values ;;
      let need_rebuild := negb (new_n =? Z.of_nat (List.length rs)) in
      (if need_rebuild
       then _auto_stop ;; _init_arrays ;; _build_main
       else _refresh_rows ;; _update_big_box) ;;
      show (ShowInfo "Apply" "Settings applied.")
  end.

(** [_read_meter]: the simulated meter. *)
Definition _read_meter : M App (float * float) :=
  l <- gets limits ;;
  simulate (r_min l) (r_max l) (v_min l) (v_max l).

(** [_result_lines] *)
Definition _result_lines : M App (list string) :=
  m <- gets model_name ;;
  t <- now ;;
  l <- gets limits ;;
  n <- gets num_points ;;
  rows <- result_rows (Z.to_nat n) 0 ;;
  rs <- gets r_values ;;
  fl <- gets flags ;;
  let overall := if Py.all (map is_some rs) && Py.all fl then LABEL_OK else LABEL_NG in
  ret ([ ("Model" ++ Py.TAB ++ (if String.eqb (Py.strip m) "" then "-" else Py.strip m))%string;
         ("Time" ++ Py.TAB ++ stamp_text t)%string;
         "";
         ("Limits R" ++ Py.TAB ++ "min=" ++ Py.repr_float (r_min l) ++ Py.TAB ++ "max="
          ++ Py.repr_float (r_max l) ++ "  (Ohm)")%string;
         ("Limits V" ++ Py.TAB ++ "min=" ++ Py.repr_float (v_min l) ++ Py.TAB ++ "max="
          ++ Py.repr_float (v_max l) ++ "  (Volt)")%string;
         "";
         ("Point" ++ Py.TAB ++ "R(Ω)" ++ Py.TAB ++ "V(V)" ++ Py.TAB ++ "Result")%string ]
       ++ rows
       ++ [ ""; ("Overall" ++ Py.TAB ++ overall)%string ]).

(** [_export_snapshot] *)
Definition _export_snapshot : M App unit :=
  folder <- gets export_folder ;;
  os_makedirs folder ;;
  t <- now ;;
  name <- gets (fun st => export_name st t) ;;
  let file := os_path_join folder name in
  try_except
    (write_report file _result_lines ;;
     show (ShowInfo "Export" ("Saved:" ++ Py.LF ++ file)%string))
    (fun e => show (ShowError "Export" e)).

(** [_manual_export] *)
Definition _manual_export : M App unit :=
  folder <- gets export_folder ;;
  os_makedirs folder ;;
  t <- now ;;
  name <- gets (fun st => export_name st t) ;;
  file <- asksaveasfilename ;;
  if String.eqb file "" then ret tt
  else
    try_except
      (write_report file _result_lines ;;
       show (ShowInfo "Export" "Saved successfully."))
      (fun e => show (ShowError "Export" e)).

(** [_measure_one] *)
Definition _measure_one (from_auto : bool) : M App unit :=
  idx <- gets current_idx ;;
  '(r, v) <- _read_meter ;;
  rs <- gets r_values ;;
  rs' <- lift_opt IndexError (Py.setitem rs idx (Some r)) ;;
  modify (set_r_values rs') ;;
  vs <- gets v_values ;;
  vs' <- lift_opt IndexError (Py.setitem vs idx (Some v)) ;;
  modify (set_v_values vs') ;;
  _refresh_rows ;;
  _update_big_box ;;
  cur <- gets current_idx ;;
  n <- gets num_points ;;
  if cur <? n - 1 then
    modify (set_current_idx (cur + 1)) ;;
    combo_current (cur + 1) ;;
    _scroll_row_into_view (cur + 1)
  else if from_auto then
    modify (set__auto_running false) ;;
    j <- gets _auto_job ;;
    match j with
    | Some k => after_cancel k ;; modify (set__auto_job None)
    | None => ret tt
    end ;;
    _update_mode_buttons ;;
    ae <- gets auto_export ;;
    when ae _export_snapshot ;;
    _ <- after 0 (CbShowInfo "Auto" "Auto measurement finished.") ;;
    ret tt
  else
    show (ShowInfo "Done" "Measured all points.").

(** [_tick_auto] *)
Definition _tick_auto : M App unit :=
  running <- gets _auto_running ;;
  if negb running then ret tt
  else
    _measure_one true ;;
    still <- gets _auto_running ;;
    if still then
      iv <- gets auto_interval ;;
      j <- after (Z.max 50 iv) CbTickAuto ;;
      modify (set__auto_job (Some j))
    else ret tt.

(** [_auto_start] *)
Definition _auto_start : M App unit :=
  running <- gets _auto_running ;;
  if running then ret tt
  else
    modify (set__auto_running true) ;;
    _update_mode_buttons ;;
    _tick_auto.

(** [_reset_results] *)
Definition _reset_results : M App unit :=
  running <- gets _auto_running ;;
  when running _auto_stop ;;
  rs <- gets r_values ;;
  let n := Z.of_nat (List.length rs) in
  modify (set_r_values (Py.replicate None n)) ;;
  modify (set_v_values (Py.replicate None n)) ;;
  modify (set_flags (Py.replicate false n)) ;;
  modify (set_current_idx 0) ;;
  try_except (combo_current 0) (fun _ => ret tt) ;;
  _refresh_rows ;;
  _update_big_box.

(** [_reset] *)
Definition _reset : M App unit :=
  _auto_stop ;; _init_arrays ;; _build_main.

(** Tk's main loop runs a due job: it leaves the queue and its callback is
    called. *)
Definition fire (j : Job) : M App unit :=
  after_cancel (job_id j) ;;
  match job_cb j with
  | CbTickAuto => _tick_auto
  | CbShowInfo title text => show (ShowInfo title text)
  | CbDestroyPopup => ret tt
  end.

(** The key [_refresh_com_ports] sorts by:
    [(x[:3] != "COM", int(x[3:]) if x.startswith("COM") and x[3:].isdigit() else 0, x)];
    [None] where [int] raises. *)
Definition port_key (x : string) : option (bool * Z * string) :=
  let num := if String.prefix "COM" x && Py.isdigit (Py.drop 3 x)
             then Py.int (Py.drop 3 x) else Some 0 in
  option_map (fun n => (negb (String.eqb (substring 0 3 x) "COM"), n, x)) num.

(** [a <= b] on such tuples: component by component, [False < True]. *)
Definition key_leb (a b : bool * Z * string) : bool :=
  let '(a1, a2, a3) := a in
  let '(b1, b2, b3) := b in
  if Bool.eqb a1 b1 then (if a2 =? b2 then String.leb a3 b3 else a2 <? b2)
  else negb a1.

(** The keys of all the names, or [None] when one of them raises. *)
Fixpoint port_keys (l : list string) : option (list (bool * Z * string)) :=
  match l with
  | [] => Some []
  | x :: l' =>
      match port_key x, port_keys l' with
      | Some k, Some ks => Some (k :: ks)
      | _, _ => None
      end
  end.

(** [_refresh_com_ports]: [raw] are the device names that
    [list_ports.comports()] lists, [None] when the listing raises;
    [selected] is what the combo box of the port holds.  The result is the
    list offered afterwards and the port selected afterwards. *)
Definition _refresh_com_ports (raw : option (list string)) (selected : string)
  : list string * string :=
  let ports :=
    match raw with
    | None => []
    | Some l =>
        match port_keys l with
        | Some ks => map snd (Py.sorted_by key_leb (fun k => k) ks)
        | None => []
        end
    end in
  (ports, if existsb (String.eqb selected) ports then selected else hd ""%string ports).

(** [_jump_to], bound to a click on the label of row [idx] *)
Definition _jump_to (idx : Z) : M App unit :=
  modify (set_current_idx idx) ;;
  combo_current idx ;;
  _update_big_box ;;
  _scroll_row_into_view idx.

(** [_on_combo], bound to a selection in the combo box *)
Definition _on_combo : M App unit :=
  c <- gets point_combo ;;
  i <- lift_opt ValueError (Py.int (combo_get c)) ;;
  modify (set_current_idx (i - 1)) ;;
  _update_big_box ;;
  _scroll_row_into_view (i - 1).

(** The main loop reaches the tick whose handle [_auto_job] holds: it is
    run if it is still queued. *)
Definition run_pending_tick : M App unit :=
  fun st =>
    match _auto_job st with
    | Some k =>
        match find (fun b => Nat.eqb (job_id b) k) (jobs (world st)) with
        | Some j => fire j st
        | None => (Ret tt, st)
        end
    | None => (Ret tt, st)
    end.

(** The command of the [Test Read] button of [_build_setting]: the text is
    built from two calls of [_read_meter], the first for [R], the second
    for [V]. *)
Definition test_read_text (r v : float) : string :=
  ("Simulated read: R=" ++ Py.format_f 3 r ++ " Ω, V=" ++ Py.format_f 3 v
   ++ " V" ++ Py.LF ++ Py.LF ++ TEST_READ_NOTE)%string.

Definition test_read : M App unit :=
  a <- _read_meter ;;
  b <- _read_meter ;;
  show (ShowInfo "Test Read" (test_read_text (fst a) (snd b))).

End UI_2.

(* ================================================================== *)
(** * [UI_test.py]: set and tolerance limits, instrument readings *)
(* ================================================================== *)

Module UI_test.

(** [self.r_set], [self.r_tol], [self.v_set], [self.v_tol] *)
Record Limits : Type := mkLimits {
  r_set : float; r_tol : float; v_set : float; v_tol : float
}.

Definition App : Type := App Limits.

(** [_r_bounds] *)
Definition _r_bounds (st : App) : float * float :=
  let l := limits st in
  ((r_set l - r_tol l)%float, (r_set l + r_tol l)%float).

(** [_v_bounds] *)
Definition _v_bounds (st : App) : float * float :=
  let l := limits st in
  ((v_set l - v_tol l)%float, (v_set l + v_tol l)%float).

(** [_refresh_rows] *)
Definition _refresh_rows : M App unit :=
  '(rmin, rmax) <- gets _r_bounds ;;
  '(vmin, vmax) <- gets _v_bounds ;;
  refresh_rows_with rmin rmax vmin vmax.

(** [_draw_big_box] *)
Definition _draw_big_box : M App unit :=
  idx <- gets current_idx ;;
  rs <- gets r_values ;;
  r <- lift_opt IndexError (Py.getitem rs idx) ;;
  vs <- gets v_values ;;
  v <- lift_opt IndexError (Py.getitem vs idx) ;;
  match r, v with
  | None, None => modify (set_big_canvas BigIdle)
  | _, _ =>
      '(rmin, rmax) <- gets _r_bounds ;;
      '(vmin, vmax) <- gets _v_bounds ;;
      let ok_r := ok_reading rmin rmax r in
      let ok_v := ok_reading vmin vmax v in
      let is_pass := ok_r && ok_v in
      modify (set_big_canvas (if is_pass then BigPass else BigFail))
  end.

(** [_update_big_box] *)
Definition _update_big_box : M App unit :=
  idx <- gets current_idx ;;
  rs <- gets r_values ;;
  _ <- lift_opt IndexError (Py.getitem rs idx) ;;
  vs <- gets v_values ;;
  _ <- lift_opt IndexError (Py.getitem vs idx) ;;
  _draw_big_box.

(** [_refresh_limits_labels] writes the four derived bounds into labels. *)
Definition _refresh_limits_labels : M App unit := ret tt.

(** [_build_main] *)
Definition _build_main : M App unit :=
  n <- gets num_points ;;
  idx <- gets current_idx ;;
  modify (set_point_combo (mkCombo (Z.max 0 n) (-1))) ;;
  combo_current idx ;;
  _draw_big_box ;;
  _refresh_limits_labels ;;
  modify (set_row_widgets (Py.replicate (mkRow COLOR_NEUTRAL FgText FgText) n)) ;;
  _update_mode_buttons ;;
  _refresh_rows ;;
  _update_big_box.

(** [_apply_settings] *)
Definition _apply_settings : M App unit :=
  checked <-
    try_except
      (n <- gets num_points ;;
       assert (0 <? n) ;;
       iv <- gets auto_interval ;;
       assert (10 <=? iv) ;;
       l <- gets limits ;;
       assert (0 <=? r_tol l)%float ;;
       assert (0 <=? v_tol l)%float ;;
       ret (Some n))
      (fun e => show (ShowError "Invalid" e) ;; ret None) ;;
  match checked with
  | None => ret tt
  | Some n =>
      rs <- gets r_values ;;
      let need_rebuild := negb (n =? Z.of_nat (List.length rs)) in
      (if need_rebuild
       then _auto_stop ;; _init_arrays ;; _build_main
       else _refresh_limits_labels ;; _refresh_rows ;; _update_big_box) ;;
      show (ShowInfo "Apply" "Settings applied.")
  end.

(** [_parse_meter_line]: resistance in ohm, voltage, status. *)
Definition _parse_meter_line (line : string) : Outcome (float * float * option Z) :=
  let s := Py.strip line in
  let parts := map Py.strip (Py.split_on "," s) in
  match parts with
  | p0 :: p1 :: rest =>
      match Py.float_of_str p0 with
      | None => Raise ValueError
      | Some r_ohm =>
          match Py.float_of_str p1 with
          | None => Raise ValueError
          | Some v_volt =>
              let status := match rest with
                            | p2 :: _ => Py.int (Py.remove_char "+" p2)
                            | [] => None
                            end in
              Ret (r_ohm, v_volt, status)
          end
      end
  | _ => Raise ValueError
  end.

(** [max(0.1, t)] *)
Definition max_tenth (t : float) : float := if (0.1 <? t)%float then t else 0.1%float.

(** [_query_fetc_once]: [FETC?] is written and one line read back. *)
Definition _query_fetc_once (line_ending : string) (timeout_ms : float) : M App string :=
  s <- gets ser ;;
  match s with
  | None => raise RuntimeError
  | Some port =>
      w <- gets world ;;
      let reply := device (oracle w) (device_pos w) in
      on_world (set_device_pos (S (device_pos w))) ;;
      match reply with
      | WriteFails => raise SerialException
      | _ =>
          let old_to := ser_timeout port in
          modify (set_ser (Some (mkSerial (ser_port port) (ser_baud port)
                                          (max_tenth (timeout_ms / 1000)%float)))) ;;
          try_finally
            (match reply with
             | Line raw =>
                 if String.eqb raw "" then raise TimeoutError
                 else ret (Py.decode_ascii_ignore raw)
             | _ => raise TimeoutError
             end)
            (modify (set_ser (Some (mkSerial (ser_port port) (ser_baud port) old_to))))
      end
  end.

(** [_read_meter]: the instrument's reading in milliohm and volt, or the
    simulated one when the exchange raises. *)
Definition _read_meter : M App (float * float) :=
  try_except
    (line <- _query_fetc_once (Py.CR ++ Py.LF)%string 1500%float ;;
     match _parse_meter_line line with
     | Ret (r_ohm, v_volt, _status) => ret ((r_ohm * 1000)%float, v_volt)
     | Raise e => raise e
     end)
    (fun _ =>
       '(rmin, rmax) <- gets _r_bounds ;;
       '(vmin, vmax) <- gets _v_bounds ;;
       simulate rmin rmax vmin vmax).

(** Modelled from the spec: [_ensure_connected] is called by [_measure_one]
    and defined in neither file of the repository.  Section 4.3: "if using
    InstrumentReader and no connection exists, the operation is refused (no
    state mutated) and a "not connected" signal is raised".  The helper
    answers whether [self.ser] is open and raises the signal when it is not. *)
Definition _ensure_connected : M App bool :=
  s <- gets ser ;;
  match s with
  | Some _ => ret true
  | None => show NotConnected ;; ret false
  end.

(** [_show_next_cell_popup]: a window that closes itself after a second. *)
Definition _show_next_cell_popup : M App unit :=
  show NextCellPopup ;;
  _ <- after 1000 CbDestroyPopup ;;
  ret tt.

(** [_result_lines] *)
Definition _result_lines : M App (list string) :=
  '(rmin, rmax) <- gets _r_bounds ;;
  '(vmin, vmax) <- gets _v_bounds ;;
  m <- gets model_name ;;
  t <- now ;;
  l <- gets limits ;;
  n <- gets num_points ;;
  rows <- result_rows (Z.to_nat n) 0 ;;
  ret ([ ("Model" ++ Py.TAB ++ (if String.eqb (Py.strip m) "" then "-" else Py.strip m))%string;
         ("Time" ++ Py.TAB ++ stamp_text t)%string;
         "";
         ("R Set" ++ Py.TAB ++ Py.repr_float (r_set l) ++ " mΩ" ++ Py.TAB ++ "Tol ±"
          ++ Py.repr_float (r_tol l) ++ " mΩ" ++ Py.TAB ++ "(min=" ++ Py.repr_float rmin
          ++ ", max=" ++ Py.repr_float rmax ++ ")")%string;
         ("V Set" ++ Py.TAB ++ Py.repr_float (v_set l) ++ " V" ++ Py.TAB ++ "Tol ±"
          ++ Py.repr_float (v_tol l) ++ " V" ++ Py.TAB ++ "(min=" ++ Py.repr_float vmin
          ++ ", max=" ++ Py.repr_float vmax ++ ")")%string;
         "";
         ("Cell" ++ Py.TAB ++ "R(mΩ)" ++ Py.TAB ++ "V(V)" ++ Py.TAB ++ "Result")%string ]
       ++ rows).

(** [_export_snapshot] *)
Definition _export_snapshot : M App unit :=
  folder <- gets export_folder ;;
  os_makedirs folder ;;
  t <- now ;;
  name <- gets (fun st => export_name st t) ;;
  let file := os_path_join folder name in
  try_except
    (write_report file _result_lines)
    (fun e => show (ShowError "Export" e)).

(** [_manual_export] *)
Definition _manual_export : M App unit :=
  folder <- gets export_folder ;;
  os_makedirs folder ;;
  t <- now ;;
  name <- gets (fun st => export_name st t) ;;
  file <- asksaveasfilename ;;
  if String.eqb file "" then ret tt
  else
    try_except
      (write_report file _result_lines ;;
       show (ShowInfo "Export" "Saved successfully."))
      (fun e => show (ShowError "Export" e)).

(** [_measure_one] *)
Definition _measure_one (from_auto : bool) : M App unit :=
  connected <- _ensure_connected ;;
  if negb connected then when from_auto _auto_stop
  else
    idx <- gets current_idx ;;
    got <- try_except
             (x <- _read_meter ;; ret (Some x))
             (fun e =>
                show (ShowError "Measure Error" e) ;;
                when from_auto _auto_stop ;;
                ret None) ;;
    match got with
    | None => ret tt
    | Some (r, v) =>
        rs <- gets r_values ;;
        rs' <- lift_opt IndexError (Py.setitem rs idx (Some r)) ;;
        modify (set_r_values rs') ;;
        vs <- gets v_values ;;
        vs' <- lift_opt IndexError (Py.setitem vs idx (Some v)) ;;
        modify (set_v_values vs') ;;
        _refresh_rows ;;
        _update_big_box ;;
        cur <- gets current_idx ;;
        n <- gets num_points ;;
        let is_last := n - 1 <=? cur in
        if negb is_last then
          md <- gets mode ;;
          when (negb from_auto && match md with Manual => true | Auto => false end)
               _show_next_cell_popup ;;
          modify (set_current_idx (cur + 1)) ;;
          combo_current (cur + 1) ;;
          _scroll_row_into_view (cur + 1)
        else
          ae <- gets auto_export ;;
          when (from_auto && ae) _export_snapshot ;;
          if from_auto then
            modify (set__auto_running false) ;;
            j <- gets _auto_job ;;
            match j with
            | Some k => after_cancel k ;; modify (set__auto_job None)
            | None => ret tt
            end ;;
            _update_mode_buttons ;;
            _ <- after 0 (CbShowInfo "Auto" "Auto measurement finished.") ;;
            ret tt
          else
            show (ShowInfo "Done" "Measured all cells.")
    end.

(** [_tick_auto] *)
Definition _tick_auto : M App unit :=
  running <- gets _auto_running ;;
  if negb running then ret tt
  else
    _measure_one true ;;
    still <- gets _auto_running ;;
    if still then
      iv <- gets auto_interval ;;
      j <- after (Z.max 50 iv) CbTickAuto ;;
      modify (set__auto_job (Some j))
    else ret tt.

(** [_auto_start] *)
Definition _auto_start : M App unit :=
  running <- gets _auto_running ;;
  if running then ret tt
  else
    modify (set__auto_running true) ;;
    _update_mode_buttons ;;
    _tick_auto.

(** [_reset] *)
Definition _reset : M App unit :=
  _auto_stop ;; _init_arrays ;; _build_main.

(** The key [_refresh_com_ports] sorts by:
    [int(x.replace("COM","")) if x.startswith("COM") and x[3:].isdigit() else x],
    an [int] or a [str]; [None] where [int] raises. *)
Inductive PortKey : Type :=
| KInt (n : Z)
| KStr (s : string).

Definition port_key (x : string) : option PortKey :=
  if String.prefix "COM" x && Py.isdigit (Py.drop 3 x)
  then option_map KInt (Py.int (Py.remove_str "COM" x))
  else Some (KStr x).

Fixpoint port_keys (l : list string) : option (list (PortKey * string)) :=
  match l with
  | [] => Some []
  | x :: l' =>
      match port_key x, port_keys l' with
      | Some k, Some ks => Some ((k, x) :: ks)
      | _, _ => None
      end
  end.

Definition same_kind (a b : PortKey) : bool :=
  match a, b with
  | KInt _, KInt _ => true
  | KStr _, KStr _ => true
  | _, _ => false
  end.

(** [a <= b] where the two keys are of one kind. *)
Definition key_leb (a b : PortKey) : bool :=
  match a, b with
  | KInt m, KInt n => m <=? n
  | KStr s, KStr t => String.leb s t
  | _, _ => false
  end.

(** [sorted(..., key=...)] over these keys.  An [int] compared with a
    [str] raises [TypeError], and no sort can settle the order of a list
    that holds both kinds without such a comparison: [None] stands for
    that. *)
Definition sorted_ports (ks : list (PortKey * string)) : option (list string) :=
  match ks with
  | [] => Some []
  | (k, _) :: rest =>
      if forallb (fun p => same_kind k (fst p)) rest
      then Some (map snd (Py.sorted_by key_leb fst ks))
      else None
  end.

(** [_refresh_com_ports]: as in [UI_2.py], with this key. *)
Definition _refresh_com_ports (raw : option (list string)) (selected : string)
  : list string * string :=
  let ports :=
    match raw with
    | None => []
    | Some l =>
        match port_keys l with
        | Some ks => match sorted_ports ks with Some ps => ps | None => [] end
        | None => []
        end
    end in
  (ports, if existsb (String.eqb selected) ports then selected else hd ""%string ports).

(** [_jump_to] *)
Definition _jump_to (idx : Z) : M App unit :=
  modify (set_current_idx idx) ;;
  combo_current idx ;;
  _update_big_box ;;
  _scroll_row_into_view idx.

(** [_on_combo] *)
Definition _on_combo : M App unit :=
  c <- gets point_combo ;;
  i <- lift_opt ValueError (Py.int (combo_get c)) ;;
  modify (set_current_idx (i - 1)) ;;
  _update_big_box ;;
  _scroll_row_into_view (i - 1).

(** The command of the [Test Read] button of [_build_setting]. *)
Definition test_read_text (r v : float) : string :=
  ("Simulated read:" ++ Py.LF ++ "R=" ++ Py.format_f 2 r ++ " mΩ, V=" ++ Py.format_f 4 v
   ++ " V" ++ Py.LF ++ Py.LF ++ TEST_READ_NOTE)%string.

Definition test_read : M App unit :=
  a <- _read_meter ;;
  b <- _read_meter ;;
  show (ShowInfo "Test Read" (test_read_text (fst a) (snd b))).

(** ** [_export_txt_table], the command of the [Export (.txt)] button *)

(** [cols]: heading and width of each column. *)
Definition cols : list (string * nat) :=
  [("Items", 6); ("Cell", 6); ("Pt", 4); ("min(mΩ)", 8); ("R(mΩ)", 8); ("max(mΩ)", 8);
   ("min(V)", 10); ("V(V)", 10); ("max(V)", 10)]%nat.

(** [cell(t, w)] on a text. *)
Definition cell (t : string) (w : nat) : string := Py.ljust w t.

(** [fr], [fv] *)
Definition fr (x : option float) : string :=
  match x with None => "" | Some y => Py.format_f 2 y end.

Definition fv (x : option float) : string :=
  match x with None => "" | Some y => Py.format_f 4 y end.

(** [" ".join(cell(h, w) for h, w in cols)] *)
Definition table_header : string :=
  Py.join " " (map (fun hw => cell (fst hw) (snd hw)) cols).

(** The line of point [i], whose readings are [r] and [v]:
    [" ".join(cell(x, w) for x, (_, w) in zip(row, cols))]. *)
Definition table_row (rmin rmax vmin vmax : float) (i : Z) (r v : option float) : string :=
  let row := [Py.str_int (i + 1); ("Cell" ++ Py.str_int (i + 1))%string; Py.str_int (i + 1);
              Py.format_f 2 rmin; fr r; Py.format_f 2 rmax;
              Py.format_f 4 vmin; fv v; Py.format_f 4 vmax] in
  Py.join " " (map (fun xw => cell (fst xw) (snd (snd xw))) (combine row cols)).

(** [for i in range(k): ...] of [_export_txt_table], from [i] on; a reading
    is [None] or a number, never a list, so that [one_r] and [one_v] are
    [self.r_values[i]] and [self.v_values[i]]. *)
Fixpoint table_rows (rmin rmax vmin vmax : float) (k : nat) (i : Z) : M App (list string) :=
  match k with
  | O => ret []
  | S k' =>
      rs <- gets r_values ;;
      r <- lift_opt IndexError (Py.getitem rs i) ;;
      vs <- gets v_values ;;
      v <- lift_opt IndexError (Py.getitem vs i) ;;
      rest <- table_rows rmin rmax vmin vmax k' (i + 1) ;;
      ret (table_row rmin rmax vmin vmax i r v :: rest)
  end.

(** [_export_txt_table]: the name made of the model and the clock is only
    what the dialog proposes; the lines are complete before the file is
    opened. *)
Definition _export_txt_table : M App unit :=
  l <- gets limits ;;
  let rmin := (r_set l - r_tol l)%float in
  let rmax := (r_set l + r_tol l)%float in
  let vmin := (v_set l - v_tol l)%float in
  let vmax := (v_set l + v_tol l)%float in
  ts <- now ;;
  default_name <- gets (fun st => export_name st ts) ;;
  path <- asksaveasfilename ;;
  if String.eqb path "" then ret tt
  else
    m <- gets model_name ;;
    t <- now ;;
    l' <- gets limits ;;
    n <- gets num_points ;;
    rows <- table_rows rmin rmax vmin vmax (Z.to_nat n) 0 ;;
    let lines :=
      [ ("Model : " ++ (if String.eqb (Py.strip m) "" then "-" else Py.strip m))%string;
        ("Time  : " ++ stamp_text t)%string;
        ("R Set/Tol : " ++ Py.repr_float (r_set l') ++ " mΩ  ±" ++ Py.repr_float (r_tol l')
         ++ " mΩ  -> min=" ++ Py.format_f 3 rmin ++ ", max=" ++ Py.format_f 3 rmax)%string;
        ("V Set/Tol : " ++ Py.repr_float (v_set l') ++ " V  ±" ++ Py.repr_float (v_tol l')
         ++ " V  -> min=" ++ Py.format_f 4 vmin ++ ", max=" ++ Py.format_f 4 vmax)%string;
        "";
        table_header;
        Py.repeat_char "-" (Py.len table_header) ]
      ++ rows in
    try_except
      (w <- gets world ;;
       fs1 <- lift_opt OSError
                (write_file (fs w) (resolve (cwd w) path) (Py.join Py.LF lines)) ;;
       on_world (set_fs fs1) ;;
       show (ShowInfo "Export (.txt)" "Saved successfully."))
      (fun e => show (ShowError "Export (.txt)" e)).

End UI_test.

(* ================================================================== *)
(** * Sample sessions *)
(* ================================================================== *)

Module Sample.

(** An outside world that answers: draws alternate between 0.25 and 0.9,
    signs alternate, the clock stands still, the save dialog is cancelled,
    the instrument sends the line of the module docstring. *)
Definition oracle0 : Oracle :=
  mkOracle (fun n => if Nat.even n then 0.25%float else 0.9%float)
           (fun n => Nat.even n)
           (fun _ => mkTime 2024 1 2 3 4 5)
           (fun _ => "")
           (fun _ => Line "+5.87263E-03,+3.09940E+00,+0").

Definition world0 : World :=
  mkWorld oracle0 0 0 0 0 0 [] 0 [] (mkFS [["home"]] [] []) ["home"].

(** The fields as [__init__] of [UI_2.py] sets them, for [n] points, before
    the arrays and the widgets are made. *)
Definition blank2 (n : Z) (w : World) : UI_2.App :=
  mkApp "" n 500 Manual "" false (UI_2.mkLimits 9.5 10.5 4.9 5.1) None
        [] [] [] 0 false None [] (mkCombo 0 (-1)) BigIdle w.

(** [App()] of [UI_2.py] with [n] points. *)
Definition app2 (n : Z) (w : World) : UI_2.App :=
  snd ((_init_arrays ;; UI_2._build_main) (blank2 n w)).

(** The same for [UI_test.py], the port open or not. *)
Definition blankt (n : Z) (port : option Serial) (w : World) : UI_test.App :=
  mkApp "" n 500 Manual "" false (UI_test.mkLimits 10 0.5 5 0.1) port
        [] [] [] 0 false None [] (mkCombo 0 (-1)) BigIdle w.

Definition appt (n : Z) (port : option Serial) (w : World) : UI_test.App :=
  snd ((_init_arrays ;; UI_test._build_main) (blankt n port w)).

Definition com3 : Serial := mkSerial "COM3" 9600 1.

(** The same world with the folder [out/x] configured, which is not there,
    and a save dialog that answers with a file in it. *)
Definition oracle1 : Oracle :=
  mkOracle (rand_tape oracle0) (choice_tape oracle0) (clock oracle0)
           (fun _ => "out/x/report.txt") (device oracle0).

Definition world1 : World :=
  mkWorld oracle1 0 0 0 0 0 [] 0 [] (mkFS [["home"]] [] []) ["home"].

Definition to_folder2 : UI_2.App := set_save_folder "out/x" (app2 2 world1).

Definition to_foldert : UI_test.App := set_save_folder "out/x" (appt 2 None world1).

(** Two points, the first measured as 10.1 and 5.0, the second not yet. *)
Definition half_done2 : UI_2.App :=
  snd (UI_2._refresh_rows
         (set_v_values [Some 5%float; None]
            (set_r_values [Some 10.1%float; None] (app2 2 world0)))).

Definition half_donet : UI_test.App :=
  snd (UI_test._refresh_rows
         (set_v_values [Some 5%float; None]
            (set_r_values [Some 10.1%float; None] (appt 2 None world0)))).

End Sample.

(* ================================================================== *)
(** * Properties *)
(* ================================================================== *)

(** ** Lists under Python indices *)

Lemma norm_index_nat (n i : nat) : (i < n)%nat -> Py.norm_index n (Z.of_nat i) = Some i.
Proof.
  intros H. unfold Py.norm_index.
  replace (0 <=? Z.of_nat i) with true by (symmetry; apply Z.leb_le; lia).
  replace (Z.of_nat i <? Z.of_nat n) with true by (symmetry; apply Z.ltb_lt; lia).
  cbn. now rewrite Nat2Z.id.
Qed.

Lemma getitem_nat {A} (l : list A) (i : nat) :
  (i < List.length l)%nat -> Py.getitem l (Z.of_nat i) = nth_error l i.
Proof. intros H. unfold Py.getitem. now rewrite norm_index_nat. Qed.

Lemma setitem_nat {A} (l : list A) (i : nat) (x : A) :
  (i < List.length l)%nat -> Py.setitem l (Z.of_nat i) x = Some (Py.update_nth l i x).
Proof. intros H. unfold Py.setitem. now rewrite norm_index_nat. Qed.

Lemma update_nth_length {A} (l : list A) (k : nat) (x : A) :
  List.length (Py.update_nth l k x) = List.length l.
Proof. revert k; induction l as [|h t IH]; intros [|k]; cbn; auto. Qed.

Lemma nth_error_update_nth {A} (l : list A) (k j : nat) (x : A) :
  nth_error (Py.update_nth l k x) j =
  if Nat.eqb j k then (if Nat.ltb k (List.length l) then Some x else None) else nth_error l j.
Proof.
  revert k j; induction l as [|h t IH]; intros k j.
  - cbn. destruct (Nat.eqb j k); destruct j; reflexivity.
  - destruct k as [|k], j as [|j]; cbn; try reflexivity.
    rewrite IH. destruct (Nat.eqb j k); reflexivity.
Qed.

Lemma firstn_update_nth {A} (l : list A) (k : nat) (x : A) :
  (k < List.length l)%nat -> firstn (S k) (Py.update_nth l k x) = firstn k l ++ [x].
Proof.
  revert k; induction l as [|h t IH]; intros k H; cbn in H; [lia|].
  destruct k as [|k]; [reflexivity|].
  change (firstn (S (S k)) (Py.update_nth (h :: t) (S k) x)) with (h :: firstn (S k) (Py.update_nth t k x)).
  rewrite IH by lia. reflexivity.
Qed.

Lemma update_nth_app_skip {A} (pre : list A) (y : A) (post : list A) (x : A) :
  Py.update_nth (pre ++ y :: post) (List.length pre) x = pre ++ x :: post.
Proof. induction pre as [|h t IH]; cbn; [reflexivity| now rewrite IH]. Qed.

Lemma skipn_nth_error {A} (l : list A) (i : nat) (x : A) :
  nth_error l i = Some x -> skipn i l = x :: skipn (S i) l.
Proof.
  revert i; induction l as [|h t IH]; intros [|i] H; cbn in *; try discriminate.
  - now injection H as ->.
  - now apply IH.
Qed.

Lemma nth_error_combine {A B} (l : list A) (m : list B) (i : nat) (x : A) (y : B) :
  nth_error l i = Some x -> nth_error m i = Some y -> nth_error (combine l m) i = Some (x, y).
Proof.
  revert m i; induction l as [|h t IH]; intros [|h' t'] [|i] H1 H2; cbn in *; try discriminate.
  - now injection H1 as ->; injection H2 as ->.
  - now apply IH.
Qed.

Lemma nth_error_some_lt {A} (l : list A) (i : nat) :
  (i < List.length l)%nat -> exists x, nth_error l i = Some x.
Proof.
  intros H. destruct (nth_error l i) eqn:E; [now eexists|].
  apply nth_error_None in E. lia.
Qed.

(** Projections of a state built by setters are computed. *)
Ltac fields :=
  cbn [model_name num_points auto_interval mode save_folder auto_export limits ser r_values v_values flags current_idx _auto_running _auto_job row_widgets point_combo big_canvas world
       set_model_name set_num_points set_auto_interval set_mode set_save_folder set_auto_export set_limits set_ser set_r_values set_v_values set_flags set_current_idx set__auto_running set__auto_job set_row_widgets set_point_combo set_big_canvas set_world
       oracle rand_pos choice_pos clock_pos dialog_pos device_pos jobs next_job events fs cwd
       set_rand_pos set_choice_pos set_clock_pos set_dialog_pos set_device_pos set_jobs set_next_job set_events set_fs].

(** A method applied to a state is run up to its next read of a list. *)
Ltac monad :=
  cbn [bind gets ret modify lift_opt raise when assert try_except try_finally
       on_world show fst snd];
  fields.

(** The same, binds opened wherever they stand. *)
Ltac crank :=
  repeat progress
    (unfold bind, gets, ret, modify, lift_opt, raise, when, assert, try_except,
       try_finally, on_world, show;
     cbn [fst snd]; fields).

Lemma run_bind {S A B} (c : M S A) (k : A -> M S B) (s s' : S) (a : A) :
  c s = (Ret a, s') -> bind c k s = k a s'.
Proof. intros H. unfold bind. now rewrite H. Qed.

Lemma run_bind_raise {S A B} (c : M S A) (k : A -> M S B) (s s' : S) (e : Exn) :
  c s = (Raise e, s') -> bind c k s = (Raise e, s').
Proof. intros H. unfold bind. now rewrite H. Qed.

Arguments Py.getitem : simpl never.
Arguments Py.setitem : simpl never.

(** ** [_refresh_rows] in closed form *)

Section Refresh.
Context {L : Type}.
Variables rmin rmax vmin vmax : float.

Definition flag_of (p : option float * option float) : bool :=
  pass_flag rmin rmax vmin vmax (fst p) (snd p).

Definition view_of (p : option float * option float) : Row :=
  row_view rmin rmax vmin vmax (fst p) (snd p).

(** The state [_refresh_rows] leaves: every flag and every row recomputed
    from the two readings of its point. *)
Definition refreshed (st : App L) : App L :=
  set_row_widgets (map view_of (combine (r_values st) (v_values st)))
    (set_flags (map flag_of (combine (r_values st) (v_values st))) st).

Lemma refresh_loop_spec (n k : nat) :
  forall (i : nat) (st : App L),
    (i + k = n)%nat ->
    List.length (r_values st) = n -> List.length (v_values st) = n ->
    List.length (flags st) = n -> List.length (row_widgets st) = n ->
    refresh_loop rmin rmax vmin vmax k i st =
    (Ret tt,
     set_row_widgets (firstn i (row_widgets st)
                      ++ map view_of (skipn i (combine (r_values st) (v_values st))))
       (set_flags (firstn i (flags st)
                   ++ map flag_of (skipn i (combine (r_values st) (v_values st)))) st)).
Proof.
  induction k as [|k IH]; intros i st Hik Hr Hv Hf Hw.
  - cbn. f_equal.
    rewrite !skipn_all2 by (rewrite length_combine; lia).
    rewrite !firstn_all2 by lia. cbn. rewrite !app_nil_r.
    now destruct st.
  - destruct (nth_error_some_lt (r_values st) i) as [r Er]; [lia|].
    destruct (nth_error_some_lt (v_values st) i) as [v Ev]; [lia|].
    cbn [refresh_loop]. unfold bind at 1. unfold refresh_at.
    unfold bind, gets, lift_opt, modify, ret.
    rewrite getitem_nat, Er by lia. cbn.
    rewrite getitem_nat, Ev by lia. cbn.
    rewrite setitem_nat by lia. cbn.
    rewrite IH; fields; rewrite ?update_nth_length; try lia.
    f_equal.
    rewrite !firstn_update_nth by lia.
    rewrite (skipn_nth_error _ i _ (nth_error_combine _ _ _ _ _ Er Ev)).
    cbn [map]. rewrite <- !app_assoc. cbn [app].
    now destruct st.
Qed.

Lemma refresh_rows_with_spec (n : nat) (st : App L) :
  List.length (r_values st) = n -> List.length (v_values st) = n ->
  List.length (flags st) = n -> List.length (row_widgets st) = n ->
  refresh_rows_with rmin rmax vmin vmax st = (Ret tt, refreshed st).
Proof.
  intros Hr Hv Hf Hw. unfold refresh_rows_with, bind, gets.
  rewrite (refresh_loop_spec n) by (assumption || lia).
  reflexivity.
Qed.

End Refresh.

(** ** Comparisons of floats *)

Lemma SFcompare_refl (x : spec_float) :
  x <> S754_nan -> SFcompare x x = Some Eq.
Proof.
  destruct x as [s|s| |s m e]; intros H; cbn; try congruence.
  - now destruct s.
  - destruct s; rewrite Z.compare_refl, Pos.compare_cont_refl; reflexivity.
Qed.

Lemma SFleb_not_nan (x y : spec_float) :
  SFleb x y = true -> x <> S754_nan /\ y <> S754_nan.
Proof.
  unfold SFleb. destruct x, y; cbn; intros H; split; congruence.
Qed.

(** A float that compares below or above another is no NaN, and so is
    below or equal to itself. *)
Lemma leb_refl_of_leb (x y : float) :
  (x <=? y)%float = true -> (x <=? x)%float = true /\ (y <=? y)%float = true.
Proof.
  rewrite !leb_spec. intros H. apply SFleb_not_nan in H as [Hx Hy].
  unfold SFleb. now rewrite !SFcompare_refl.
Qed.

(** ** C1: the pass flag and the highlighting *)

(** [lo <= x <= hi] holds. *)
Definition in_range (lo hi x : float) : Prop :=
  (lo <=? x)%float = true /\ (x <=? hi)%float = true.

Lemma within_in_range (lo hi x : float) : within lo hi x = true <-> in_range lo hi x.
Proof. unfold within, in_range. now rewrite andb_true_iff. Qed.

Lemma within_false (lo hi x : float) : within lo hi x = false <-> ~ in_range lo hi x.
Proof.
  rewrite <- within_in_range. destruct (within lo hi x); split; congruence.
Qed.

(** What is recorded and shown for a point with readings [r] and [v]. *)
Definition point_judged (rmin rmax vmin vmax : float) (r v : option float)
           (flag : bool) (row : Row) : Prop :=
  (flag = true <->
   exists x y, r = Some x /\ v = Some y /\ in_range rmin rmax x /\ in_range vmin vmax y)
  /\ (r = None \/ v = None -> flag = false)
  /\ (r_fg row = FgRed <-> exists x, r = Some x /\ ~ in_range rmin rmax x)
  /\ (v_fg row = FgRed <-> exists y, v = Some y /\ ~ in_range vmin vmax y).

Lemma fg_red_iff (lo hi : float) (r : option float) :
  (if is_some r && negb (ok_reading lo hi r) then FgRed else FgText) = FgRed <->
  exists x, r = Some x /\ ~ in_range lo hi x.
Proof.
  destruct r as [x|]; cbn.
  - destruct (within lo hi x) eqn:E; cbn; split.
    + discriminate.
    + intros (x' & [= <-] & Hn). apply within_false in Hn. congruence.
    + intros _. exists x. split; [reflexivity | now apply within_false].
    + reflexivity.
  - split; [discriminate | intros (x & [=] & _)].
Qed.

Lemma pass_flag_iff (rmin rmax vmin vmax : float) (r v : option float) :
  pass_flag rmin rmax vmin vmax r v = true <->
  exists x y, r = Some x /\ v = Some y /\ in_range rmin rmax x /\ in_range vmin vmax y.
Proof.
  unfold pass_flag. destruct r as [x|], v as [y|]; cbn.
  - rewrite andb_true_iff, !within_in_range. split.
    + intros [Hx Hy]. now exists x, y.
    + intros (x' & y' & [= <-] & [= <-] & Hx & Hy). now split.
  - split; [discriminate | intros (x' & y' & _ & [=] & _)].
  - split; [discriminate | intros (x' & y' & [=] & _)].
  - split; [discriminate | intros (x' & y' & [=] & _)].
Qed.

Lemma point_judged_intro (rmin rmax vmin vmax : float) (r v : option float) :
  point_judged rmin rmax vmin vmax r v
    (pass_flag rmin rmax vmin vmax r v) (row_view rmin rmax vmin vmax r v).
Proof.
  unfold point_judged, row_view. cbn [r_fg v_fg].
  split; [apply pass_flag_iff|]. split; [|split; apply fg_red_iff].
  intros [-> | ->]; unfold pass_flag; cbn; [reflexivity|].
  now destruct r.
Qed.

(** After [_refresh_rows] every point is judged from its two readings. *)
Definition all_judged {L} (rmin rmax vmin vmax : float) (n : nat) (st st' : App L) : Prop :=
  r_values st' = r_values st /\ v_values st' = v_values st /\ limits st' = limits st /\
  forall i, (i < n)%nat ->
    exists r v flag row,
      nth_error (r_values st) i = Some r /\ nth_error (v_values st) i = Some v /\
      nth_error (flags st') i = Some flag /\ nth_error (row_widgets st') i = Some row /\
      point_judged rmin rmax vmin vmax r v flag row.

Lemma refreshed_all_judged {L} (rmin rmax vmin vmax : float) (n : nat) (st : App L) :
  List.length (r_values st) = n -> List.length (v_values st) = n ->
  all_judged rmin rmax vmin vmax n st (refreshed rmin rmax vmin vmax st).
Proof.
  intros Hr Hv. unfold all_judged, refreshed. fields.
  repeat split; try reflexivity.
  intros i Hi.
  destruct (nth_error_some_lt (r_values st) i) as [r Er]; [lia|].
  destruct (nth_error_some_lt (v_values st) i) as [v Ev]; [lia|].
  exists r, v, (pass_flag rmin rmax vmin vmax r v), (row_view rmin rmax vmin vmax r v).
  rewrite !nth_error_map, (nth_error_combine _ _ _ _ _ Er Ev). cbn.
  repeat split; try assumption; apply point_judged_intro.
Qed.

(** C1.  In both programs [_refresh_rows] records, for every point, a pass
    flag that is true exactly when both readings are present and each lies
    in its closed interval; a point with one reading missing is a fail; an
    entry is shown in red exactly when its own reading is present and out of
    range.  The interval includes both of its bounds. *)
Theorem C1_pass_flag_iff_both_within (n : nat) (st2 : UI_2.App) (stt : UI_test.App) :
  shaped n st2 -> shaped n stt ->
  (exists st2',
     UI_2._refresh_rows st2 = (Ret tt, st2') /\
     all_judged (UI_2.r_min (limits st2)) (UI_2.r_max (limits st2))
                (UI_2.v_min (limits st2)) (UI_2.v_max (limits st2)) n st2 st2')
  /\ (exists stt',
     UI_test._refresh_rows stt = (Ret tt, stt') /\
     all_judged (fst (UI_test._r_bounds stt)) (snd (UI_test._r_bounds stt))
                (fst (UI_test._v_bounds stt)) (snd (UI_test._v_bounds stt)) n stt stt')
  /\ (forall lo hi : float, (lo <=? hi)%float = true -> in_range lo hi lo /\ in_range lo hi hi).
Proof.
  intros (_ & Hr2 & Hv2 & Hf2 & Hw2 & _) (_ & Hrt & Hvt & Hft & Hwt & _).
  split; [|split].
  - eexists. split.
    + unfold UI_2._refresh_rows, bind, gets.
      apply (refresh_rows_with_spec _ _ _ _ n); assumption.
    + now apply refreshed_all_judged.
  - eexists. split.
    + unfold UI_test._refresh_rows, bind, gets. cbn.
      apply (refresh_rows_with_spec _ _ _ _ n); assumption.
    + now apply refreshed_all_judged.
  - intros lo hi H. destruct (leb_refl_of_leb _ _ H). unfold in_range. auto.
Qed.

Lemma C1_witness :
  shaped 2 Sample.half_done2 /\ shaped 2 Sample.half_donet /\
  exists st2',
    UI_2._refresh_rows Sample.half_done2 = (Ret tt, st2') /\
    all_judged 9.5 10.5 4.9 5.1 2 Sample.half_done2 st2'.
Proof.
  assert (H2 : shaped 2 Sample.half_done2) by (vm_compute; repeat split; reflexivity).
  assert (Ht : shaped 2 Sample.half_donet) by (vm_compute; repeat split; reflexivity).
  refine (conj H2 (conj Ht _)).
  exact (proj1 (C1_pass_flag_iff_both_within 2 _ _ H2 Ht)).
Defined.

(** ** C3: set and tolerance against min and max *)

(** The rule in the spec's words: a value passes iff [min <= x <= max],
    both ends included. *)
Definition evaluate_min_max (min max x : float) : bool :=
  ((min <=? x) && (x <=? max))%float.

(** The limits of a [UI_2.py] session are the ones a [UI_test.py] session
    derives from its set values and tolerances. *)
Definition same_limits (st2 : UI_2.App) (stt : UI_test.App) : Prop :=
  UI_2.r_min (limits st2) = (UI_test.r_set (limits stt) - UI_test.r_tol (limits stt))%float /\
  UI_2.r_max (limits st2) = (UI_test.r_set (limits stt) + UI_test.r_tol (limits stt))%float /\
  UI_2.v_min (limits st2) = (UI_test.v_set (limits stt) - UI_test.v_tol (limits stt))%float /\
  UI_2.v_max (limits st2) = (UI_test.v_set (limits stt) + UI_test.v_tol (limits stt))%float.

(** C3.  A session that derives its bounds from set and tolerance judges
    every reading as a session whose explicit bounds are [set - tol] and
    [set + tol] does, and both judge as the spec's rule on those bounds: the
    flags and the rows [_refresh_rows] leaves are the same.  The tolerance
    need not be assumed non-negative.  Set 10 with tolerance 0.5 and the
    bounds 9.5 and 10.5 are one such pair. *)
Theorem C3_set_tol_same_as_min_max (n : nat) (st2 : UI_2.App) (stt : UI_test.App) :
  shaped n st2 -> shaped n stt ->
  r_values st2 = r_values stt -> v_values st2 = v_values stt ->
  same_limits st2 stt ->
  (exists st2' stt',
     UI_2._refresh_rows st2 = (Ret tt, st2') /\
     UI_test._refresh_rows stt = (Ret tt, stt') /\
     flags st2' = flags stt' /\ row_widgets st2' = row_widgets stt')
  /\ (forall x : float,
        ok_reading (fst (UI_test._r_bounds stt)) (snd (UI_test._r_bounds stt)) (Some x)
        = evaluate_min_max (UI_2.r_min (limits st2)) (UI_2.r_max (limits st2)) x
        /\ ok_reading (UI_2.r_min (limits st2)) (UI_2.r_max (limits st2)) (Some x)
           = evaluate_min_max (UI_2.r_min (limits st2)) (UI_2.r_max (limits st2)) x)
  /\ (forall x : float,
        ok_reading (10 - 0.5)%float (10 + 0.5)%float (Some x) = ok_reading 9.5 10.5 (Some x)).
Proof.
  intros (_ & Hr2 & Hv2 & Hf2 & Hw2 & _) (_ & Hrt & Hvt & Hft & Hwt & _) Er Ev (E1 & E2 & E3 & E4).
  split; [|split].
  - exists (refreshed (UI_2.r_min (limits st2)) (UI_2.r_max (limits st2))
                      (UI_2.v_min (limits st2)) (UI_2.v_max (limits st2)) st2).
    exists (refreshed (fst (UI_test._r_bounds stt)) (snd (UI_test._r_bounds stt))
                      (fst (UI_test._v_bounds stt)) (snd (UI_test._v_bounds stt)) stt).
    split; [|split].
    + unfold UI_2._refresh_rows, bind, gets.
      apply (refresh_rows_with_spec _ _ _ _ n); assumption.
    + unfold UI_test._refresh_rows, bind, gets. cbn.
      apply (refresh_rows_with_spec _ _ _ _ n); assumption.
    + unfold refreshed, UI_test._r_bounds, UI_test._v_bounds. fields. cbn [fst snd].
      rewrite Er, Ev, E1, E2, E3, E4. split; reflexivity.
  - intros x. unfold UI_test._r_bounds. cbn [fst snd ok_reading].
    rewrite E1, E2. split; reflexivity.
  - intros x. reflexivity.
Qed.

Lemma C3_witness :
  same_limits Sample.half_done2 Sample.half_donet /\
  exists st2' stt',
    UI_2._refresh_rows Sample.half_done2 = (Ret tt, st2') /\
    UI_test._refresh_rows Sample.half_donet = (Ret tt, stt') /\
    flags st2' = flags stt' /\ row_widgets st2' = row_widgets stt'.
Proof.
  assert (H2 : shaped 2 Sample.half_done2) by (vm_compute; repeat split; reflexivity).
  assert (Ht : shaped 2 Sample.half_donet) by (vm_compute; repeat split; reflexivity).
  assert (Hl : same_limits Sample.half_done2 Sample.half_donet)
    by (vm_compute; repeat split; reflexivity).
  split; [exact Hl|].
  exact (proj1 (C3_set_tol_same_as_min_max 2 _ _ H2 Ht eq_refl eq_refl Hl)).
Defined.

(** ** C4: the response line *)

(** The fields [_parse_meter_line] sees. *)
Definition fields_of (line : string) : list string :=
  map Py.strip (Py.split_on "," (Py.strip line)).

Definition field (line : string) (k : nat) : string := nth k (fields_of line) "".

(** The status in the claim's words: one leading [+] is stripped, then the
    field is read as an integer, absent when that fails. *)
Definition strip_leading_plus (s : string) : string :=
  match s with
  | String "+" s' => s'
  | _ => s
  end.

Definition status_after_leading_plus (p2 : string) : option Z :=
  Py.int (strip_leading_plus p2).

Lemma parse_meter_line_cases (line : string) :
  UI_test._parse_meter_line line =
  match fields_of line with
  | p0 :: p1 :: rest =>
      match Py.float_of_str p0, Py.float_of_str p1 with
      | Some r, Some v =>
          Ret (r, v, match rest with
                     | p2 :: _ => Py.int (Py.remove_char "+" p2)
                     | [] => None
                     end)
      | _, _ => Raise ValueError
      end
  | _ => Raise ValueError
  end.
Proof.
  unfold UI_test._parse_meter_line, fields_of.
  destruct (map Py.strip (Py.split_on "," (Py.strip line))) as [|p0 [|p1 rest]]; reflexivity.
Qed.

(** C4, as the code has it.  The line of the docstring parses to 0.00587263
    ohm, 3.0994 volt and status 0; a line fails, with [ValueError] and nothing
    else, exactly when it has fewer than two fields or one of the first two
    is no float literal; the status is the integer read from the third field
    once every [+] in it is removed, and is absent, never an error, when
    that is no integer or there is no third field. *)
Theorem C4_parse_meter_line :
  UI_test._parse_meter_line "+5.87263E-03,+3.09940E+00,+0"
  = Ret (0.00587263%float, 3.0994%float, Some 0)
  /\ UI_test._parse_meter_line "abc" = Raise ValueError
  /\ UI_test._parse_meter_line "1.5,2.5,x" = Ret (1.5%float, 2.5%float, None)
  /\ (forall line,
        UI_test._parse_meter_line line = Raise ValueError <->
        (List.length (fields_of line) < 2)%nat
        \/ Py.float_of_str (field line 0) = None
        \/ Py.float_of_str (field line 1) = None)
  /\ (forall line e, UI_test._parse_meter_line line = Raise e -> e = ValueError)
  /\ (forall line r v s,
        UI_test._parse_meter_line line = Ret (r, v, s) ->
        Py.float_of_str (field line 0) = Some r /\
        Py.float_of_str (field line 1) = Some v /\
        s = match nth_error (fields_of line) 2 with
            | Some p2 => Py.int (Py.remove_char "+" p2)
            | None => None
            end).
Proof.
  split; [vm_compute; reflexivity|].
  split; [vm_compute; reflexivity|].
  split; [vm_compute; reflexivity|].
  split; [|split].
  - intros line. rewrite parse_meter_line_cases. unfold field.
    destruct (fields_of line) as [|p0 [|p1 rest]]; cbn [nth List.length].
    + split; [intros _; left; lia | reflexivity].
    + split; [intros _; left; lia | reflexivity].
    + destruct (Py.float_of_str p0), (Py.float_of_str p1); split;
        try discriminate; try (intros _; now auto);
        intros [H|[H|H]]; solve [lia | discriminate].
  - intros line e. rewrite parse_meter_line_cases.
    destruct (fields_of line) as [|p0 [|p1 rest]]; try congruence.
    destruct (Py.float_of_str p0), (Py.float_of_str p1); congruence.
  - intros line r v s. rewrite parse_meter_line_cases. unfold field.
    destruct (fields_of line) as [|p0 [|p1 rest]]; try discriminate.
    cbn [nth nth_error].
    destruct (Py.float_of_str p0), (Py.float_of_str p1); try discriminate.
    intros [= <- <- <-]. repeat split. now destruct rest.
Qed.

(** On the line [1,2,1+2] the code reads status 12, where stripping one
    leading [+] leaves [1+2], which is no integer. *)
Lemma C4_status_removes_every_plus :
  exists r v s,
    UI_test._parse_meter_line "1,2,1+2" = Ret (r, v, s) /\
    s = Some 12 /\
    status_after_leading_plus (field "1,2,1+2" 2) = None /\
    s <> status_after_leading_plus (field "1,2,1+2" 2).
Proof.
  exists 1%float, 2%float, (Some 12).
  repeat split; try (vm_compute; reflexivity).
  vm_compute. discriminate.
Qed.

(** ** C9: the simulated reading *)

(** The generator in the spec's words.  A draw [u] of [random.random()] is
    uniform on the unit interval; [uniform_between a b u] carries it onto
    the interval from [a] to [b], which is how [random.uniform] draws. *)
Definition uniform_between (a b u : float) : float := (a + (b - a) * u)%float.

Definition center (min max : float) : float := ((min + max) / 2)%float.

Definition half_span (min max : float) : float := ((max - min) / 2)%float.

(** Within 0.6 of the half-span around the centre. *)
Definition near_center (min max u : float) : float :=
  uniform_between (center min max - 0.6 * half_span min max)%float
                  (center min max + 0.6 * half_span min max)%float u.

(** The centre displaced by between 0.7 and 1.6 half-spans, up or down. *)
Definition displaced (min max : float) (up : bool) (u : float) : float :=
  (center min max
   + (if up then 1 else -1) * uniform_between (0.7 * half_span min max) (1.6 * half_span min max) u)%float.

(** One reading from the draws found at position [p] of the tape of
    [random()] and position [q] of the tape of signs: the first draw falls
    below 0.8 with probability 0.8 and picks the mode, the next two place
    the two axes, each sign is drawn on its own. *)
Definition simulated_reading (rmin rmax vmin vmax : float) (o : Oracle) (p q : nat)
  : float * float :=
  if (rand_tape o p <? 0.8)%float then
    (near_center rmin rmax (rand_tape o (S p)), near_center vmin vmax (rand_tape o (S (S p))))
  else
    (displaced rmin rmax (choice_tape o q) (rand_tape o (S p)),
     displaced vmin vmax (choice_tape o (S q)) (rand_tape o (S (S p)))).

(** The world after [dr] draws of [random()], [dc] draws of a sign and
    [dd] exchanges with the device. *)
Definition advance (dr dc dd : nat) (w : World) : World :=
  set_device_pos (dd + device_pos w)
    (set_choice_pos (dc + choice_pos w) (set_rand_pos (dr + rand_pos w) w)).

Lemma set_world_same {L} (st : App L) : set_world (world st) st = st.
Proof. now destruct st. Qed.

Lemma simulate_spec {L} (rmin rmax vmin vmax : float) (st : App L) :
  let w := world st in
  let near := (rand_tape (oracle w) (rand_pos w) <? 0.8)%float in
  simulate rmin rmax vmin vmax st =
  (Ret (simulated_reading rmin rmax vmin vmax (oracle w) (rand_pos w) (choice_pos w)),
   set_world (advance 3 (if near then 0 else 2) 0 w) st).
Proof.
  destruct st as [mn np ai md sf ae lim se rs vs fl ci ar aj rw pc bc w].
  destruct w as [o rp cp kp dp vp js nj ev f c].
  unfold simulate, simulated_reading, bind, random_uniform, random_random,
    random_choice_sign, on_world, bind, gets, modify, ret.
  cbn.
  destruct (rand_tape o rp <? 0.8)%float; reflexivity.
Qed.

(** C9.  The simulated meter of [UI_2.py], and the fallback of
    [UI_test.py] (here with no port open, so that the exchange raises),
    return for every choice of limits and every outcome of the draws the
    reading the spec describes: one draw compared with 0.8 chooses between
    the two modes; near the centre each axis is drawn within 0.6 half-spans
    of it; otherwise each axis is displaced by a draw between 0.7 and 1.6
    half-spans, with a sign drawn for it.  Three draws of [random()] are
    used, and two signs in the displaced mode. *)
Theorem C9_simulated_reading_80_20 :
  (forall st : UI_2.App,
     let w := world st in
     let l := limits st in
     UI_2._read_meter st =
     (Ret (simulated_reading (UI_2.r_min l) (UI_2.r_max l) (UI_2.v_min l) (UI_2.v_max l)
             (oracle w) (rand_pos w) (choice_pos w)),
      set_world (advance 3 (if (rand_tape (oracle w) (rand_pos w) <? 0.8)%float then 0 else 2)
                         0 w) st))
  /\ (forall st : UI_test.App,
     let w := world st in
     let l := limits st in
     ser st = None ->
     UI_test._read_meter st =
     (Ret (simulated_reading
             (UI_test.r_set l - UI_test.r_tol l) (UI_test.r_set l + UI_test.r_tol l)
             (UI_test.v_set l - UI_test.v_tol l) (UI_test.v_set l + UI_test.v_tol l)
             (oracle w) (rand_pos w) (choice_pos w)),
      set_world (advance 3 (if (rand_tape (oracle w) (rand_pos w) <? 0.8)%float then 0 else 2)
                         0 w) st))
  /\ (forall min max u : float,
        near_center min max u
        = ((min + max) / 2 - 0.6 * ((max - min) / 2)
           + ((min + max) / 2 + 0.6 * ((max - min) / 2)
              - ((min + max) / 2 - 0.6 * ((max - min) / 2))) * u)%float)
  /\ (forall min max u : float,
        displaced min max true u
        = ((min + max) / 2
           + 1 * (0.7 * ((max - min) / 2)
                  + (1.6 * ((max - min) / 2) - 0.7 * ((max - min) / 2)) * u))%float
        /\ displaced min max false u
        = ((min + max) / 2
           + -1 * (0.7 * ((max - min) / 2)
                   + (1.6 * ((max - min) / 2) - 0.7 * ((max - min) / 2)) * u))%float).
Proof.
  split; [|split; [|split]].
  - intros st w l. unfold UI_2._read_meter, bind, gets. cbn beta.
    apply simulate_spec.
  - intros st w l Hser. unfold UI_test._read_meter, try_except, bind.
    unfold UI_test._query_fetc_once, bind, gets at 1. cbn beta. rewrite Hser.
    unfold raise, gets. cbn beta iota.
    unfold UI_test._r_bounds, UI_test._v_bounds. cbn beta iota.
    apply simulate_spec.
  - reflexivity.
  - intros. split; reflexivity.
Qed.

(** ** One measurement in [UI_2.py], in closed form *)

Lemma refresh_rows_2_spec (n : nat) (st : UI_2.App) :
  List.length (r_values st) = n -> List.length (v_values st) = n ->
  List.length (flags st) = n -> List.length (row_widgets st) = n ->
  UI_2._refresh_rows st =
  (Ret tt, refreshed (UI_2.r_min (limits st)) (UI_2.r_max (limits st))
                     (UI_2.v_min (limits st)) (UI_2.v_max (limits st)) st).
Proof.
  intros. unfold UI_2._refresh_rows, bind, gets.
  now apply (refresh_rows_with_spec _ _ _ _ n).
Qed.

(** What [_draw_big_box] of [UI_2.py] shows for the readings at the cursor. *)
Definition big2 (l : UI_2.Limits) (r v : option float) : Big :=
  match r, v with
  | None, None => BigIdle
  | _, _ =>
      if within (UI_2.r_min l) (UI_2.r_max l) (match r with Some x => x | None => 1e9%float end)
         && within (UI_2.v_min l) (UI_2.v_max l) (match v with Some x => x | None => 1e9%float end)
      then BigPass else BigFail
  end.

Lemma update_big_box_2_spec (st : UI_2.App) (k : nat) (r v : option float) :
  current_idx st = Z.of_nat k ->
  nth_error (r_values st) k = Some r -> nth_error (v_values st) k = Some v ->
  UI_2._update_big_box st = (Ret tt, set_big_canvas (big2 (limits st) r v) st).
Proof.
  intros Hc Hr Hv.
  assert (Lr : (k < List.length (r_values st))%nat) by (apply nth_error_Some; congruence).
  assert (Lv : (k < List.length (v_values st))%nat) by (apply nth_error_Some; congruence).
  unfold UI_2._update_big_box, UI_2._draw_big_box. monad.
  rewrite Hc, getitem_nat, Hr by assumption. monad.
  rewrite getitem_nat, Hv by assumption. monad.
  rewrite Hc, getitem_nat, Hr by assumption. monad.
  rewrite getitem_nat, Hv by assumption. monad.
  unfold big2. destruct r, v; reflexivity.
Qed.

(** The state of [UI_2.py] once [_measure_one] has recorded the reading
    [(r, v)] at point [k] and redrawn, the world being [w] after the draws. *)
Definition recorded2 (k : nat) (r v : float) (w : World) (st : UI_2.App) : UI_2.App :=
  let l := limits st in
  set_big_canvas (big2 l (Some r) (Some v))
    (refreshed (UI_2.r_min l) (UI_2.r_max l) (UI_2.v_min l) (UI_2.v_max l)
       (set_v_values (Py.update_nth (v_values st) k (Some v))
          (set_r_values (Py.update_nth (r_values st) k (Some r))
             (set_world w st)))).

(** The reading [_measure_one] of [UI_2.py] takes in state [st], and the
    world after it. *)
Definition reading2 (st : UI_2.App) : float * float :=
  let l := limits st in
  simulated_reading (UI_2.r_min l) (UI_2.r_max l) (UI_2.v_min l) (UI_2.v_max l)
    (oracle (world st)) (rand_pos (world st)) (choice_pos (world st)).

Definition drawn (w : World) : World :=
  advance 3 (if (rand_tape (oracle w) (rand_pos w) <? 0.8)%float then 0 else 2) 0 w.

Definition after_reading2 (k : nat) (st : UI_2.App) : UI_2.App :=
  recorded2 k (fst (reading2 st)) (snd (reading2 st)) (drawn (world st)) st.

Lemma read_meter_2_spec (st : UI_2.App) :
  UI_2._read_meter st = (Ret (reading2 st), set_world (drawn (world st)) st).
Proof.
  unfold UI_2._read_meter. monad. apply simulate_spec.
Qed.

(** [_measure_one] of [UI_2.py] from the line that looks at the cursor. *)
Definition measure_tail2 (from_auto : bool) : M UI_2.App unit :=
  cur <- gets current_idx ;;
  n <- gets num_points ;;
  if cur <? n - 1 then
    modify (set_current_idx (cur + 1)) ;;
    combo_current (cur + 1) ;;
    _scroll_row_into_view (cur + 1)
  else if from_auto then
    modify (set__auto_running false) ;;
    j <- gets _auto_job ;;
    match j with
    | Some k => after_cancel k ;; modify (set__auto_job None)
    | None => ret tt
    end ;;
    _update_mode_buttons ;;
    ae <- gets auto_export ;;
    when ae UI_2._export_snapshot ;;
    _ <- after 0 (CbShowInfo "Auto" "Auto measurement finished.") ;;
    ret tt
  else
    show (ShowInfo "Done" "Measured all points.").

Lemma shaped_after_reading2 (n k : nat) (st : UI_2.App) :
  shaped n st -> (k < n)%nat -> shaped n (after_reading2 k st).
Proof.
  intros (Hn & Hr & Hv & Hf & Hw & Hc) Hk.
  unfold shaped, after_reading2, recorded2, refreshed. fields.
  rewrite !length_map, !length_combine, !update_nth_length.
  repeat split; try assumption; lia.
Qed.

Lemma measure_one_2_unfold (n k : nat) (from_auto : bool) (st : UI_2.App) :
  shaped n st -> current_idx st = Z.of_nat k -> (k < n)%nat ->
  UI_2._measure_one from_auto st = measure_tail2 from_auto (after_reading2 k st).
Proof.
  intros (Hn & Hr & Hv & Hf & Hw & Hc) Hi Hk.
  unfold UI_2._measure_one. monad.
  rewrite (run_bind _ _ _ _ _ (read_meter_2_spec st)).
  destruct (reading2 st) as [r v] eqn:Erv. monad.
  rewrite Hi, setitem_nat by lia. monad.
  rewrite setitem_nat by lia. monad.
  erewrite run_bind;
    [ | apply (refresh_rows_2_spec n); fields; rewrite ?update_nth_length; assumption ].
  erewrite run_bind;
    [ | apply (update_big_box_2_spec _ k (Some r) (Some v));
        unfold refreshed; fields; try assumption;
        rewrite nth_error_update_nth, Nat.eqb_refl;
        replace (Nat.ltb k _) with true by (symmetry; apply Nat.ltb_lt; lia); reflexivity ].
  unfold after_reading2, recorded2, measure_tail2. rewrite Erv. cbn [fst snd].
  reflexivity.
Qed.

Lemma measure_tail2_next (n k : nat) (from_auto : bool) (st : UI_2.App) :
  shaped n st -> current_idx st = Z.of_nat k -> (S k < n)%nat ->
  measure_tail2 from_auto st =
  (Ret tt, set_point_combo (mkCombo (Z.of_nat n) (Z.of_nat k + 1))
             (set_current_idx (Z.of_nat k + 1) st)).
Proof.
  intros (Hn & _ & _ & _ & _ & Hc) Hi Hk.
  unfold measure_tail2. monad. rewrite Hi, Hn.
  replace (Z.of_nat k <? Z.of_nat n - 1) with true by (symmetry; apply Z.ltb_lt; lia).
  monad. unfold combo_current, _scroll_row_into_view. crank. rewrite Hc.
  replace (0 <=? Z.of_nat k + 1) with true by (symmetry; apply Z.leb_le; lia).
  replace (Z.of_nat k + 1 <? Z.of_nat n) with true by (symmetry; apply Z.ltb_lt; lia).
  reflexivity.
Qed.

Lemma measure_tail2_done (n k : nat) (st : UI_2.App) :
  shaped n st -> current_idx st = Z.of_nat k -> S k = n ->
  measure_tail2 false st =
  (Ret tt, set_world (set_events (events (world st)
                                  ++ [ShowInfo "Done" "Measured all points."]) (world st)) st).
Proof.
  intros (Hn & _) Hi Hk.
  unfold measure_tail2. monad. rewrite Hi, Hn.
  replace (Z.of_nat k <? Z.of_nat n - 1) with false by (symmetry; apply Z.ltb_ge; lia).
  reflexivity.
Qed.

(** ** C5: the cursor walks the points and holds at the last *)

(** A manual measurement at point [k] of [n]: it ends normally, records a
    reading at [k] and nowhere else, and moves the cursor to the next point
    unless [k] is the last. *)
Definition measures_at {L} (measure : M (App L) unit) (n k : nat) (st st' : App L) : Prop :=
  measure st = (Ret tt, st') /\
  current_idx st' = Z.of_nat (Nat.min (S k) (n - 1)) /\
  exists r v, r_values st' = Py.update_nth (r_values st) k (Some r) /\
              v_values st' = Py.update_nth (v_values st) k (Some v).

Lemma after_reading2_fields (k : nat) (st : UI_2.App) :
  current_idx (after_reading2 k st) = current_idx st /\
  r_values (after_reading2 k st) = Py.update_nth (r_values st) k (Some (fst (reading2 st))) /\
  v_values (after_reading2 k st) = Py.update_nth (v_values st) k (Some (snd (reading2 st))) /\
  world (after_reading2 k st) = drawn (world st) /\
  _auto_running (after_reading2 k st) = _auto_running st /\
  _auto_job (after_reading2 k st) = _auto_job st /\
  auto_export (after_reading2 k st) = auto_export st /\
  auto_interval (after_reading2 k st) = auto_interval st /\
  limits (after_reading2 k st) = limits st.
Proof.
  unfold after_reading2, recorded2, refreshed. fields. repeat split; reflexivity.
Qed.

Lemma measure_one_2_step (n k : nat) (st : UI_2.App) :
  shaped n st -> current_idx st = Z.of_nat k -> (k < n)%nat ->
  exists st', measures_at (UI_2._measure_one false) n k st st' /\ shaped n st'.
Proof.
  intros Hs Hi Hk.
  pose proof (shaped_after_reading2 n k st Hs Hk) as Hs5.
  destruct (after_reading2_fields k st) as (Fc & Fr & Fv & _).
  rewrite Hi in Fc.
  unfold measures_at. rewrite (measure_one_2_unfold n k) by assumption.
  revert Hs5 Fc Fr Fv. generalize (after_reading2 k st). intros Y Hs5 Fc Fr Fv.
  destruct (Nat.eq_dec (S k) n) as [E|E].
  - rewrite (measure_tail2_done n k) by assumption.
    eexists. split; [split; [reflexivity|split]|].
    + fields. rewrite Fc. lia.
    + exists (fst (reading2 st)), (snd (reading2 st)). fields. now split.
    + destruct Hs5 as (H1 & H2 & H3 & H4 & H5 & H6).
      unfold shaped. fields. repeat split; assumption.
  - rewrite (measure_tail2_next n k) by (assumption || lia).
    eexists. split; [split; [reflexivity|split]|].
    + fields. lia.
    + exists (fst (reading2 st)), (snd (reading2 st)). fields. now split.
    + destruct Hs5 as (H1 & H2 & H3 & H4 & H5 & H6).
      unfold shaped. fields. repeat split; assumption.
Qed.

Section Walk.
Context {L : Type}.
Variable measure : M (App L) unit.
Variable keeps : App L -> Prop.
Variable n : nat.
Hypothesis n_pos : (0 < n)%nat.
Hypothesis step :
  forall k st, shaped n st -> keeps st -> current_idx st = Z.of_nat k -> (k < n)%nat ->
  exists st', measures_at measure n k st st' /\ shaped n st' /\ keeps st'.

(** Where the session stands after [j] calls. *)
Definition walked (st0 : App L) (j : nat) (st : App L) : Prop :=
  shaped n st /\ keeps st /\
  current_idx st = Z.of_nat (Nat.min j (n - 1)) /\
  (forall i, (i < Nat.min j n)%nat ->
     exists x y, nth_error (r_values st) i = Some (Some x) /\
                 nth_error (v_values st) i = Some (Some y)) /\
  (forall i, (j <= i)%nat ->
     nth_error (r_values st) i = nth_error (r_values st0) i /\
     nth_error (v_values st) i = nth_error (v_values st0) i).

Lemma walked_step (st0 st : App L) (j : nat) :
  walked st0 j st ->
  exists st', measures_at measure n (Nat.min j (n - 1)) st st' /\ walked st0 (S j) st'.
Proof.
  intros (Hs & Hk & Hc & Hdone & Hrest).
  destruct (step (Nat.min j (n - 1)) st Hs Hk Hc) as (st' & Hm & Hs' & Hk'); [lia|].
  exists st'. split; [exact Hm|].
  destruct Hm as (_ & Hc' & r & v & Hr & Hv).
  destruct Hs as (_ & Lr & Lv & _).
  split; [exact Hs'|]. split; [exact Hk'|].
  split; [rewrite Hc'; f_equal; lia|].
  split.
  - intros i Hi. rewrite Hr, Hv, !nth_error_update_nth.
    destruct (Nat.eqb_spec i (Nat.min j (n - 1))) as [->|Ne].
    + replace (Nat.ltb _ (List.length (r_values st))) with true
        by (symmetry; apply Nat.ltb_lt; lia).
      replace (Nat.ltb _ (List.length (v_values st))) with true
        by (symmetry; apply Nat.ltb_lt; lia).
      now exists r, v.
    + apply Hdone. lia.
  - intros i Hi. rewrite Hr, Hv, !nth_error_update_nth.
    destruct (Nat.eqb_spec i (Nat.min j (n - 1))) as [->|Ne]; [lia|].
    apply Hrest. lia.
Qed.

Lemma walk_from (j : nat) :
  forall (m : nat) (st0 st : App L),
    walked st0 m st ->
    exists st', times j measure st = (Ret tt, st') /\ walked st0 (m + j) st'.
Proof.
  induction j as [|j IH]; intros m st0 st Hw.
  - exists st. split; [reflexivity|]. now rewrite Nat.add_0_r.
  - destruct (walked_step st0 st m Hw) as (st1 & (Hm & _) & Hw1).
    destruct (IH (S m) st0 st1 Hw1) as (st' & Ht & Hw').
    exists st'. split.
    + cbn [times]. now rewrite (run_bind _ _ _ _ _ Hm).
    + now rewrite Nat.add_succ_r.
Qed.

(** From a session at its first point: every further call succeeds; call
    number [j] (counting from 0) finds the cursor at [min j (n-1)], writes
    there and nowhere else, and leaves the cursor at [min (j+1) (n-1)];
    after [n] calls every point has both readings. *)
Lemma walk (st : App L) :
  shaped n st -> keeps st -> current_idx st = 0 ->
  (forall j, exists st_j st_j',
     times j measure st = (Ret tt, st_j) /\
     current_idx st_j = Z.of_nat (Nat.min j (n - 1)) /\
     measures_at measure n (Nat.min j (n - 1)) st_j st_j')
  /\ (exists st_n,
        times n measure st = (Ret tt, st_n) /\
        current_idx st_n = Z.of_nat (n - 1) /\
        forall i, (i < n)%nat ->
          exists x y, nth_error (r_values st_n) i = Some (Some x) /\
                      nth_error (v_values st_n) i = Some (Some y)).
Proof.
  intros Hs Hk Hc.
  assert (Hw : walked st 0 st).
  { split; [exact Hs|]. split; [exact Hk|]. split; [exact Hc|].
    split; [intros i Hi; cbn in Hi; lia | intros i _; split; reflexivity]. }
  split.
  - intros j. destruct (walk_from j 0 st st Hw) as (st_j & Ht & Hwj).
    destruct (walked_step st st_j (0 + j) Hwj) as (st_j' & Hm & _).
    exists st_j, st_j'. split; [exact Ht|]. split; [apply Hwj | exact Hm].
  - destruct (walk_from n 0 st st Hw) as (st_n & Ht & (_ & _ & Hcn & Hall & _)).
    exists st_n. split; [exact Ht|]. split.
    + rewrite Hcn. f_equal. cbn. lia.
    + intros i Hi. apply Hall. cbn. lia.
Qed.

End Walk.

(** ** One measurement in [UI_test.py], in closed form *)

(** What the instrument yields in state [st]: the reading in milliohm and
    volt when a port is open, the device answers a line and the line
    parses. *)
Definition instrument_reading (st : UI_test.App) : option (float * float) :=
  match ser st with
  | None => None
  | Some _ =>
      match device (oracle (world st)) (device_pos (world st)) with
      | Line raw =>
          if String.eqb raw "" then None
          else match UI_test._parse_meter_line (Py.decode_ascii_ignore raw) with
               | Ret (r_ohm, v_volt, _) => Some ((r_ohm * 1000)%float, v_volt)
               | Raise _ => None
               end
      | _ => None
      end
  end.

(** The world once the device has been asked, if a port is open. *)
Definition asked (st : UI_test.App) : World :=
  match ser st with
  | None => world st
  | Some _ => set_device_pos (S (device_pos (world st))) (world st)
  end.

(** The reading [_read_meter] of [UI_test.py] returns in [st], and the world
    it leaves. *)
Definition readingt (st : UI_test.App) : float * float :=
  match instrument_reading st with
  | Some rv => rv
  | None =>
      let l := limits st in
      simulated_reading
        (UI_test.r_set l - UI_test.r_tol l) (UI_test.r_set l + UI_test.r_tol l)
        (UI_test.v_set l - UI_test.v_tol l) (UI_test.v_set l + UI_test.v_tol l)
        (oracle (world st)) (rand_pos (world st)) (choice_pos (world st))
  end.

Definition worldt (st : UI_test.App) : World :=
  match instrument_reading st with
  | Some _ => asked st
  | None => drawn (asked st)
  end.

Lemma read_meter_t_spec (st : UI_test.App) :
  UI_test._read_meter st = (Ret (readingt st), set_world (worldt st) st).
Proof.
  destruct st as [mn np ai md sf ae lim se rs vs fl ci ar aj rw pc bc w].
  destruct w as [o rp cp kp dp vp js nj ev f c].
  unfold readingt, worldt, instrument_reading, asked. fields.
  unfold UI_test._read_meter, UI_test._query_fetc_once, UI_test._r_bounds, UI_test._v_bounds.
  destruct se as [[p b t]|]; crank.
  - destruct (device o vp) as [| |raw]; crank;
      try (rewrite simulate_spec; reflexivity).
    destruct (String.eqb raw ""); crank;
      try (rewrite simulate_spec; reflexivity).
    destruct (UI_test._parse_meter_line (Py.decode_ascii_ignore raw)) as [[[r v] s]|e]; crank;
      try (rewrite simulate_spec; reflexivity).
    reflexivity.
  - rewrite simulate_spec. reflexivity.
Qed.

Lemma refresh_rows_t_spec (n : nat) (st : UI_test.App) :
  List.length (r_values st) = n -> List.length (v_values st) = n ->
  List.length (flags st) = n -> List.length (row_widgets st) = n ->
  UI_test._refresh_rows st =
  (Ret tt, refreshed (fst (UI_test._r_bounds st)) (snd (UI_test._r_bounds st))
                     (fst (UI_test._v_bounds st)) (snd (UI_test._v_bounds st)) st).
Proof.
  intros. unfold UI_test._refresh_rows. crank.
  now apply (refresh_rows_with_spec _ _ _ _ n).
Qed.

(** What [_draw_big_box] of [UI_test.py] shows. *)
Definition bigt (st : UI_test.App) (r v : option float) : Big :=
  match r, v with
  | None, None => BigIdle
  | _, _ =>
      if ok_reading (fst (UI_test._r_bounds st)) (snd (UI_test._r_bounds st)) r
         && ok_reading (fst (UI_test._v_bounds st)) (snd (UI_test._v_bounds st)) v
      then BigPass else BigFail
  end.

Lemma update_big_box_t_spec (st : UI_test.App) (k : nat) (r v : option float) :
  current_idx st = Z.of_nat k ->
  nth_error (r_values st) k = Some r -> nth_error (v_values st) k = Some v ->
  UI_test._update_big_box st = (Ret tt, set_big_canvas (bigt st r v) st).
Proof.
  intros Hc Hr Hv.
  assert (Lr : (k < List.length (r_values st))%nat) by (apply nth_error_Some; congruence).
  assert (Lv : (k < List.length (v_values st))%nat) by (apply nth_error_Some; congruence).
  unfold UI_test._update_big_box, UI_test._draw_big_box. monad.
  rewrite Hc, getitem_nat, Hr by assumption. monad.
  rewrite getitem_nat, Hv by assumption. monad.
  rewrite Hc, getitem_nat, Hr by assumption. monad.
  rewrite getitem_nat, Hv by assumption. monad.
  unfold bigt, UI_test._r_bounds, UI_test._v_bounds. destruct r, v; reflexivity.
Qed.

(** The state of [UI_test.py] once [_measure_one] has recorded the reading
    of [st] at point [k] and redrawn. *)
Definition after_readingt (k : nat) (st : UI_test.App) : UI_test.App :=
  let r := fst (readingt st) in
  let v := snd (readingt st) in
  set_big_canvas (bigt st (Some r) (Some v))
    (refreshed (fst (UI_test._r_bounds st)) (snd (UI_test._r_bounds st))
               (fst (UI_test._v_bounds st)) (snd (UI_test._v_bounds st))
       (set_v_values (Py.update_nth (v_values st) k (Some v))
          (set_r_values (Py.update_nth (r_values st) k (Some r))
             (set_world (worldt st) st)))).

(** [_measure_one] of [UI_test.py] from the line that looks at the cursor. *)
Definition measure_tailt (from_auto : bool) : M UI_test.App unit :=
  cur <- gets current_idx ;;
  n <- gets num_points ;;
  let is_last := n - 1 <=? cur in
  if negb is_last then
    md <- gets mode ;;
    when (negb from_auto && match md with Manual => true | Auto => false end)
         UI_test._show_next_cell_popup ;;
    modify (set_current_idx (cur + 1)) ;;
    combo_current (cur + 1) ;;
    _scroll_row_into_view (cur + 1)
  else
    ae <- gets auto_export ;;
    when (from_auto && ae) UI_test._export_snapshot ;;
    if from_auto then
      modify (set__auto_running false) ;;
      j <- gets _auto_job ;;
      match j with
      | Some k => after_cancel k ;; modify (set__auto_job None)
      | None => ret tt
      end ;;
      _update_mode_buttons ;;
      _ <- after 0 (CbShowInfo "Auto" "Auto measurement finished.") ;;
      ret tt
    else
      show (ShowInfo "Done" "Measured all cells.").

Lemma after_readingt_fields (k : nat) (st : UI_test.App) :
  current_idx (after_readingt k st) = current_idx st /\
  r_values (after_readingt k st) = Py.update_nth (r_values st) k (Some (fst (readingt st))) /\
  v_values (after_readingt k st) = Py.update_nth (v_values st) k (Some (snd (readingt st))) /\
  world (after_readingt k st) = worldt st /\
  _auto_running (after_readingt k st) = _auto_running st /\
  _auto_job (after_readingt k st) = _auto_job st /\
  auto_export (after_readingt k st) = auto_export st /\
  auto_interval (after_readingt k st) = auto_interval st /\
  limits (after_readingt k st) = limits st /\
  ser (after_readingt k st) = ser st.
Proof.
  unfold after_readingt, refreshed. fields. repeat split; reflexivity.
Qed.

Lemma shaped_after_readingt (n k : nat) (st : UI_test.App) :
  shaped n st -> (k < n)%nat -> shaped n (after_readingt k st).
Proof.
  intros (Hn & Hr & Hv & Hf & Hw & Hc) Hk.
  unfold shaped, after_readingt, refreshed. fields.
  rewrite !length_map, !length_combine, !update_nth_length.
  repeat split; try assumption; lia.
Qed.

(** With no port open [_measure_one] of [UI_test.py] stops at its first
    line: the signal is raised and, from Auto, the loop is stopped. *)
Lemma measure_one_t_refused (from_auto : bool) (st : UI_test.App) :
  ser st = None ->
  UI_test._measure_one from_auto st =
  (if from_auto then _auto_stop else ret tt)
    (set_world (set_events (events (world st) ++ [NotConnected]) (world st)) st).
Proof.
  intros Hs. unfold UI_test._measure_one, UI_test._ensure_connected. crank.
  rewrite Hs. destruct from_auto; reflexivity.
Qed.

Lemma measure_one_t_unfold (n k : nat) (from_auto : bool) (st : UI_test.App) (port : Serial) :
  shaped n st -> ser st = Some port -> current_idx st = Z.of_nat k -> (k < n)%nat ->
  UI_test._measure_one from_auto st = measure_tailt from_auto (after_readingt k st).
Proof.
  intros (Hn & Hr & Hv & Hf & Hw & Hc) Hs Hi Hk.
  assert (Hconn : UI_test._ensure_connected st = (Ret true, st))
    by (unfold UI_test._ensure_connected; crank; now rewrite Hs).
  unfold UI_test._measure_one.
  rewrite (run_bind _ _ _ _ _ Hconn). cbn [negb]. monad.
  erewrite run_bind;
    [ | unfold try_except; rewrite (run_bind _ _ _ _ _ (read_meter_t_spec st)); reflexivity ].
  destruct (readingt st) as [r v] eqn:Erv. monad.
  rewrite Hi, setitem_nat by lia. monad.
  rewrite setitem_nat by lia. monad.
  erewrite run_bind;
    [ | apply (refresh_rows_t_spec n); fields; rewrite ?update_nth_length; assumption ].
  erewrite run_bind;
    [ | apply (update_big_box_t_spec _ k (Some r) (Some v));
        unfold refreshed; fields; try assumption;
        rewrite nth_error_update_nth, Nat.eqb_refl;
        replace (Nat.ltb k _) with true by (symmetry; apply Nat.ltb_lt; lia); reflexivity ].
  unfold after_readingt, measure_tailt. rewrite Erv.
  unfold bigt, refreshed, UI_test._r_bounds, UI_test._v_bounds. fields. cbn [fst snd].
  reflexivity.
Qed.

Lemma measure_tailt_step (n k : nat) (st : UI_test.App) :
  shaped n st -> current_idx st = Z.of_nat k -> (k < n)%nat ->
  exists st',
    measure_tailt false st = (Ret tt, st') /\
    current_idx st' = Z.of_nat (Nat.min (S k) (n - 1)) /\
    r_values st' = r_values st /\ v_values st' = v_values st /\
    ser st' = ser st /\ shaped n st'.
Proof.
  intros (Hn & Hr & Hv & Hf & Hw & Hc) Hi Hk.
  unfold measure_tailt. monad. rewrite Hi, Hn.
  destruct (Nat.eq_dec (S k) n) as [E|E].
  - replace (Z.of_nat n - 1 <=? Z.of_nat k) with true by (symmetry; apply Z.leb_le; lia).
    cbn [negb andb]. crank.
    eexists. split; [reflexivity|]. fields.
    repeat split; try assumption; try reflexivity. rewrite Hi. lia.
  - replace (Z.of_nat n - 1 <=? Z.of_nat k) with false by (symmetry; apply Z.leb_gt; lia).
    cbn [negb andb].
    unfold UI_test._show_next_cell_popup, combo_current, _scroll_row_into_view, after.
    crank. destruct (mode st); cbn [negb andb]; crank; rewrite Hc;
      replace (0 <=? Z.of_nat k + 1) with true by (symmetry; apply Z.leb_le; lia);
      replace (Z.of_nat k + 1 <? Z.of_nat n) with true by (symmetry; apply Z.ltb_lt; lia);
      cbn [andb]; (eexists; split; [reflexivity|]); fields;
      repeat split; try assumption; try reflexivity; lia.
Qed.

Lemma measure_one_t_step (n k : nat) (st : UI_test.App) :
  shaped n st -> (exists port, ser st = Some port) ->
  current_idx st = Z.of_nat k -> (k < n)%nat ->
  exists st', measures_at (UI_test._measure_one false) n k st st'
              /\ shaped n st' /\ (exists port, ser st' = Some port).
Proof.
  intros Hs [port Hp] Hi Hk.
  pose proof (shaped_after_readingt n k st Hs Hk) as Hs5.
  destruct (after_readingt_fields k st) as (Fc & Fr & Fv & _ & _ & _ & _ & _ & _ & Fs).
  rewrite Hi in Fc. rewrite Hp in Fs.
  unfold measures_at. rewrite (measure_one_t_unfold n k false st port) by assumption.
  revert Hs5 Fc Fr Fv Fs. generalize (after_readingt k st). intros Y Hs5 Fc Fr Fv Fs.
  destruct (measure_tailt_step n k Y Hs5 Fc Hk) as (st' & Ht & Hc' & Hr' & Hv' & Hser & Hs').
  exists st'. split; [|split].
  - split; [exact Ht|]. split; [exact Hc'|].
    exists (fst (readingt st)), (snd (readingt st)). now rewrite Hr', Hv', Fr, Fv.
  - exact Hs'.
  - exists port. now rewrite Hser.
Qed.

(** C5.  In both programs, from a session of [n >= 1] points with the
    cursor on the first ([UI_test.py]: a port being open, since without one
    the measurement is refused), every call of [_measure_one] ends normally,
    however many are made: the call number [j], counting from 0, finds the
    cursor at [min j (n-1)], writes both readings there and nowhere else, and
    leaves the cursor at [min (j+1) (n-1)]; so the points are written in the
    order 0, 1, ..., n-1, the cursor never passes [n-1] nor returns to 0, and
    after [n] calls every point has its readings and the cursor is at [n-1]. *)
Theorem C5_measure_walks_in_order (n : nat) (st2 : UI_2.App) (stt : UI_test.App) :
  (0 < n)%nat ->
  shaped n st2 -> current_idx st2 = 0 ->
  shaped n stt -> current_idx stt = 0 -> (exists port, ser stt = Some port) ->
  ((forall j, exists st_j st_j',
      times j (UI_2._measure_one false) st2 = (Ret tt, st_j) /\
      current_idx st_j = Z.of_nat (Nat.min j (n - 1)) /\
      measures_at (UI_2._measure_one false) n (Nat.min j (n - 1)) st_j st_j')
   /\ (exists st_n,
        times n (UI_2._measure_one false) st2 = (Ret tt, st_n) /\
        current_idx st_n = Z.of_nat (n - 1) /\
        forall i, (i < n)%nat ->
          exists x y, nth_error (r_values st_n) i = Some (Some x) /\
                      nth_error (v_values st_n) i = Some (Some y)))
  /\
  ((forall j, exists st_j st_j',
      times j (UI_test._measure_one false) stt = (Ret tt, st_j) /\
      current_idx st_j = Z.of_nat (Nat.min j (n - 1)) /\
      measures_at (UI_test._measure_one false) n (Nat.min j (n - 1)) st_j st_j')
   /\ (exists st_n,
        times n (UI_test._measure_one false) stt = (Ret tt, st_n) /\
        current_idx st_n = Z.of_nat (n - 1) /\
        forall i, (i < n)%nat ->
          exists x y, nth_error (r_values st_n) i = Some (Some x) /\
                      nth_error (v_values st_n) i = Some (Some y))).
Proof.
  intros Hn Hs2 Hc2 Hst Hct Hport. split.
  - apply (walk (UI_2._measure_one false) (fun _ => True) n Hn); try assumption; try exact I.
    intros k st Hs _ Hi Hk.
    destruct (measure_one_2_step n k st Hs Hi Hk) as (st' & Hm & Hs').
    exists st'. auto.
  - apply (walk (UI_test._measure_one false) (fun st => exists port, ser st = Some port) n Hn);
      try assumption.
    intros k st Hs Hp Hi Hk. now apply measure_one_t_step.
Qed.

Lemma C5_witness :
  exists st_n,
    times 3 (UI_2._measure_one false) (Sample.app2 3 Sample.world0) = (Ret tt, st_n) /\
    current_idx st_n = 2 /\
    exists x y, nth_error (r_values st_n) 2 = Some (Some x) /\
                nth_error (v_values st_n) 2 = Some (Some y).
Proof.
  assert (H2 : shaped 3 (Sample.app2 3 Sample.world0))
    by (vm_compute; repeat split; reflexivity).
  assert (Ht : shaped 3 (Sample.appt 3 (Some Sample.com3) Sample.world0))
    by (vm_compute; repeat split; reflexivity).
  destruct (proj2 (proj1 (C5_measure_walks_in_order 3 _ _ (Nat.lt_0_succ 2)
                            H2 eq_refl Ht eq_refl (ex_intro _ Sample.com3 eq_refl))))
    as (st_n & Hrun & Hc & Hall).
  exists st_n. split; [exact Hrun|]. split; [exact Hc|]. apply Hall. lia.
Defined.

(** ** The report, in closed form *)

Section Report.
Context {L : Type}.

(** The row of point [j]. *)
Definition row_at (st : App L) (j : nat) : string :=
  result_row (Z.of_nat j) (nth j (r_values st) None) (nth j (v_values st) None)
             (nth j (flags st) false).

(** The rows of the first [n] points. *)
Definition report_rows (st : App L) (n : nat) : list string := map (row_at st) (seq 0 n).

Lemma result_rows_spec (k : nat) :
  forall (i : nat) (st : App L),
    (i + k <= List.length (r_values st))%nat ->
    (i + k <= List.length (v_values st))%nat ->
    (i + k <= List.length (flags st))%nat ->
    result_rows k (Z.of_nat i) st = (Ret (map (row_at st) (seq i k)), st).
Proof.
  induction k as [|k IH]; intros i st Hr Hv Hf; [reflexivity|].
  destruct (nth_error_some_lt (r_values st) i) as [r Er]; [lia|].
  destruct (nth_error_some_lt (v_values st) i) as [v Ev]; [lia|].
  destruct (nth_error_some_lt (flags st) i) as [f Ef]; [lia|].
  assert (Hrow : row_at st i = result_row (Z.of_nat i) r v f).
  { unfold row_at.
    now rewrite (nth_error_nth _ _ _ Er), (nth_error_nth _ _ _ Ev), (nth_error_nth _ _ _ Ef). }
  cbn [result_rows seq map]. monad.
  rewrite getitem_nat, Er by lia. monad.
  rewrite getitem_nat, Ev by lia. monad.
  replace (Z.of_nat i + 1) with (Z.of_nat (S i)) by lia.
  rewrite Hrow.
  destruct r as [x|], v as [y|]; crank;
    try (rewrite getitem_nat, Ef by lia);
    rewrite (IH (S i) st) by lia; reflexivity.
Qed.

End Report.

(** The lines [_result_lines] of [UI_2.py] returns at time [t]. *)
Definition report2 (st : UI_2.App) (t : Time) : list string :=
  let l := limits st in
  let m := Py.strip (model_name st) in
  let overall := if Py.all (map is_some (r_values st)) && Py.all (flags st)
                 then LABEL_OK else LABEL_NG in
  [ ("Model" ++ Py.TAB ++ (if String.eqb m "" then "-" else m))%string;
    ("Time" ++ Py.TAB ++ stamp_text t)%string;
    "";
    ("Limits R" ++ Py.TAB ++ "min=" ++ Py.repr_float (UI_2.r_min l) ++ Py.TAB ++ "max="
     ++ Py.repr_float (UI_2.r_max l) ++ "  (Ohm)")%string;
    ("Limits V" ++ Py.TAB ++ "min=" ++ Py.repr_float (UI_2.v_min l) ++ Py.TAB ++ "max="
     ++ Py.repr_float (UI_2.v_max l) ++ "  (Volt)")%string;
    "";
    ("Point" ++ Py.TAB ++ "R(Ω)" ++ Py.TAB ++ "V(V)" ++ Py.TAB ++ "Result")%string ]
  ++ report_rows st (Z.to_nat (num_points st))
  ++ [ ""; ("Overall" ++ Py.TAB ++ overall)%string ].

(** The lines [_result_lines] of [UI_test.py] returns at time [t]. *)
Definition reportt (st : UI_test.App) (t : Time) : list string :=
  let l := limits st in
  let m := Py.strip (model_name st) in
  [ ("Model" ++ Py.TAB ++ (if String.eqb m "" then "-" else m))%string;
    ("Time" ++ Py.TAB ++ stamp_text t)%string;
    "";
    ("R Set" ++ Py.TAB ++ Py.repr_float (UI_test.r_set l) ++ " mΩ" ++ Py.TAB ++ "Tol ±"
     ++ Py.repr_float (UI_test.r_tol l) ++ " mΩ" ++ Py.TAB ++ "(min="
     ++ Py.repr_float (fst (UI_test._r_bounds st))
     ++ ", max=" ++ Py.repr_float (snd (UI_test._r_bounds st)) ++ ")")%string;
    ("V Set" ++ Py.TAB ++ Py.repr_float (UI_test.v_set l) ++ " V" ++ Py.TAB ++ "Tol ±"
     ++ Py.repr_float (UI_test.v_tol l) ++ " V" ++ Py.TAB ++ "(min="
     ++ Py.repr_float (fst (UI_test._v_bounds st))
     ++ ", max=" ++ Py.repr_float (snd (UI_test._v_bounds st)) ++ ")")%string;
    "";
    ("Cell" ++ Py.TAB ++ "R(mΩ)" ++ Py.TAB ++ "V(V)" ++ Py.TAB ++ "Result")%string ]
  ++ report_rows st (Z.to_nat (num_points st)).

(** The clock read once more. *)
Definition ticked (w : World) : World := set_clock_pos (S (clock_pos w)) w.

Definition time_now (w : World) : Time := clock (oracle w) (clock_pos w).

Lemma result_lines_2_spec (n : nat) (st : UI_2.App) :
  shaped n st ->
  UI_2._result_lines st =
  (Ret (report2 st (time_now (world st))), set_world (ticked (world st)) st).
Proof.
  intros (Hn & Hr & Hv & Hf & _).
  unfold UI_2._result_lines, now. monad. rewrite Hn, Nat2Z.id.
  erewrite run_bind; [ | apply (result_rows_spec n 0); fields; lia ].
  monad. unfold report2, report_rows, row_at. rewrite Hn, Nat2Z.id. fields. reflexivity.
Qed.

Lemma result_lines_t_spec (n : nat) (st : UI_test.App) :
  shaped n st ->
  UI_test._result_lines st =
  (Ret (reportt st (time_now (world st))), set_world (ticked (world st)) st).
Proof.
  intros (Hn & Hr & Hv & Hf & _).
  unfold UI_test._result_lines, now, UI_test._r_bounds, UI_test._v_bounds. monad.
  rewrite Hn, Nat2Z.id.
  erewrite run_bind; [ | apply (result_rows_spec n 0); fields; lia ].
  monad. unfold reportt, report_rows, row_at, UI_test._r_bounds, UI_test._v_bounds.
  rewrite Hn, Nat2Z.id. fields. reflexivity.
Qed.

(** ** C8: rows and the overall line *)

Lemma all_true_iff (l : list bool) :
  Py.all l = true <-> forall i, (i < List.length l)%nat -> nth_error l i = Some true.
Proof.
  unfold Py.all. induction l as [|b t IH]; cbn.
  - split; [intros _ i Hi; lia | reflexivity].
  - rewrite andb_true_iff, IH. split.
    + intros [-> H] [|i] Hi; [reflexivity | apply H; lia].
    + intros H. split.
      * specialize (H 0%nat ltac:(lia)). now injection H.
      * intros i Hi. apply (H (S i)). lia.
Qed.

Lemma all_present_iff (l : list (option float)) :
  Py.all (map is_some l) = true <->
  forall i, (i < List.length l)%nat -> exists x, nth_error l i = Some (Some x).
Proof.
  rewrite all_true_iff, length_map. split; intros H i Hi; specialize (H i Hi).
  - rewrite nth_error_map in H. destruct (nth_error l i) as [[x|]|]; try discriminate.
    now exists x.
  - destruct H as [x Hx]. now rewrite nth_error_map, Hx.
Qed.

(** Every point of the first [n] has a resistance and a true flag. *)
Definition all_passed {L} (st : App L) (n : nat) : Prop :=
  (forall i, (i < n)%nat -> exists x, nth_error (r_values st) i = Some (Some x)) /\
  (forall i, (i < n)%nat -> nth_error (flags st) i = Some true).

(** C8, as the code has it.  The report of both programs has, after seven
    heading lines, one row per point: the 1-based index, then either both
    readings with six decimals and PASS or NOT PASS after the point's flag,
    or two empty fields and N/A when a reading is missing, tab-separated.
    The report of [UI_2.py] then ends with an empty line and the Overall
    line, PASS exactly when every point has a resistance and a true flag;
    the report of [UI_test.py] ends with its last row.  For the session
    [(10.1, 5.0, pass), (None, None)] with limits 9.5..10.5 and 4.9..5.1 the
    lines of [UI_2.py] are as listed. *)
Theorem C8_report_rows_and_overall (n : nat) (st2 : UI_2.App) (stt : UI_test.App) :
  shaped n st2 -> shaped n stt ->
  (exists header overall,
     fst (UI_2._result_lines st2)
     = Ret (header ++ report_rows st2 n ++ [""; ("Overall" ++ Py.TAB ++ overall)%string]) /\
     List.length header = 7%nat /\
     (overall = "PASS" \/ overall = "NOT PASS") /\
     (overall = "PASS" <-> all_passed st2 n))
  /\ (exists header,
     fst (UI_test._result_lines stt) = Ret (header ++ report_rows stt n) /\
     List.length header = 7%nat)
  /\ List.length (report_rows st2 n) = n /\ List.length (report_rows stt n) = n
  /\ (forall (L : Type) (st : App L) (j : nat),
        row_at st j =
        match nth j (r_values st) None, nth j (v_values st) None with
        | Some x, Some y =>
            (Py.str_int (Z.of_nat j + 1) ++ Py.TAB ++ Py.format_f 6 x ++ Py.TAB
             ++ Py.format_f 6 y ++ Py.TAB
             ++ (if nth j (flags st) false then "PASS" else "NOT PASS"))%string
        | _, _ => (Py.str_int (Z.of_nat j + 1) ++ Py.TAB ++ Py.TAB ++ Py.TAB ++ "N/A")%string
        end)
  /\ fst (UI_2._result_lines Sample.half_done2)
     = Ret [ ("Model" ++ Py.TAB ++ "-")%string;
             ("Time" ++ Py.TAB ++ "2024-01-02 03:04:05")%string;
             "";
             ("Limits R" ++ Py.TAB ++ "min=9.5" ++ Py.TAB ++ "max=10.5  (Ohm)")%string;
             ("Limits V" ++ Py.TAB ++ "min=4.9" ++ Py.TAB ++ "max=5.1  (Volt)")%string;
             "";
             ("Point" ++ Py.TAB ++ "R(Ω)" ++ Py.TAB ++ "V(V)" ++ Py.TAB ++ "Result")%string;
             ("1" ++ Py.TAB ++ "10.100000" ++ Py.TAB ++ "5.000000" ++ Py.TAB ++ "PASS")%string;
             ("2" ++ Py.TAB ++ Py.TAB ++ Py.TAB ++ "N/A")%string;
             "";
             ("Overall" ++ Py.TAB ++ "NOT PASS")%string ].
Proof.
  intros H2 Ht.
  pose proof H2 as (Hn2 & Hr2 & _ & Hf2 & _). pose proof Ht as (Hnt & _).
  split; [|split; [|split; [|split; [|split]]]].
  - rewrite (result_lines_2_spec n st2 H2). cbn [fst]. unfold report2.
    rewrite Hn2, Nat2Z.id.
    assert (Hiff : Py.all (map is_some (r_values st2)) && Py.all (flags st2) = true
                   <-> all_passed st2 n).
    { unfold all_passed.
      rewrite andb_true_iff, all_present_iff, all_true_iff, Hr2, Hf2. reflexivity. }
    eexists. eexists. split; [reflexivity|]. split; [reflexivity|].
    rewrite <- Hiff. unfold LABEL_OK, LABEL_NG.
    destruct (Py.all (map is_some (r_values st2)) && Py.all (flags st2));
      (split; [auto|]); split; try reflexivity; discriminate.
  - rewrite (result_lines_t_spec n stt Ht). cbn [fst]. unfold reportt.
    rewrite Hnt, Nat2Z.id.
    eexists. split; reflexivity.
  - unfold report_rows. now rewrite length_map, length_seq.
  - unfold report_rows. now rewrite length_map, length_seq.
  - intros L st j. unfold row_at, result_row, LABEL_OK, LABEL_NG.
    destruct (nth j (r_values st) None), (nth j (v_values st) None); reflexivity.
  - vm_compute. reflexivity.
Qed.

Lemma C8_witness :
  shaped 2 Sample.half_done2 /\ shaped 2 Sample.half_donet /\
  List.length (report_rows Sample.half_done2 2) = 2%nat.
Proof.
  assert (H2 : shaped 2 Sample.half_done2) by (vm_compute; repeat split; reflexivity).
  assert (Ht : shaped 2 Sample.half_donet) by (vm_compute; repeat split; reflexivity).
  refine (conj H2 (conj Ht _)).
  exact (proj1 (proj2 (proj2 (C8_report_rows_and_overall 2 _ _ H2 Ht)))).
Defined.

(** The report of [UI_test.py] for the same session: its last line is the
    row of the second point, and no line is an Overall line. *)
Lemma C8_test_report_has_no_overall :
  exists lines,
    fst (UI_test._result_lines Sample.half_donet) = Ret lines /\
    last lines "" = ("2" ++ Py.TAB ++ Py.TAB ++ Py.TAB ++ "N/A")%string /\
    forallb (fun l => negb (String.prefix "Overall" l)) lines = true.
Proof.
  eexists. split; [vm_compute; reflexivity|].
  split; vm_compute; reflexivity.
Qed.

(** ** C7: what Apply rejects *)

(** [apply] refuses the settings found in [st]: it shows the error box and
    returns, and nothing else of the state differs from [st]. *)
Definition rejected {L} (apply : M (App L) unit) (st : App L) : Prop :=
  exists e,
    apply st = (Ret tt, set_world (set_events (events (world st) ++ [ShowError "Invalid" e])
                                              (world st)) st).

(** The settings the claim calls invalid, for limits kept as min and max. *)
Definition invalid_min_max (st : UI_2.App) : Prop :=
  (UI_2.r_max (limits st) <? UI_2.r_min (limits st))%float = true \/
  (UI_2.v_max (limits st) <? UI_2.v_min (limits st))%float = true \/
  num_points st <= 0 \/ auto_interval st < 10.

(** The settings [UI_test.py] asserts against. *)
Definition invalid_set_tol (st : UI_test.App) : Prop :=
  num_points st <= 0 \/ auto_interval st < 10 \/
  (0 <=? UI_test.r_tol (limits st))%float = false \/
  (0 <=? UI_test.v_tol (limits st))%float = false.

Lemma apply_2_rejects (st : UI_2.App) :
  num_points st <= 0 -> rejected UI_2._apply_settings st.
Proof.
  intros H. exists AssertionError. unfold UI_2._apply_settings. crank.
  replace (0 <? num_points st) with false by (symmetry; apply Z.ltb_ge; lia).
  reflexivity.
Qed.

Lemma apply_t_rejects (st : UI_test.App) :
  invalid_set_tol st -> rejected UI_test._apply_settings st.
Proof.
  intros H. exists AssertionError. unfold UI_test._apply_settings. crank.
  destruct (0 <? num_points st) eqn:En; [|reflexivity].
  destruct (10 <=? auto_interval st) eqn:Ei; [|reflexivity].
  destruct (0 <=? UI_test.r_tol (limits st))%float eqn:Er; [|reflexivity].
  destruct (0 <=? UI_test.v_tol (limits st))%float eqn:Ev; [|reflexivity].
  apply Z.ltb_lt in En. apply Z.leb_le in Ei.
  destruct H as [H|[H|[H|H]]]; try lia; congruence.
Qed.

Lemma apply_2_accepts (n k : nat) (st : UI_2.App) :
  shaped n st -> (0 < n)%nat -> current_idx st = Z.of_nat k -> (k < n)%nat ->
  exists st',
    UI_2._apply_settings st = (Ret tt, st') /\
    auto_interval st' = Z.max 10 (auto_interval st) /\
    limits st' = limits st /\ num_points st' = num_points st /\
    r_values st' = r_values st /\ v_values st' = v_values st /\
    current_idx st' = current_idx st /\
    events (world st') = events (world st) ++ [ShowInfo "Apply" "Settings applied."].
Proof.
  intros (Hn & Hr & Hv & Hf & Hw & Hc) Hpos Hi Hk.
  destruct (nth_error_some_lt (r_values st) k) as [r Er]; [lia|].
  destruct (nth_error_some_lt (v_values st) k) as [v Ev]; [lia|].
  unfold UI_2._apply_settings.
  erewrite run_bind;
    [ | unfold try_except; crank;
        replace (0 <? num_points st) with true by (symmetry; apply Z.ltb_lt; lia);
        reflexivity ].
  monad. rewrite Hr, Hn, Z.eqb_refl. cbn [negb].
  erewrite run_bind;
    [ | erewrite run_bind; [ | apply (refresh_rows_2_spec n); fields; assumption ];
        apply (update_big_box_2_spec _ k r v); unfold refreshed; fields; assumption ].
  monad. eexists. split; [reflexivity|].
  unfold refreshed. fields. repeat split; try reflexivity; assumption.
Qed.

(** C7, as the code has it.  [_apply_settings] of either program refuses a
    point count that is not positive before anything is changed: the error
    box is shown and every field is as it was when Apply was pressed, the
    entered values included.  [UI_test.py] refuses in the same way an
    interval below 10 and a tolerance that is not [>= 0], which is the form a
    minimum above its maximum takes there.  [UI_2.py] accepts any limits,
    and stores an interval below 10 as 10: on a session whose point count is
    unchanged the readings and the cursor stay and "Settings applied." is
    shown. *)
Theorem C7_apply_settings_rejections :
  (forall st : UI_2.App, num_points st <= 0 -> rejected UI_2._apply_settings st)
  /\ (forall st : UI_test.App, invalid_set_tol st -> rejected UI_test._apply_settings st)
  /\ (forall (n k : nat) (st : UI_2.App),
        shaped n st -> (0 < n)%nat -> current_idx st = Z.of_nat k -> (k < n)%nat ->
        exists st',
          UI_2._apply_settings st = (Ret tt, st') /\
          auto_interval st' = Z.max 10 (auto_interval st) /\
          limits st' = limits st /\ num_points st' = num_points st /\
          r_values st' = r_values st /\ v_values st' = v_values st /\
          current_idx st' = current_idx st /\
          events (world st') = events (world st) ++ [ShowInfo "Apply" "Settings applied."]).
Proof.
  split; [exact apply_2_rejects|]. split; [exact apply_t_rejects|]. exact apply_2_accepts.
Qed.

Lemma C7_witness :
  rejected UI_2._apply_settings (set_num_points 0 (Sample.app2 2 Sample.world0)).
Proof.
  apply (proj1 C7_apply_settings_rejections). vm_compute. discriminate.
Defined.

(** A session of [UI_2.py] with two points whose settings hold a resistance
    minimum of 11 above the maximum of 10, and an interval of 5 ms. *)
Definition bad_settings : UI_2.App :=
  set_limits (UI_2.mkLimits 11 10 4.9 5.1)
    (set_auto_interval 5 (Sample.app2 2 Sample.world0)).

(** [UI_2.py] applies settings whose minimum exceeds the maximum and whose
    interval is below 10: it answers "Settings applied.", keeps the limits
    and stores the interval 10. *)
Lemma C7_min_max_variant_accepts_invalid :
  invalid_min_max bad_settings /\
  ~ rejected UI_2._apply_settings bad_settings /\
  events (world (snd (UI_2._apply_settings bad_settings)))
  = [ShowInfo "Apply" "Settings applied."] /\
  auto_interval (snd (UI_2._apply_settings bad_settings)) = 10 /\
  limits (snd (UI_2._apply_settings bad_settings)) = UI_2.mkLimits 11 10 4.9 5.1.
Proof.
  split; [left; vm_compute; reflexivity|].
  split; [|repeat split; vm_compute; reflexivity].
  intros [e H].
  apply (f_equal (fun p => events (world (snd p)))) in H.
  vm_compute in H. discriminate.
Qed.

(** ** C2: no port, no measurement *)

(** The queue once the job [j] is cancelled. *)
Definition without_job (j : option nat) (js : list Job) : list Job :=
  match j with
  | Some k => filter (fun b => negb (Nat.eqb (job_id b) k)) js
  | None => js
  end.

(** The state [_auto_stop] leaves. *)
Definition stopped {L} (st : App L) : App L :=
  set__auto_job None
    (set_world (set_jobs (without_job (_auto_job st) (jobs (world st))) (world st))
       (set__auto_running false st)).

Lemma auto_stop_spec {L} (st : App L) : _auto_stop st = (Ret tt, stopped st).
Proof.
  destruct st as [mn np ai md sf ae lim se rs vs fl ci ar aj rw pc bc w].
  destruct w as [o rp cp kp dp vp js nj ev f c].
  unfold _auto_stop, stopped, after_cancel, _update_mode_buttons, without_job. crank.
  destruct aj; reflexivity.
Qed.

(** The queued jobs of [st'] were queued in [st]: nothing was scheduled. *)
Definition nothing_scheduled {L} (st st' : App L) : Prop :=
  forall j, In j (jobs (world st')) -> In j (jobs (world st)).

Lemma without_job_incl (j : option nat) (js : list Job) (b : Job) :
  In b (without_job j js) -> In b js.
Proof.
  destruct j; cbn; [|auto]. intros H. now apply filter_In in H.
Qed.

(** The readings, flags, cursor and configuration of [st'] are those of [st]. *)
Definition session_kept {L} (st st' : App L) : Prop :=
  r_values st' = r_values st /\ v_values st' = v_values st /\ flags st' = flags st /\
  current_idx st' = current_idx st /\ num_points st' = num_points st /\
  limits st' = limits st /\ auto_interval st' = auto_interval st.

(** No draw was taken and the device was not asked. *)
Definition no_reading_taken (w w' : World) : Prop :=
  rand_pos w' = rand_pos w /\ choice_pos w' = choice_pos w /\ device_pos w' = device_pos w.

(** C2.  With [_ensure_connected] as the spec describes it: when no port is
    open, [_measure_one] of [UI_test.py] returns at once; readings, flags,
    cursor and configuration are untouched; the "not connected" signal is
    raised; no reading is taken, from the device or from the simulated
    generator, so the missing connection is not covered by a fallback; called
    from Auto it stops the loop, and so does the tick that called it, which
    schedules nothing. *)
Theorem C2_not_connected_is_refused (st : UI_test.App) :
  ser st = None ->
  (forall from_auto, exists st',
     UI_test._measure_one from_auto st = (Ret tt, st') /\
     session_kept st st' /\
     events (world st') = events (world st) ++ [NotConnected] /\
     no_reading_taken (world st) (world st') /\
     nothing_scheduled st st' /\
     (if from_auto then _auto_running st' = false /\ _auto_job st' = None
      else _auto_running st' = _auto_running st /\ _auto_job st' = _auto_job st))
  /\ (_auto_running st = true ->
      exists st',
        UI_test._tick_auto st = (Ret tt, st') /\
        session_kept st st' /\
        events (world st') = events (world st) ++ [NotConnected] /\
        no_reading_taken (world st) (world st') /\
        nothing_scheduled st st' /\
        _auto_running st' = false /\ _auto_job st' = None).
Proof.
  intros Hs. split.
  - intros from_auto. rewrite (measure_one_t_refused from_auto st Hs).
    destruct from_auto.
    + rewrite auto_stop_spec. eexists. split; [reflexivity|].
      unfold session_kept, no_reading_taken, nothing_scheduled, stopped. fields.
      repeat split; try reflexivity. intros j. apply without_job_incl.
    + eexists. split; [reflexivity|].
      unfold session_kept, no_reading_taken, nothing_scheduled. fields.
      repeat split; try reflexivity. auto.
  - intros Hrun. unfold UI_test._tick_auto. monad. rewrite Hrun. cbn [negb].
    erewrite run_bind;
      [ | rewrite (measure_one_t_refused true st Hs); apply auto_stop_spec ].
    monad. eexists. split; [reflexivity|].
    unfold session_kept, no_reading_taken, nothing_scheduled, stopped. fields.
    repeat split; try reflexivity. intros j. apply without_job_incl.
Qed.

Lemma C2_witness :
  exists st',
    UI_test._measure_one true (Sample.appt 2 None Sample.world0) = (Ret tt, st') /\
    session_kept (Sample.appt 2 None Sample.world0) st' /\
    events (world st') = events (world (Sample.appt 2 None Sample.world0)) ++ [NotConnected] /\
    no_reading_taken (world (Sample.appt 2 None Sample.world0)) (world st') /\
    nothing_scheduled (Sample.appt 2 None Sample.world0) st' /\
    (_auto_running st' = false /\ _auto_job st' = None).
Proof.
  exact (proj1 (C2_not_connected_is_refused (Sample.appt 2 None Sample.world0) eq_refl) true).
Defined.

(** ** The export, in closed form *)

Section ExportForm.
Context {L : Type}.

(** Where the export goes: the folder, the file's name as text and as path. *)
Definition export_dir (st : App L) : path := resolve (cwd (world st)) (export_folder st).

Definition export_file (st : App L) : string :=
  os_path_join (export_folder st) (export_name st (time_now (world st))).

Definition export_path (st : App L) : path := resolve (cwd (world st)) (export_file st).

(** The open file [p] receives [text]. *)
Definition put_file (f : FS) (p : path) (text : string) : FS :=
  mkFS (dirs f) (replace_file p text (files f)) (locked f).

(** The world after an export whose folder became [fs1]: the error box when
    the file cannot be opened, else the file written with the lines
    [report t] and [note] shown. *)
Definition exported (st : App L) (fs1 : FS) (report : Time -> list string)
           (note : list UiEvent) : World :=
  let w := world st in
  match write_file fs1 (export_path st) "" with
  | None =>
      set_events (events w ++ [ShowError "Export" OSError]) (ticked (set_fs fs1 w))
  | Some fs2 =>
      set_events (events w ++ note)
        (set_fs (put_file fs2 (export_path st)
                   (Py.join Py.LF (report (time_now (ticked w)))))
                (ticked (ticked w)))
  end.

End ExportForm.

Lemma shaped_set_world {L} (n : nat) (w : World) (st : App L) :
  shaped n st -> shaped n (set_world w st).
Proof. unfold shaped. fields. auto. Qed.

Lemma export_snapshot_2_spec (n : nat) (st : UI_2.App) :
  shaped n st ->
  UI_2._export_snapshot st =
  match makedirs (fs (world st)) (export_dir st) with
  | None => (Raise OSError, st)
  | Some fs1 =>
      (Ret tt,
       set_world (exported st fs1 (report2 st)
                    [ShowInfo "Export" ("Saved:" ++ Py.LF ++ export_file st)%string]) st)
  end.
Proof.
  intros Hs.
  unfold UI_2._export_snapshot, os_makedirs, write_report, now, export_dir, exported,
    export_path, export_file, time_now, ticked, put_file.
  crank.
  destruct (makedirs (fs (world st)) (resolve (cwd (world st)) (export_folder st)))
    as [fs1|]; crank; [|reflexivity].
  destruct (write_file fs1 _ "") as [fs2|]; crank; [|reflexivity].
  rewrite (result_lines_2_spec n) by (apply shaped_set_world; exact Hs).
  unfold report2, report_rows, row_at, time_now, ticked. crank. reflexivity.
Qed.

(** ** C6: Auto on a single point *)

Definition finished_note : Callback := CbShowInfo "Auto" "Auto measurement finished.".

(** The jobs queued in [st'] were queued in [st], but for the note that the
    run is finished: no tick was scheduled. *)
Definition no_tick_scheduled {L} (st st' : App L) : Prop :=
  forall j, In j (jobs (world st')) -> In j (jobs (world st)) \/ job_cb j = finished_note.

Lemma in_filter_job (k : nat) (js : list Job) (b : Job) :
  In b (filter (fun b => negb (Nat.eqb (job_id b) k)) js) -> In b js.
Proof. intros H. now apply filter_In in H. Qed.

Lemma measure_tail2_auto_last (n k : nat) (st : UI_2.App) :
  shaped n st -> current_idx st = Z.of_nat k -> S k = n ->
  exists o st',
    measure_tail2 true st = (o, st') /\
    (auto_export st = false -> o = Ret tt) /\
    session_kept st st' /\ _auto_running st' = false /\ _auto_job st' = None /\
    no_reading_taken (world st) (world st') /\
    no_tick_scheduled st st' /\
    (o = Ret tt -> exists j, In j (jobs (world st')) /\ job_cb j = finished_note).
Proof.
  intros Hs Hi Hk. pose proof Hs as (Hn & _).
  unfold measure_tail2. monad. rewrite Hi, Hn.
  replace (Z.of_nat k <? Z.of_nat n - 1) with false by (symmetry; apply Z.ltb_ge; lia).
  unfold after_cancel, _update_mode_buttons, after.
  destruct (_auto_job st) as [job|] eqn:Ej, (auto_export st) eqn:Ea; crank;
    rewrite ?Ej; crank; rewrite ?Ea; crank.
  - rewrite (export_snapshot_2_spec n) by (unfold shaped; fields; exact Hs).
    unfold export_dir, exported. fields.
    destruct (makedirs _ _) as [fs1|]; [|].
    + destruct (write_file fs1 _ "") as [fs2|];
        (eexists; eexists; split; [reflexivity|]);
        unfold session_kept, no_reading_taken, no_tick_scheduled, ticked; fields;
        (repeat split; try reflexivity; try discriminate);
        try (intros j Hj; apply in_app_or in Hj as [Hj|[<-|[]]];
             [left; now apply in_filter_job in Hj | right; reflexivity]);
        try (intros _; eexists; split; [apply in_or_app; right; left; reflexivity|reflexivity]).
    + eexists; eexists; split; [reflexivity|].
      unfold session_kept, no_reading_taken, no_tick_scheduled; fields.
      repeat split; try reflexivity; try discriminate.
      intros j Hj. left. now apply in_filter_job in Hj.
  - eexists; eexists; split; [reflexivity|].
    unfold session_kept, no_reading_taken, no_tick_scheduled; fields.
    repeat split; try reflexivity.
    + intros j Hj. apply in_app_or in Hj as [Hj|[<-|[]]];
        [left; now apply in_filter_job in Hj | right; reflexivity].
    + intros _. eexists. split; [apply in_or_app; right; left; reflexivity|reflexivity].
  - rewrite (export_snapshot_2_spec n) by (unfold shaped; fields; exact Hs).
    unfold export_dir, exported. fields.
    destruct (makedirs _ _) as [fs1|]; [|].
    + destruct (write_file fs1 _ "") as [fs2|];
        (eexists; eexists; split; [reflexivity|]);
        unfold session_kept, no_reading_taken, no_tick_scheduled, ticked; fields;
        (repeat split; try reflexivity; try discriminate; try assumption);
        try (intros j Hj; apply in_app_or in Hj as [Hj|[<-|[]]];
             [left; exact Hj | right; reflexivity]);
        try (intros _; eexists; split; [apply in_or_app; right; left; reflexivity|reflexivity]).
    + eexists; eexists; split; [reflexivity|].
      unfold session_kept, no_reading_taken, no_tick_scheduled; fields.
      repeat split; try reflexivity; try discriminate; try assumption.
      intros j Hj. now left.
  - eexists; eexists; split; [reflexivity|].
    unfold session_kept, no_reading_taken, no_tick_scheduled; fields.
    repeat split; try reflexivity; try assumption.
    + intros j Hj. apply in_app_or in Hj as [Hj|[<-|[]]];
        [left; exact Hj | right; reflexivity].
    + intros _. eexists. split; [apply in_or_app; right; left; reflexivity|reflexivity].
Qed.

Lemma tick_auto_2_idle (st : UI_2.App) :
  _auto_running st = false -> UI_2._tick_auto st = (Ret tt, st).
Proof. intros H. unfold UI_2._tick_auto. monad. now rewrite H. Qed.

Lemma drawn_fields (w : World) :
  rand_pos (drawn w) = (3 + rand_pos w)%nat /\ jobs (drawn w) = jobs w /\
  device_pos (drawn w) = device_pos w /\ events (drawn w) = events w.
Proof. unfold drawn, advance. fields. repeat split; reflexivity. Qed.

Lemma update_single {A} (l : list A) (x : A) :
  List.length l = 1%nat -> Py.update_nth l 0 x = [x].
Proof. destruct l as [|a [|b t]]; cbn; intros H; try discriminate; reflexivity. Qed.

(** C6.  In [UI_2.py], Auto started on a session of one point (whatever the
    interval): one reading is taken and recorded, three draws of the
    generator being used and no more; the run is then over: [_auto_running]
    is false, no tick is pending or scheduled, the only job added is the note
    that the run is finished; a tick that fires afterwards, as any tick on a
    controller that is not running, changes nothing.  The start ends normally
    unless auto-export is on and its folder cannot be made. *)
Theorem C6_single_point_auto_finishes (st : UI_2.App) :
  shaped 1 st -> current_idx st = 0 -> _auto_running st = false ->
  (exists o st',
     UI_2._auto_start st = (o, st') /\
     (auto_export st = false -> o = Ret tt) /\
     r_values st' = [Some (fst (reading2 st))] /\
     v_values st' = [Some (snd (reading2 st))] /\
     rand_pos (world st') = (3 + rand_pos (world st))%nat /\
     current_idx st' = 0 /\
     _auto_running st' = false /\ _auto_job st' = None /\
     no_tick_scheduled st st' /\
     (o = Ret tt -> exists j, In j (jobs (world st')) /\ job_cb j = finished_note) /\
     UI_2._tick_auto st' = (Ret tt, st'))
  /\ (forall any : UI_2.App, _auto_running any = false -> UI_2._tick_auto any = (Ret tt, any)).
Proof.
  intros Hs Hi Hrun. split; [|exact tick_auto_2_idle].
  set (X := set__auto_running true st).
  assert (HsX : shaped 1 X) by (unfold shaped, X; fields; exact Hs).
  assert (HiX : current_idx X = Z.of_nat 0) by exact Hi.
  pose proof (shaped_after_reading2 1 0 X HsX ltac:(lia)) as HsY.
  destruct (after_reading2_fields 0 X) as (Fc & Fr & Fv & Fw & _ & _ & Fa & _).
  rewrite HiX in Fc.
  destruct Hs as (_ & Hr & Hv & _).
  rewrite update_single in Fr by exact Hr. rewrite update_single in Fv by exact Hv.
  change (reading2 X) with (reading2 st) in Fr, Fv.
  change (world X) with (world st) in Fw. change (auto_export X) with (auto_export st) in Fa.
  destruct (drawn_fields (world st)) as (Dr & Dj & _).
  assert (Estart : UI_2._auto_start st
                   = (_measure_one_then_idle <- UI_2._measure_one true ;;
                      still <- gets _auto_running ;;
                      if still then
                        iv <- gets auto_interval ;;
                        j <- after (Z.max 50 iv) CbTickAuto ;;
                        modify (set__auto_job (Some j))
                      else ret tt) X).
  { unfold UI_2._auto_start, UI_2._tick_auto, _update_mode_buttons. monad.
    rewrite Hrun. reflexivity. }
  rewrite Estart. clear Estart.
  unfold bind at 1. rewrite (measure_one_2_unfold 1 0 true X HsX HiX ltac:(lia)).
  clearbody X.
  revert HsY Fc Fr Fv Fw Fa. generalize (after_reading2 0 X). intros Y HsY Fc Fr Fv Fw Fa.
  destruct (measure_tail2_auto_last 1 0 Y HsY Fc eq_refl)
    as (o & st' & Ht & Ho & (Kr & Kv & _ & Kc & _) & Hrun' & Hjob' & (Nr & _) & Hsched & Hnote).
  rewrite Ht.
  assert (Hfin : (let (o0, s') := (o, st') in
                  match o0 with
                  | Ret _ =>
                      (still <- gets _auto_running ;;
                       if still then
                         iv <- gets auto_interval ;;
                         j <- after (Z.max 50 iv) CbTickAuto ;;
                         modify (set__auto_job (Some j))
                       else ret tt) s'
                  | Raise e => (Raise e, s')
                  end) = (o, st')).
  { destruct o as [[]|e]; [|reflexivity]. monad. now rewrite Hrun'. }
  exists o, st'. split; [exact Hfin|].
  split; [intros H; apply Ho; now rewrite Fa|].
  split; [now rewrite Kr, Fr|]. split; [now rewrite Kv, Fv|].
  split; [now rewrite Nr, Fw, Dr|]. split; [now rewrite Kc, Fc|].
  split; [exact Hrun'|]. split; [exact Hjob'|].
  split; [|split; [exact Hnote | now apply tick_auto_2_idle]].
  intros j Hj. destruct (Hsched j Hj) as [H|H]; [left|now right].
  now rewrite Fw, Dj in H.
Qed.

Lemma C6_witness :
  exists o st',
    UI_2._auto_start (Sample.app2 1 Sample.world0) = (o, st') /\
    _auto_running st' = false /\ _auto_job st' = None /\
    UI_2._tick_auto st' = (Ret tt, st').
Proof.
  assert (Hs : shaped 1 (Sample.app2 1 Sample.world0))
    by (vm_compute; repeat split; reflexivity).
  destruct (proj1 (C6_single_point_auto_finishes _ Hs eq_refl eq_refl))
    as (o & st' & H1 & _ & _ & _ & _ & _ & H2 & H3 & _ & _ & H4).
  exists o, st'. auto.
Defined.

(** ** The file system: what [makedirs] and [open] do *)

Lemma path_eqb_eq (p q : path) : path_eqb p q = true <-> p = q.
Proof. unfold path_eqb. destruct (list_eq_dec string_dec p q); split; congruence. Qed.

Lemma mem_path_In (p : path) (l : list path) : mem_path p l = true <-> In p l.
Proof.
  unfold mem_path. rewrite existsb_exists. split.
  - intros (q & Hq & E). apply path_eqb_eq in E. now subst.
  - intros H. exists p. split; [exact H | now apply path_eqb_eq].
Qed.

(** A well-formed tree: whatever exists lies in a directory, and only what
    exists can be locked. *)
Definition tree (f : FS) : Prop :=
  (forall d, In d (dirs f) -> is_dir f (parent d) = true) /\
  (forall p, In p (map fst (files f)) -> is_dir f (parent p) = true) /\
  (forall p, In p (locked f) -> path_exists f p = true).

(** [q] is an initial part of [p]. *)
Definition is_prefix (q p : path) : Prop := exists k, q = firstn k p.

Lemma is_dir_cons (f : FS) (q p : path) :
  is_dir (mkFS (p :: dirs f) (files f) (locked f)) q = true <-> is_dir f q = true \/ q = p.
Proof.
  destruct q as [|c q]; cbn.
  - split; auto.
  - destruct (path_eqb (c :: q) p) eqn:E; cbn.
    + apply path_eqb_eq in E. split; auto.
    + split; [auto|]. intros [H|H]; [exact H|]. apply path_eqb_eq in H. congruence.
Qed.

Lemma mkdir_spec (f f' : FS) (p : path) :
  mkdir f p = Some f' ->
  f' = mkFS (p :: dirs f) (files f) (locked f) /\
  path_exists f p = false /\ is_dir f (parent p) = true /\
  mem_path (parent p) (locked f) = false.
Proof.
  unfold mkdir. destruct (path_exists f p); [discriminate|].
  destruct (is_dir f (parent p)); [|discriminate]. cbn [negb].
  destruct (mem_path (parent p) (locked f)); [discriminate|].
  intros [= <-]. auto.
Qed.

Lemma parent_snoc (p : path) (c : string) : parent (p ++ [c]) = p.
Proof. unfold parent. apply removelast_last. Qed.

Lemma firstn_prefix_snoc (q p : path) (c : string) :
  is_prefix q p -> is_prefix q (p ++ [c]).
Proof.
  intros [k ->]. destruct (Nat.le_gt_cases k (List.length p)) as [H|H].
  - exists k. rewrite firstn_app.
    replace (k - List.length p)%nat with 0%nat by lia.
    cbn. now rewrite app_nil_r.
  - exists (List.length p). rewrite firstn_app, Nat.sub_diag, firstn_all. cbn.
    rewrite app_nil_r. apply firstn_all2. lia.
Qed.

(** What a successful [makedirs] leaves: the path is a directory; files and
    locks are as before; every directory is an old one or an initial part
    of the path; old directories remain; the tree stays well-formed. *)
Lemma makedirs_rev_spec (rp : list string) :
  forall (f f' : FS),
    makedirs_rev f rp = Some f' ->
    is_dir f' (rev rp) = true /\ files f' = files f /\ locked f' = locked f /\
    (forall q, In q (dirs f') -> In q (dirs f) \/ is_prefix q (rev rp)) /\
    (forall q, is_dir f q = true -> is_dir f' q = true) /\
    (tree f -> tree f').
Proof.
  induction rp as [|c rp IH]; intros f f' H.
  - injection H as <-. cbn [rev].
    split; [reflexivity|]. split; [reflexivity|]. split; [reflexivity|].
    split; [auto|]. split; auto.
  - cbn [makedirs_rev] in H. cbn [rev] in *.
    destruct (negb (path_exists f (rev rp))) eqn:Ex.
    + destruct (makedirs_rev f rp) as [f1|] eqn:E1; [|discriminate].
      destruct (IH f f1 E1) as (D1 & F1 & L1 & I1 & K1 & T1).
      destruct (mkdir f1 (rev rp ++ [c])) as [f2|] eqn:E2.
      * injection H as <-. apply mkdir_spec in E2 as (-> & N2 & P2 & M2).
        split; [apply is_dir_cons; now right|]. split; [exact F1|]. split; [exact L1|].
        split; [|split].
        -- intros q [<-|Hq]; [right; exists (List.length (rev rp ++ [c])); now rewrite firstn_all|].
           destruct (I1 q Hq) as [Hd|Hp]; [now left | right; now apply firstn_prefix_snoc].
        -- intros q Hq. apply is_dir_cons. left. now apply K1.
        -- intros Tf. destruct (T1 Tf) as (Ta & Tb & Tc). split; [|split].
           ++ intros d [<-|Hd]; apply is_dir_cons; left; [exact P2 | now apply Ta].
           ++ intros p Hp. apply is_dir_cons. left. now apply Tb.
           ++ intros p Hp. cbn in Hp. specialize (Tc p Hp).
              unfold path_exists in *. apply orb_true_iff in Tc as [Hd|Hf].
              ** apply orb_true_iff. left. apply is_dir_cons. now left.
              ** apply orb_true_iff. now right.
      * destruct (is_dir f1 (rev rp ++ [c])) eqn:D; [|discriminate]. injection H as <-.
        split; [exact D|]. split; [exact F1|]. split; [exact L1|]. split; [|split; [exact K1|exact T1]].
        intros q Hq. destruct (I1 q Hq) as [Hd|Hp]; [now left | right; now apply firstn_prefix_snoc].
    + destruct (mkdir f (rev rp ++ [c])) as [f2|] eqn:E2.
      * injection H as <-. apply mkdir_spec in E2 as (-> & N2 & P2 & M2).
        split; [apply is_dir_cons; now right|]. split; [reflexivity|]. split; [reflexivity|].
        split; [|split].
        -- intros q [<-|Hq]; [right; exists (List.length (rev rp ++ [c])); now rewrite firstn_all | now left].
        -- intros q Hq. apply is_dir_cons. now left.
        -- intros (Ta & Tb & Tc). split; [|split].
           ++ intros d [<-|Hd]; apply is_dir_cons; left; [exact P2 | now apply Ta].
           ++ intros p Hp. apply is_dir_cons. left. now apply Tb.
           ++ intros p Hp. cbn in Hp. specialize (Tc p Hp).
              unfold path_exists in *. apply orb_true_iff in Tc as [Hd|Hf].
              ** apply orb_true_iff. left. apply is_dir_cons. now left.
              ** apply orb_true_iff. now right.
      * destruct (is_dir f (rev rp ++ [c])) eqn:D; [|discriminate]. injection H as <-.
        split; [exact D|]. split; [reflexivity|]. split; [reflexivity|].
        split; [auto|]. split; auto.
Qed.

Lemma dir_parent (f : FS) (p : path) (c : string) :
  tree f -> is_dir f (p ++ [c]) = true -> is_dir f p = true.
Proof.
  intros (Ta & _) Hd. rewrite <- (parent_snoc p c). apply Ta.
  destruct (p ++ [c]) eqn:E; [now destruct p|]. now apply mem_path_In.
Qed.

Lemma tree_prefixes (f : FS) (p : path) :
  tree f -> is_dir f p = true -> forall k, is_dir f (firstn k p) = true.
Proof.
  intros Tf. induction p as [|c p IH] using rev_ind; intros Hd k.
  - now rewrite firstn_nil.
  - assert (Hp : is_dir f p = true) by now apply (dir_parent f p c).
    destruct (Nat.le_gt_cases k (List.length p)) as [H|H].
    + rewrite firstn_app. replace (k - List.length p)%nat with 0%nat by lia.
      cbn. rewrite app_nil_r. now apply IH.
    + rewrite firstn_all2; [exact Hd|]. rewrite length_app. cbn. lia.
Qed.

(** The path is a directory already, or it is missing and can be made: its
    parent can, and is not locked. *)
Fixpoint creatable_rev (f : FS) (rp : list string) : bool :=
  match rp with
  | [] => true
  | _ :: rparent =>
      if path_exists f (rev rp) then is_dir f (rev rp)
      else creatable_rev f rparent && negb (mem_path (rev rparent) (locked f))
  end.

Definition creatable (f : FS) (p : path) : bool := creatable_rev f (rev p).

Lemma prefix_length (q p : path) : is_prefix q p -> (List.length q <= List.length p)%nat.
Proof. intros [k ->]. rewrite length_firstn. lia. Qed.

Lemma creatable_makedirs (rp : list string) :
  forall f, tree f -> creatable_rev f rp = true -> exists f', makedirs_rev f rp = Some f'.
Proof.
  induction rp as [|c rp IH]; intros f Tf H; [now exists f|].
  cbn [creatable_rev makedirs_rev] in *. cbn [rev] in *.
  destruct (path_exists f (rev rp ++ [c])) eqn:Ep.
  - assert (Hpar : is_dir f (rev rp) = true) by now apply (dir_parent f (rev rp) c).
    unfold path_exists at 1. rewrite Hpar. cbn [orb negb].
    unfold mkdir. rewrite Ep, H. now exists f.
  - apply andb_true_iff in H as [Hc Hl]. apply negb_true_iff in Hl.
    destruct (path_exists f (rev rp)) eqn:Epar; cbn [negb].
    + assert (Hpar : is_dir f (rev rp) = true).
      { destruct rp as [|c' rp']; [reflexivity|]. cbn [creatable_rev] in Hc.
        cbn [rev] in *. now rewrite Epar in Hc. }
      unfold mkdir. rewrite Ep, parent_snoc, Hpar, Hl. cbn [negb]. now eexists.
    + destruct (IH f Tf Hc) as [f1 E1]. rewrite E1.
      destruct (makedirs_rev_spec rp f f1 E1) as (D1 & F1 & L1 & I1 & _).
      assert (Ep1 : path_exists f1 (rev rp ++ [c]) = false).
      { unfold path_exists, is_file in *. rewrite F1.
        apply orb_false_iff in Ep as [Ed Ef]. rewrite Ef, orb_false_r.
        destruct (is_dir f1 (rev rp ++ [c])) eqn:E; [|reflexivity].
        destruct (rev rp ++ [c]) as [|x l] eqn:El; [now destruct (rev rp)|].
        apply mem_path_In in E. destruct (I1 _ E) as [Hin|Hpre].
        - apply mem_path_In in Hin. cbn in Ed. congruence.
        - apply prefix_length in Hpre. rewrite <- El, length_app in Hpre. cbn in Hpre. lia. }
      unfold mkdir. rewrite Ep1, parent_snoc, D1, L1, Hl. cbn [negb]. now eexists.
Qed.

(** A file in a directory that [makedirs] had to make can be created. *)
Lemma write_after_makedirs (f f1 : FS) (d : path) (name text : string) :
  tree f -> path_exists f d = false -> makedirs f d = Some f1 ->
  write_file f1 (d ++ [name]) text
  = Some (mkFS (dirs f1) ((d ++ [name], text) :: files f1) (locked f1)).
Proof.
  intros (Ta & Tb & Tc) Ex Hm. unfold makedirs in Hm.
  destruct (makedirs_rev_spec _ _ _ Hm) as (D1 & F1 & L1 & I1 & _).
  rewrite rev_involutive in D1, I1.
  apply orb_false_iff in Ex as [Ed Ef].
  assert (Nd : is_dir f1 (d ++ [name]) = false).
  { destruct (is_dir f1 (d ++ [name])) eqn:E; [|reflexivity].
    destruct (d ++ [name]) as [|x l] eqn:El; [now destruct d|].
    apply mem_path_In in E. destruct (I1 _ E) as [Hin|Hpre].
    - specialize (Ta _ Hin). rewrite <- El, parent_snoc in Ta. congruence.
    - apply prefix_length in Hpre. rewrite <- El, length_app in Hpre. cbn in Hpre. lia. }
  assert (Nf : is_file f1 (d ++ [name]) = false).
  { unfold is_file. rewrite F1.
    destruct (mem_path (d ++ [name]) (map fst (files f))) eqn:E; [|reflexivity].
    apply mem_path_In in E. specialize (Tb _ E). rewrite parent_snoc in Tb. congruence. }
  assert (Nl : mem_path d (locked f1) = false).
  { rewrite L1. destruct (mem_path d (locked f)) eqn:E; [|reflexivity].
    apply mem_path_In in E. specialize (Tc _ E).
    unfold path_exists in Tc. rewrite Ed, Ef in Tc. discriminate. }
  unfold write_file. now rewrite Nd, Nf, parent_snoc, D1, Nl.
Qed.

(** A checker for [tree]. *)
Definition treeb (f : FS) : bool :=
  forallb (fun d => is_dir f (parent d)) (dirs f)
  && forallb (fun p => is_dir f (parent p)) (map fst (files f))
  && forallb (path_exists f) (locked f).

Lemma treeb_tree (f : FS) : treeb f = true -> tree f.
Proof.
  unfold treeb, tree. rewrite !andb_true_iff, !forallb_forall. tauto.
Qed.

(** ** Path texts *)

Lemma split_on_nonempty (c : ascii) (s : string) : Py.split_on c s <> [].
Proof.
  destruct s as [|x s]; cbn; [discriminate|].
  destruct (Ascii.eqb x c); [discriminate|]. destruct (Py.split_on c s); discriminate.
Qed.

Lemma split_on_app (c : ascii) (a b : string) :
  Py.split_on c (a ++ String c b) = Py.split_on c a ++ Py.split_on c b.
Proof.
  induction a as [|x a IH]; cbn.
  - now rewrite Ascii.eqb_refl.
  - destruct (Ascii.eqb x c); [now rewrite IH|]. rewrite IH.
    pose proof (split_on_nonempty c a) as Hn.
    destruct (Py.split_on c a); [congruence|reflexivity].
Qed.

Lemma components_sep (a b : string) :
  components (a ++ String "/" b) = components a ++ components b.
Proof. unfold components. now rewrite split_on_app, filter_app. Qed.

Lemma last_char_some (a : string) (c : ascii) :
  last_char a = Some c -> exists a', a = (a' ++ String c "")%string.
Proof.
  induction a as [|x a IH]; [discriminate|].
  destruct a as [|y a].
  - intros [= ->]. now exists ""%string.
  - intros H. destruct (IH H) as [a' E]. exists (String x a'). cbn. now rewrite <- E.
Qed.

Lemma last_char_none (a : string) : last_char a = None -> a = ""%string.
Proof.
  induction a as [|x a IH]; [reflexivity|]. destruct a as [|y a]; [discriminate|].
  intros H. now specialize (IH H).
Qed.

Lemma append_snoc (a b : string) (c : ascii) :
  ((a ++ String c "") ++ b)%string = (a ++ String c b)%string.
Proof. induction a as [|x a IH]; cbn; [reflexivity | now rewrite IH]. Qed.

Lemma is_abs_append (a b : string) : a <> ""%string -> is_abs (a ++ b) = is_abs a.
Proof. destruct a; [congruence | reflexivity]. Qed.

(** A file name proper: one component, nothing of a path in it. *)
Definition plain_name (s : string) : Prop := is_abs s = false /\ components s = [s].

(** A plain name joined to a folder names an entry of that folder. *)
Lemma resolve_join (cwd0 : path) (a name : string) :
  a <> ""%string -> plain_name name ->
  resolve cwd0 (os_path_join a name) = resolve cwd0 a ++ [name].
Proof.
  intros Ha (Hn & Hc). unfold os_path_join. rewrite Hn.
  destruct (last_char a) as [c|] eqn:El; [|now apply last_char_none in El].
  destruct (Ascii.eqb c "/") eqn:Ec.
  - apply Ascii.eqb_eq in Ec. subst c. destruct (last_char_some _ _ El) as [a' ->].
    unfold resolve. rewrite is_abs_append by exact Ha.
    rewrite append_snoc, !components_sep, Hc.
    change (components "") with (@nil string). rewrite app_nil_r.
    destruct (is_abs (a' ++ "/")); [reflexivity | now rewrite app_assoc].
  - unfold resolve. rewrite is_abs_append by exact Ha.
    change (a ++ "/" ++ name)%string with (a ++ String "/" name)%string.
    rewrite components_sep, Hc.
    destruct (is_abs a); [reflexivity | now rewrite app_assoc].
Qed.

Lemma export_folder_nonempty {L} (st : App L) : export_folder st <> ""%string.
Proof.
  unfold export_folder. destruct (String.eqb (Py.strip (save_folder st)) "") eqn:E.
  - unfold getcwd. cbn. discriminate.
  - now apply String.eqb_neq.
Qed.

Lemma export_path_in_dir {L} (st : App L) :
  plain_name (export_name st (time_now (world st))) ->
  export_path st = export_dir st ++ [export_name st (time_now (world st))].
Proof.
  intros H. unfold export_path, export_file, export_dir.
  apply resolve_join; [apply export_folder_nonempty | exact H].
Qed.

(** ** The manual export, in closed form *)

Section Manual.
Context {L : Type}.

(** What the save dialog answers next, as text and as path. *)
Definition chosen_file (w : World) : string := dialog (oracle w) (dialog_pos w).

Definition chosen_path (w : World) : path := resolve (cwd w) (chosen_file w).

Definition dialog_shown (w : World) : World := set_dialog_pos (S (dialog_pos w)) w.

(** The world after a manual export whose folder became [fs1]: nothing more
    when the dialog is cancelled; else as for the snapshot, at the chosen
    path. *)
Definition saved_as (st : App L) (fs1 : FS) (report : Time -> list string) : World :=
  let w := world st in
  if String.eqb (chosen_file w) "" then dialog_shown (ticked (set_fs fs1 w))
  else
    match write_file fs1 (chosen_path w) "" with
    | None =>
        set_events (events w ++ [ShowError "Export" OSError])
          (dialog_shown (ticked (set_fs fs1 w)))
    | Some fs2 =>
        set_events (events w ++ [ShowInfo "Export" "Saved successfully."])
          (set_fs (put_file fs2 (chosen_path w)
                     (Py.join Py.LF (report (time_now (ticked w)))))
                  (dialog_shown (ticked (ticked w))))
    end.

End Manual.

(** ** What an export leaves behind *)

(** The error box of the export. *)
Definition is_export_error (e : UiEvent) : bool :=
  match e with
  | ShowError title _ => String.eqb title "Export"
  | _ => false
  end.

(** What was shown between [w] and [w']. *)
Definition new_events (w w' : World) : list UiEvent :=
  skipn (List.length (events w)) (events w').

Definition export_error_reported (w w' : World) : bool :=
  existsb is_export_error (new_events w w').

(** [w'] is [w] after the report [text] went to [dest] on the file system
    [fs1]: written without an error box, or not written, with one. *)
Definition export_world (w : World) (fs1 : FS) (dest : path) (text : string)
           (w' : World) : Prop :=
  match write_file fs1 dest "" with
  | None => fs w' = fs1 /\ export_error_reported w w' = true
  | Some fs2 => fs w' = put_file fs2 dest text /\ export_error_reported w w' = false
  end.

Section ExportOutcome.
Context {L : Type}.

(** The shape of every export: the exception of [makedirs] leaves the
    method; else the method ends normally, having changed the world only. *)
Definition export_result (st : App L) (dest : path) (text : string) (cancelled : bool)
           (res : Outcome unit * App L) : Prop :=
  match makedirs (fs (world st)) (export_dir st) with
  | None => res = (Raise OSError, st)
  | Some fs1 =>
      exists w', res = (Ret tt, set_world w' st) /\
        if cancelled then fs w' = fs1 /\ export_error_reported (world st) w' = false
        else export_world (world st) fs1 dest text w'
  end.

(** The folder is there when the export ends normally, and it ends otherwise
    only when the folder could not be made. *)
Definition folder_made (st : App L) (res : Outcome unit * App L) : Prop :=
  (fst res = Ret tt /\ is_dir (fs (world (snd res))) (export_dir st) = true) \/
  (res = (Raise OSError, st) /\ makedirs (fs (world st)) (export_dir st) = None).

(** The error box stands for a destination that cannot be written although
    its folder has been made. *)
Definition error_means_unwritable (st : App L) (dest : path)
           (res : Outcome unit * App L) : Prop :=
  export_error_reported (world st) (world (snd res)) = true ->
  exists fs1, makedirs (fs (world st)) (export_dir st) = Some fs1 /\
              is_dir fs1 (export_dir st) = true /\
              write_file fs1 dest "" = None.

(** The folder is not there, and nothing stands in the way of making it. *)
Definition merely_missing (st : App L) : Prop :=
  let f := fs (world st) in
  tree f /\ path_exists f (export_dir st) = false /\ creatable f (export_dir st) = true.

(** The export went through: it ended normally, no error was reported, the
    folder and all above it are directories, the file [dest] is new and
    holds [text]. *)
Definition export_done (st : App L) (dest : path) (text : string)
           (res : Outcome unit * App L) : Prop :=
  fst res = Ret tt /\
  export_error_reported (world st) (world (snd res)) = false /\
  (forall k, is_dir (fs (world (snd res))) (firstn k (export_dir st)) = true) /\
  files (fs (world (snd res))) = (dest, text) :: files (fs (world st)).

End ExportOutcome.

Lemma new_events_app (w w' : World) (l : list UiEvent) :
  events w' = events w ++ l -> new_events w w' = l.
Proof.
  intros E. unfold new_events. rewrite E, skipn_app, skipn_all, Nat.sub_diag. reflexivity.
Qed.

Lemma new_events_same (w w' : World) : events w' = events w -> new_events w w' = [].
Proof. intros E. apply new_events_app. now rewrite app_nil_r. Qed.

Lemma write_file_dirs (f f' : FS) (p : path) (text : string) :
  write_file f p text = Some f' -> dirs f' = dirs f.
Proof.
  unfold write_file. destruct (is_dir f p); [discriminate|].
  destruct (is_file f p).
  - destruct (mem_path p (locked f)); [discriminate|]. now intros [= <-].
  - destruct (is_dir f (parent p) && negb (mem_path (parent p) (locked f)));
      [|discriminate]. now intros [= <-].
Qed.

Lemma is_dir_dirs (f f' : FS) (q : path) : dirs f' = dirs f -> is_dir f' q = is_dir f q.
Proof. intros E. unfold is_dir. now rewrite E. Qed.

Lemma export_world_dir (w w' : World) (fs1 : FS) (dest q : path) (text : string) :
  export_world w fs1 dest text w' -> is_dir (fs w') q = is_dir fs1 q.
Proof.
  unfold export_world. destruct (write_file fs1 dest "") as [fs2|] eqn:E.
  - intros [-> _]. apply is_dir_dirs. cbn. now apply write_file_dirs in E.
  - now intros [-> _].
Qed.

Lemma exported_world {L} (st : App L) (fs1 : FS) (report : Time -> list string)
      (note : list UiEvent) :
  existsb is_export_error note = false ->
  export_world (world st) fs1 (export_path st)
    (Py.join Py.LF (report (time_now (ticked (world st)))))
    (exported st fs1 report note).
Proof.
  intros Hn. unfold export_world, exported, export_error_reported.
  destruct (write_file fs1 (export_path st) "") as [fs2|].
  - split; [reflexivity|]. now rewrite (new_events_app _ _ note).
  - split; [reflexivity|]. now rewrite (new_events_app _ _ [ShowError "Export" OSError]).
Qed.

Lemma saved_as_world {L} (st : App L) (fs1 : FS) (report : Time -> list string) :
  if String.eqb (chosen_file (world st)) ""
  then fs (saved_as st fs1 report) = fs1 /\
       export_error_reported (world st) (saved_as st fs1 report) = false
  else export_world (world st) fs1 (chosen_path (world st))
         (Py.join Py.LF (report (time_now (ticked (world st)))))
         (saved_as st fs1 report).
Proof.
  unfold export_world, saved_as, export_error_reported.
  destruct (String.eqb (chosen_file (world st)) "").
  - split; [reflexivity|]. now rewrite new_events_same.
  - destruct (write_file fs1 (chosen_path (world st)) "") as [fs2|].
    + split; [reflexivity|].
      now rewrite (new_events_app _ _ [ShowInfo "Export" "Saved successfully."]).
    + split; [reflexivity|]. now rewrite (new_events_app _ _ [ShowError "Export" OSError]).
Qed.

Section ExportFacts.
Context {L : Type}.
Variables (st : App L) (dest : path) (text : string) (cancelled : bool).
Variable res : Outcome unit * App L.
Hypothesis Hres : export_result st dest text cancelled res.

Lemma result_export_done (name : string) :
  cancelled = false -> dest = export_dir st ++ [name] ->
  merely_missing st -> export_done st dest text res.
Proof.
  intros -> -> (Tf & Ex & Cr). unfold export_result in Hres.
  destruct (creatable_makedirs _ _ Tf Cr) as [fs1 Em].
  fold (makedirs (fs (world st)) (export_dir st)) in Em. rewrite Em in Hres.
  destruct Hres as (w' & -> & Hw). unfold export_done. cbn [fst snd]. fields.
  pose proof (write_after_makedirs _ _ _ name "" Tf Ex Em) as Hwr.
  pose proof Em as Em'. unfold makedirs in Em'.
  apply makedirs_rev_spec in Em' as (D & F & _ & _ & _ & T).
  rewrite rev_involutive in D.
  split; [reflexivity|]. split; [|split].
  - unfold export_world in Hw. rewrite Hwr in Hw. apply Hw.
  - intros k. rewrite (export_world_dir _ _ _ _ _ _ Hw).
    apply tree_prefixes; [now apply T | exact D].
  - unfold export_world in Hw. rewrite Hwr in Hw. destruct Hw as [-> _].
    unfold put_file. cbn [files dirs locked replace_file].
    replace (path_eqb (export_dir st ++ [name]) (export_dir st ++ [name])) with true
      by (symmetry; now apply path_eqb_eq).
    now rewrite F.
Qed.

End ExportFacts.

(* ================================================================== *)
(** * Further properties of the two programs *)
(* ================================================================== *)

(** ** Stop, and a tick that comes too late *)

(** X1.  [_auto_stop] ends normally in every state: the loop is off, no handle is
    kept, the job whose handle was kept has left the queue, nothing else of
    the state moves, and nothing is shown.  Stopping twice is stopping
    once.  In [UI_2.py] a tick that fires all the same finds the loop off
    and returns without a reading. *)
Theorem auto_stop_cancels_and_is_idempotent :
  (forall (L : Type) (st : App L),
     exists st',
       _auto_stop st = (Ret tt, st') /\
       _auto_running st' = false /\ _auto_job st' = None /\
       session_kept st st' /\
       events (world st') = events (world st) /\
       no_reading_taken (world st) (world st') /\
       nothing_scheduled st st' /\
       (forall k j, _auto_job st = Some k -> In j (jobs (world st')) -> job_id j <> k) /\
       (forall j, In j (jobs (world st)) -> Some (job_id j) <> _auto_job st ->
                  In j (jobs (world st'))) /\
       _auto_stop st' = (Ret tt, st'))
  /\ (forall (st : UI_2.App) (j : Job),
        job_cb j = CbTickAuto ->
        exists st',
          (_auto_stop ;; UI_2.fire j) st = (Ret tt, st') /\
          session_kept st st' /\ no_reading_taken (world st) (world st') /\
          events (world st') = events (world st) /\
          _auto_running st' = false /\ nothing_scheduled st st').
Proof.
  split.
  - intros L st. rewrite auto_stop_spec. exists (stopped st).
    split; [reflexivity|].
    unfold stopped, session_kept, no_reading_taken, nothing_scheduled. fields.
    split; [reflexivity|]. split; [reflexivity|].
    split; [repeat split; reflexivity|]. split; [reflexivity|].
    split; [repeat split; reflexivity|].
    split; [intros j; apply without_job_incl|].
    split; [|split].
    + intros k j Hk Hj. rewrite Hk in Hj. cbn [without_job] in Hj.
      apply filter_In in Hj as [_ Hj]. apply negb_true_iff, Nat.eqb_neq in Hj. exact Hj.
    + intros j Hj Hne. destruct (_auto_job st) as [k|]; cbn [without_job]; [|exact Hj].
      apply filter_In. split; [exact Hj|]. apply negb_true_iff, Nat.eqb_neq. congruence.
    + rewrite auto_stop_spec. unfold stopped. fields. cbn [without_job].
      destruct st as [mn np ai md sf ae lim se rs vs fl ci ar aj rw pc bc w].
      destruct w. reflexivity.
  - intros st j Hj. unfold bind at 1. rewrite auto_stop_spec.
    unfold UI_2.fire, after_cancel. rewrite Hj. crank.
    rewrite tick_auto_2_idle by reflexivity.
    eexists. split; [reflexivity|].
    unfold stopped, session_kept, no_reading_taken, nothing_scheduled. fields.
    repeat split; try reflexivity.
    intros b Hb. apply in_filter_job in Hb. now apply without_job_incl in Hb.
Qed.

(** ** The Auto loop of [UI_2.py], tick by tick *)

Lemma drawn_queue (w : World) :
  next_job (drawn w) = next_job w /\ fs (drawn w) = fs w /\
  clock_pos (drawn w) = clock_pos w /\ dialog_pos (drawn w) = dialog_pos w.
Proof. unfold drawn, advance. fields. repeat split; reflexivity. Qed.

(** A tick of a running loop away from the last point, in closed form on
    the state [Y] that holds the new reading. *)
Lemma tick_tail2_next (n k : nat) (Y : UI_2.App) :
  shaped n Y -> current_idx Y = Z.of_nat k -> (S k < n)%nat -> _auto_running Y = true ->
  exists st',
    (measure_tail2 true ;;
     still <- gets _auto_running ;;
     if still then
       iv <- gets auto_interval ;;
       j <- after (Z.max 50 iv) CbTickAuto ;;
       modify (set__auto_job (Some j))
     else ret tt) Y = (Ret tt, st') /\
    shaped n st' /\ current_idx st' = Z.of_nat (S k) /\
    r_values st' = r_values Y /\ v_values st' = v_values Y /\
    _auto_running st' = true /\ _auto_job st' = Some (next_job (world Y)) /\
    jobs (world st')
    = jobs (world Y) ++ [mkJob (next_job (world Y)) (Z.max 50 (auto_interval Y)) CbTickAuto] /\
    next_job (world st') = S (next_job (world Y)) /\
    rand_pos (world st') = rand_pos (world Y) /\
    events (world st') = events (world Y) /\ fs (world st') = fs (world Y) /\
    auto_export st' = auto_export Y /\ auto_interval st' = auto_interval Y /\
    limits st' = limits Y.
Proof.
  intros Hs Hi Hk Hrun.
  unfold bind at 1. rewrite (measure_tail2_next n k true Y Hs Hi Hk).
  unfold after. crank. rewrite Hrun.
  eexists. split; [reflexivity|].
  destruct Hs as (H1 & H2 & H3 & H4 & H5 & H6).
  unfold shaped. fields.
  repeat split; try assumption; try reflexivity. lia.
Qed.

Lemma tick_auto_2_next (n k : nat) (st : UI_2.App) :
  shaped n st -> current_idx st = Z.of_nat k -> (S k < n)%nat -> _auto_running st = true ->
  exists st',
    UI_2._tick_auto st = (Ret tt, st') /\
    shaped n st' /\ current_idx st' = Z.of_nat (S k) /\
    r_values st' = Py.update_nth (r_values st) k (Some (fst (reading2 st))) /\
    v_values st' = Py.update_nth (v_values st) k (Some (snd (reading2 st))) /\
    _auto_running st' = true /\ _auto_job st' = Some (next_job (world st)) /\
    jobs (world st')
    = jobs (world st) ++ [mkJob (next_job (world st)) (Z.max 50 (auto_interval st)) CbTickAuto] /\
    next_job (world st') = S (next_job (world st)) /\
    rand_pos (world st') = (3 + rand_pos (world st))%nat /\
    events (world st') = events (world st) /\ fs (world st') = fs (world st) /\
    auto_export st' = auto_export st /\ auto_interval st' = auto_interval st /\
    limits st' = limits st.
Proof.
  intros Hs Hi Hk Hrun.
  pose proof (shaped_after_reading2 n k st Hs ltac:(lia)) as HsY.
  destruct (after_reading2_fields k st) as (Fc & Fr & Fv & Fw & Frun & _ & Fa & Fi & Fl).
  rewrite Hi in Fc. rewrite Hrun in Frun.
  destruct (drawn_fields (world st)) as (Dr & Dj & _ & De).
  destruct (drawn_queue (world st)) as (Dn & Df & _).
  assert (E : UI_2._tick_auto st
              = (UI_2._measure_one true ;;
                 still <- gets _auto_running ;;
                 if still then
                   iv <- gets auto_interval ;;
                   j <- after (Z.max 50 iv) CbTickAuto ;;
                   modify (set__auto_job (Some j))
                 else ret tt) st).
  { unfold UI_2._tick_auto. monad. rewrite Hrun. reflexivity. }
  rewrite E. clear E.
  unfold bind at 1. rewrite (measure_one_2_unfold n k true st Hs Hi ltac:(lia)).
  revert HsY Fc Fr Fv Fw Frun Fa Fi Fl. generalize (after_reading2 k st).
  intros Y HsY Fc Fr Fv Fw Frun Fa Fi Fl.
  destruct (tick_tail2_next n k Y HsY Fc Hk Frun)
    as (st' & Ht & T1 & T2 & T3 & T4 & T5 & T6 & T7 & T8 & T9 & T10 & T11 & T12 & T13 & T14).
  unfold bind at 1 in Ht.
  exists st'. split; [exact Ht|].
  rewrite Fw in T6, T7, T8, T9, T10, T11.
  rewrite Dn in T6, T7, T8. rewrite Dj in T7. rewrite Dr in T9. rewrite De in T10.
  rewrite Df in T11. rewrite Fi in T7.
  split; [exact T1|]. split; [exact T2|].
  split; [now rewrite T3|]. split; [now rewrite T4|].
  split; [exact T5|]. split; [exact T6|]. split; [exact T7|]. split; [exact T8|].
  split; [exact T9|]. split; [exact T10|]. split; [exact T11|].
  split; [now rewrite T12|]. split; [now rewrite T13 | now rewrite T14].
Qed.

(** X2.  While the loop of [UI_2.py] runs and the cursor is not on the last
    point, a tick takes one reading at the cursor, moves the cursor on by
    one and queues one job, and only one: the next tick, due after the
    configured interval but not sooner than 50 ms; its handle is kept in
    [_auto_job].  Nothing is shown and no file is touched. *)
Theorem tick_auto_reschedules_after_interval (n k : nat) (st : UI_2.App) :
  shaped n st -> current_idx st = Z.of_nat k -> (S k < n)%nat -> _auto_running st = true ->
  exists st' id,
    UI_2._tick_auto st = (Ret tt, st') /\
    current_idx st' = Z.of_nat k + 1 /\
    (exists r v, r_values st' = Py.update_nth (r_values st) k (Some r) /\
                 v_values st' = Py.update_nth (v_values st) k (Some v)) /\
    _auto_running st' = true /\ _auto_job st' = Some id /\
    jobs (world st')
    = jobs (world st) ++ [mkJob id (Z.max 50 (auto_interval st)) CbTickAuto] /\
    50 <= Z.max 50 (auto_interval st) /\
    events (world st') = events (world st) /\ fs (world st') = fs (world st).
Proof.
  intros Hs Hi Hk Hrun.
  destruct (tick_auto_2_next n k st Hs Hi Hk Hrun)
    as (st' & Ht & _ & T2 & T3 & T4 & T5 & T6 & T7 & _ & _ & T10 & T11 & _).
  exists st', (next_job (world st)).
  split; [exact Ht|]. split; [rewrite T2; lia|].
  split; [now exists (fst (reading2 st)), (snd (reading2 st))|].
  repeat split; try assumption. lia.
Qed.

Lemma tick_auto_reschedules_witness :
  exists st' id,
    UI_2._tick_auto (set__auto_running true (Sample.app2 3 Sample.world0)) = (Ret tt, st') /\
    current_idx st' = 1 /\ _auto_job st' = Some id /\
    jobs (world st') = [mkJob id 500 CbTickAuto].
Proof.
  assert (Hs : shaped 3 (set__auto_running true (Sample.app2 3 Sample.world0)))
    by (vm_compute; repeat split; reflexivity).
  destruct (tick_auto_reschedules_after_interval 3 0 _ Hs eq_refl ltac:(lia) eq_refl)
    as (st' & id & H1 & H2 & _ & _ & H3 & H4 & _).
  exists st', id. repeat split; assumption.
Defined.

(** The tick of a running loop on the last point, auto-export off, on the
    state [Y] that holds the new reading. *)
Lemma tick_tail2_last (n k : nat) (Y : UI_2.App) :
  shaped n Y -> current_idx Y = Z.of_nat k -> S k = n -> auto_export Y = false ->
  exists st',
    (measure_tail2 true ;;
     still <- gets _auto_running ;;
     if still then
       iv <- gets auto_interval ;;
       j <- after (Z.max 50 iv) CbTickAuto ;;
       modify (set__auto_job (Some j))
     else ret tt) Y = (Ret tt, st') /\
    shaped n st' /\ current_idx st' = Z.of_nat k /\
    r_values st' = r_values Y /\ v_values st' = v_values Y /\
    _auto_running st' = false /\ _auto_job st' = None /\
    jobs (world st')
    = without_job (_auto_job Y) (jobs (world Y)) ++ [mkJob (next_job (world Y)) 0 finished_note] /\
    next_job (world st') = S (next_job (world Y)) /\
    rand_pos (world st') = rand_pos (world Y) /\
    events (world st') = events (world Y) /\ fs (world st') = fs (world Y).
Proof.
  intros Hs Hi Hk Ha. pose proof Hs as (Hn & H2 & H3 & H4 & H5 & H6).
  unfold measure_tail2, after_cancel, _update_mode_buttons, after. crank.
  rewrite Hi, Hn.
  replace (Z.of_nat k <? Z.of_nat n - 1) with false by (symmetry; apply Z.ltb_ge; lia).
  crank.
  destruct (_auto_job Y) as [job|] eqn:Ej; crank; rewrite ?Ej; crank; rewrite Ha; crank;
    (eexists; split; [reflexivity|]); unfold shaped, finished_note; fields; cbn [without_job];
    repeat split; try assumption; reflexivity.
Qed.

Lemma tick_auto_2_last (n k : nat) (st : UI_2.App) :
  shaped n st -> current_idx st = Z.of_nat k -> S k = n -> _auto_running st = true ->
  auto_export st = false ->
  exists st',
    UI_2._tick_auto st = (Ret tt, st') /\
    shaped n st' /\ current_idx st' = Z.of_nat k /\
    r_values st' = Py.update_nth (r_values st) k (Some (fst (reading2 st))) /\
    v_values st' = Py.update_nth (v_values st) k (Some (snd (reading2 st))) /\
    _auto_running st' = false /\ _auto_job st' = None /\
    jobs (world st')
    = without_job (_auto_job st) (jobs (world st)) ++ [mkJob (next_job (world st)) 0 finished_note] /\
    next_job (world st') = S (next_job (world st)) /\
    rand_pos (world st') = (3 + rand_pos (world st))%nat /\
    events (world st') = events (world st) /\ fs (world st') = fs (world st).
Proof.
  intros Hs Hi Hk Hrun Ha.
  pose proof (shaped_after_reading2 n k st Hs ltac:(lia)) as HsY.
  destruct (after_reading2_fields k st) as (Fc & Fr & Fv & Fw & _ & Fj & Fa & _).
  rewrite Hi in Fc. rewrite Ha in Fa.
  destruct (drawn_fields (world st)) as (Dr & Dj & _ & De).
  destruct (drawn_queue (world st)) as (Dn & Df & _).
  assert (E : UI_2._tick_auto st
              = (UI_2._measure_one true ;;
                 still <- gets _auto_running ;;
                 if still then
                   iv <- gets auto_interval ;;
                   j <- after (Z.max 50 iv) CbTickAuto ;;
                   modify (set__auto_job (Some j))
                 else ret tt) st).
  { unfold UI_2._tick_auto. monad. rewrite Hrun. reflexivity. }
  rewrite E. clear E.
  unfold bind at 1. rewrite (measure_one_2_unfold n k true st Hs Hi ltac:(lia)).
  revert HsY Fc Fr Fv Fw Fj Fa. generalize (after_reading2 k st).
  intros Y HsY Fc Fr Fv Fw Fj Fa.
  destruct (tick_tail2_last n k Y HsY Fc Hk Fa)
    as (st' & Ht & T1 & T2 & T3 & T4 & T5 & T6 & T7 & T8 & T9 & T10 & T11).
  unfold bind at 1 in Ht.
  exists st'. split; [exact Ht|].
  rewrite Fw in T7, T8, T9, T10, T11. rewrite Fj, Dn, Dj in T7.
  rewrite Dn in T8. rewrite Dr in T9. rewrite De in T10. rewrite Df in T11.
  split; [exact T1|]. split; [exact T2|].
  split; [now rewrite T3|]. split; [now rewrite T4|].
  split; [exact T5|]. split; [exact T6|]. split; [exact T7|]. split; [exact T8|].
  split; [exact T9|]. split; [exact T10 | exact T11].
Qed.

(** Handles are given out in order: a queued job has a handle below the
    next one. *)
Definition fresh_ids (w : World) : Prop :=
  forall j, In j (jobs w) -> (job_id j < next_job w)%nat.

Lemma find_last_only {A} (f : A -> bool) (l : list A) (y : A) :
  (forall x, In x l -> f x = false) -> f y = true -> find f (l ++ [y]) = Some y.
Proof.
  intros Hl Hy. induction l as [|a l IH]; cbn.
  - now rewrite Hy.
  - rewrite (Hl a) by now left. apply IH. intros x Hx. apply Hl. now right.
Qed.

Definition has_readings {L} (st : App L) (i : nat) : Prop :=
  exists x y, nth_error (r_values st) i = Some (Some x) /\
              nth_error (v_values st) i = Some (Some y).

Lemma has_readings_update {L} (st st' : App L) (k i : nat) (r v : float) :
  (k < List.length (r_values st))%nat -> (k < List.length (v_values st))%nat ->
  r_values st' = Py.update_nth (r_values st) k (Some r) ->
  v_values st' = Py.update_nth (v_values st) k (Some v) ->
  (i = k \/ has_readings st i) -> has_readings st' i.
Proof.
  intros Lr Lv Hr Hv H. unfold has_readings. rewrite Hr, Hv, !nth_error_update_nth.
  destruct (Nat.eqb_spec i k) as [->|Ne].
  - replace (Nat.ltb k (List.length (r_values st))) with true
      by (symmetry; now apply Nat.ltb_lt).
    replace (Nat.ltb k (List.length (v_values st))) with true
      by (symmetry; now apply Nat.ltb_lt).
    now exists r, v.
  - destruct H as [H|H]; [congruence | exact H].
Qed.

(** The loop runs, the cursor on [k]: the tick whose handle is kept is
    queued, the points before [k] are measured, [3 k] draws were taken since
    [st0], and nothing was shown or written. *)
Definition auto_pending (n k : nat) (st0 st : UI_2.App) : Prop :=
  shaped n st /\ current_idx st = Z.of_nat k /\ (k < n)%nat /\
  _auto_running st = true /\ auto_export st = false /\ fresh_ids (world st) /\
  (exists id d,
     _auto_job st = Some id /\
     find (fun b => Nat.eqb (job_id b) id) (jobs (world st)) = Some (mkJob id d CbTickAuto) /\
     forall j, In j (jobs (world st)) -> In j (jobs (world st0)) \/ job_id j = id) /\
  (forall i, (i < k)%nat -> has_readings st i) /\
  events (world st) = events (world st0) /\ fs (world st) = fs (world st0) /\
  rand_pos (world st) = (3 * k + rand_pos (world st0))%nat.

(** The run is over: every point is measured, with [3 n] draws; the loop
    is off and no tick is left; the note that the run is finished is queued. *)
Definition auto_finished (n : nat) (st0 st : UI_2.App) : Prop :=
  shaped n st /\ current_idx st = Z.of_nat (n - 1) /\
  _auto_running st = false /\ _auto_job st = None /\
  (forall i, (i < n)%nat -> has_readings st i) /\
  (forall j, In j (jobs (world st)) -> In j (jobs (world st0)) \/ job_cb j = finished_note) /\
  (exists j, In j (jobs (world st)) /\ job_cb j = finished_note) /\
  events (world st) = events (world st0) /\ fs (world st) = fs (world st0) /\
  rand_pos (world st) = (3 * n + rand_pos (world st0))%nat.

(** The state in which the pending tick finds the session: its job has
    left the queue. *)
Definition dequeued (id : nat) (st : UI_2.App) : UI_2.App :=
  set_world (set_jobs (filter (fun b => negb (Nat.eqb (job_id b) id)) (jobs (world st)))
                      (world st)) st.

Lemma run_pending_tick_unfold (st : UI_2.App) (id : nat) (d : Z) :
  _auto_job st = Some id ->
  find (fun b => Nat.eqb (job_id b) id) (jobs (world st)) = Some (mkJob id d CbTickAuto) ->
  UI_2.run_pending_tick st = UI_2._tick_auto (dequeued id st).
Proof.
  intros Hj Hf. unfold UI_2.run_pending_tick. rewrite Hj, Hf.
  unfold UI_2.fire, after_cancel, dequeued. crank. reflexivity.
Qed.

Lemma dequeued_fields (id : nat) (st : UI_2.App) :
  r_values (dequeued id st) = r_values st /\ v_values (dequeued id st) = v_values st /\
  current_idx (dequeued id st) = current_idx st /\
  _auto_running (dequeued id st) = _auto_running st /\
  _auto_job (dequeued id st) = _auto_job st /\
  auto_export (dequeued id st) = auto_export st /\
  jobs (world (dequeued id st))
  = filter (fun b => negb (Nat.eqb (job_id b) id)) (jobs (world st)) /\
  next_job (world (dequeued id st)) = next_job (world st) /\
  rand_pos (world (dequeued id st)) = rand_pos (world st) /\
  events (world (dequeued id st)) = events (world st) /\
  fs (world (dequeued id st)) = fs (world st).
Proof. unfold dequeued. fields. repeat split; reflexivity. Qed.

Lemma shaped_dequeued (n id : nat) (st : UI_2.App) : shaped n st -> shaped n (dequeued id st).
Proof. unfold shaped, dequeued. fields. auto. Qed.

Lemma pending_after_tick (n k : nat) (st0 X st' : UI_2.App) :
  shaped n X -> (S k < n)%nat -> auto_export X = false ->
  fresh_ids (world X) ->
  (forall j, In j (jobs (world X)) -> In j (jobs (world st0))) ->
  (forall i, (i < k)%nat -> has_readings X i) ->
  events (world X) = events (world st0) -> fs (world X) = fs (world st0) ->
  rand_pos (world X) = (3 * k + rand_pos (world st0))%nat ->
  shaped n st' -> current_idx st' = Z.of_nat (S k) ->
  r_values st' = Py.update_nth (r_values X) k (Some (fst (reading2 X))) ->
  v_values st' = Py.update_nth (v_values X) k (Some (snd (reading2 X))) ->
  _auto_running st' = true -> _auto_job st' = Some (next_job (world X)) ->
  jobs (world st')
  = jobs (world X) ++ [mkJob (next_job (world X)) (Z.max 50 (auto_interval X)) CbTickAuto] ->
  next_job (world st') = S (next_job (world X)) ->
  rand_pos (world st') = (3 + rand_pos (world X))%nat ->
  events (world st') = events (world X) -> fs (world st') = fs (world X) ->
  auto_export st' = auto_export X ->
  auto_pending n (S k) st0 st'.
Proof.
  intros Hs Hk Ha Hfresh Hold Hdone He Hf Hr T1 T2 T3 T4 T5 T6 T7 T8 T9 T10 T11 T12.
  destruct Hs as (_ & Lr & Lv & _).
  split; [exact T1|]. split; [exact T2|]. split; [lia|]. split; [exact T5|].
  split; [congruence|]. split; [|split; [|split; [|split; [|split]]]].
  - intros j Hj. rewrite T7 in Hj. rewrite T8.
    apply in_app_or in Hj as [Hj|[<-|[]]]; [apply Hfresh in Hj; lia | cbn; lia].
  - exists (next_job (world X)), (Z.max 50 (auto_interval X)).
    split; [exact T6|]. split.
    + rewrite T7. apply find_last_only; [|cbn; apply Nat.eqb_refl].
      intros b Hb. apply Hfresh in Hb. apply Nat.eqb_neq. lia.
    + intros j Hj. rewrite T7 in Hj.
      apply in_app_or in Hj as [Hj|[<-|[]]]; [left; now apply Hold | right; reflexivity].
  - intros i Hi. apply (has_readings_update X st' k i _ _ ltac:(lia) ltac:(lia) T3 T4).
    destruct (Nat.eq_dec i k); [now left | right; apply Hdone; lia].
  - congruence.
  - congruence.
  - rewrite T9, Hr. lia.
Qed.

Lemma finished_after_tick (n k : nat) (st0 X st' : UI_2.App) :
  shaped n X -> S k = n ->
  (forall j, In j (without_job (_auto_job X) (jobs (world X))) -> In j (jobs (world st0))) ->
  (forall i, (i < k)%nat -> has_readings X i) ->
  events (world X) = events (world st0) -> fs (world X) = fs (world st0) ->
  rand_pos (world X) = (3 * k + rand_pos (world st0))%nat ->
  shaped n st' -> current_idx st' = Z.of_nat k ->
  r_values st' = Py.update_nth (r_values X) k (Some (fst (reading2 X))) ->
  v_values st' = Py.update_nth (v_values X) k (Some (snd (reading2 X))) ->
  _auto_running st' = false -> _auto_job st' = None ->
  jobs (world st')
  = without_job (_auto_job X) (jobs (world X)) ++ [mkJob (next_job (world X)) 0 finished_note] ->
  rand_pos (world st') = (3 + rand_pos (world X))%nat ->
  events (world st') = events (world X) -> fs (world st') = fs (world X) ->
  auto_finished n st0 st'.
Proof.
  intros Hs Hk Hold Hdone He Hf Hr T1 T2 T3 T4 T5 T6 T7 T9 T10 T11.
  destruct Hs as (_ & Lr & Lv & _).
  split; [exact T1|]. split; [rewrite T2; f_equal; lia|].
  split; [exact T5|]. split; [exact T6|].
  split; [|split; [|split; [|split; [|split]]]].
  - intros i Hi. apply (has_readings_update X st' k i _ _ ltac:(lia) ltac:(lia) T3 T4).
    destruct (Nat.eq_dec i k); [now left | right; apply Hdone; lia].
  - intros j Hj. rewrite T7 in Hj.
    apply in_app_or in Hj as [Hj|[<-|[]]]; [left; now apply Hold | right; reflexivity].
  - eexists. split; [rewrite T7; apply in_or_app; right; left; reflexivity | reflexivity].
  - congruence.
  - congruence.
  - rewrite T9, Hr. lia.
Qed.

(** One turn of the main loop on a running session. *)
Lemma run_pending_tick_step (n k : nat) (st0 st : UI_2.App) :
  auto_pending n k st0 st ->
  exists st',
    UI_2.run_pending_tick st = (Ret tt, st') /\
    (if Nat.eq_dec (S k) n then auto_finished n st0 st' else auto_pending n (S k) st0 st').
Proof.
  intros (Hs & Hi & Hk & Hrun & Ha & Hfresh & (id & d & Hj & Hfind & Hold) & Hdone & He & Hf & Hr).
  rewrite (run_pending_tick_unfold st id d Hj Hfind).
  pose proof (shaped_dequeued n id st Hs) as HsX.
  destruct (dequeued_fields id st) as (Xr & Xv & Xc & Xrun & Xj & Xa & Xjobs & Xn & Xrand & Xe & Xf).
  assert (HoldX : forall j, In j (jobs (world (dequeued id st))) -> In j (jobs (world st0))).
  { intros j Hin. rewrite Xjobs in Hin. apply filter_In in Hin as [Hin Hne].
    apply negb_true_iff, Nat.eqb_neq in Hne.
    destruct (Hold j Hin) as [H|H]; [exact H | contradiction]. }
  assert (HfreshX : fresh_ids (world (dequeued id st))).
  { intros j Hin. rewrite Xjobs in Hin. rewrite Xn. apply filter_In in Hin as [Hin _].
    now apply Hfresh. }
  assert (HdoneX : forall i, (i < k)%nat -> has_readings (dequeued id st) i).
  { intros i Hlt. unfold has_readings. rewrite Xr, Xv. now apply Hdone. }
  rewrite <- Xc in Hi. rewrite <- Xrun in Hrun. rewrite <- Xa in Ha.
  rewrite <- Xe in He. rewrite <- Xf in Hf. rewrite <- Xrand in Hr.
  clear Xr Xv Xc Xrun Xa Xn Xrand Xe Xf Hdone Hold Hfresh Hfind Hs.
  revert HsX Hi Hrun Ha He Hf Hr HoldX HfreshX HdoneX Xj Xjobs.
  generalize (dequeued id st). intros X HsX Hi Hrun Ha He Hf Hr HoldX HfreshX HdoneX Xj Xjobs.
  destruct (Nat.eq_dec (S k) n) as [E|E].
  - destruct (tick_auto_2_last n k X HsX Hi E Hrun Ha)
      as (st' & Ht & T1 & T2 & T3 & T4 & T5 & T6 & T7 & T8 & T9 & T10 & T11).
    exists st'. split; [exact Ht|].
    apply (finished_after_tick n k st0 X st'); try assumption.
    intros j Hin. apply without_job_incl in Hin. now apply HoldX.
  - destruct (tick_auto_2_next n k X HsX Hi ltac:(lia) Hrun)
      as (st' & Ht & T1 & T2 & T3 & T4 & T5 & T6 & T7 & T8 & T9 & T10 & T11 & T12 & _).
    exists st'. split; [exact Ht|].
    apply (pending_after_tick n k st0 X st'); try assumption. lia.
Qed.

Lemma run_pending_ticks (n m : nat) :
  forall (k : nat) (st0 st : UI_2.App),
    auto_pending n k st0 st -> (k + m = n)%nat ->
    exists st',
      times m UI_2.run_pending_tick st = (Ret tt, st') /\ auto_finished n st0 st'.
Proof.
  induction m as [|m IH]; intros k st0 st Hp Hm.
  - destruct Hp as (_ & _ & Hk & _). lia.
  - destruct (run_pending_tick_step n k st0 st Hp) as (st1 & Ht & Hnext).
    cbn [times]. rewrite (run_bind _ _ _ _ _ Ht).
    destruct (Nat.eq_dec (S k) n) as [E|E].
    + assert (m = 0)%nat by lia. subst m. exists st1. split; [reflexivity | exact Hnext].
    + apply (IH (S k) st0 st1 Hnext). lia.
Qed.

(** X3.  Start (Auto) of [UI_2.py] on a session of [n >= 1] points with the
    cursor on the first, auto-export off, followed by the main loop running
    the pending tick [n - 1] times: every call ends normally; every point
    has both readings, taken with [3 n] draws, one reading a tick; the
    cursor is on the last point; the loop is off and holds no handle; the
    queue has gained the "finished" note and no tick; no box was shown and
    no file touched; and the main loop finds no further tick to run. *)
Theorem auto_run_measures_every_point_once (n : nat) (st : UI_2.App) :
  (0 < n)%nat -> shaped n st -> current_idx st = 0 -> _auto_running st = false ->
  auto_export st = false -> fresh_ids (world st) ->
  exists st',
    (UI_2._auto_start ;; times (n - 1) UI_2.run_pending_tick) st = (Ret tt, st') /\
    auto_finished n st st' /\
    UI_2.run_pending_tick st' = (Ret tt, st').
Proof.
  intros Hn Hs Hi Hrun Ha Hfresh.
  set (X := set__auto_running true st).
  assert (E : UI_2._auto_start st = UI_2._tick_auto X).
  { unfold UI_2._auto_start, _update_mode_buttons. monad. now rewrite Hrun. }
  assert (HsX : shaped n X) by (unfold shaped, X; fields; exact Hs).
  assert (HiX : current_idx X = Z.of_nat 0) by exact Hi.
  assert (Hidle : forall s : UI_2.App, _auto_job s = None ->
                                       UI_2.run_pending_tick s = (Ret tt, s)).
  { intros s H. unfold UI_2.run_pending_tick. now rewrite H. }
  unfold bind at 1. rewrite E.
  destruct (Nat.eq_dec 1 n) as [E1|E1].
  - destruct (tick_auto_2_last n 0 X HsX HiX E1 eq_refl Ha)
      as (st' & Ht & T1 & T2 & T3 & T4 & T5 & T6 & T7 & T8 & T9 & T10 & T11).
    rewrite Ht. replace (n - 1)%nat with 0%nat by lia.
    exists st'. split; [reflexivity|]. split; [|now apply Hidle].
    apply (finished_after_tick n 0 st X st'); try assumption; try reflexivity.
    + intros j Hj. now apply without_job_incl in Hj.
    + intros i Hlt. lia.
  - destruct (tick_auto_2_next n 0 X HsX HiX ltac:(lia) eq_refl)
      as (st1 & Ht & T1 & T2 & T3 & T4 & T5 & T6 & T7 & T8 & T9 & T10 & T11 & T12 & _).
    rewrite Ht.
    assert (Hp : auto_pending n 1 st st1).
    { apply (pending_after_tick n 0 st X st1); try assumption; try reflexivity;
        try lia; auto. }
    destruct (run_pending_ticks n (n - 1) 1 st st1 Hp ltac:(lia)) as (st' & Hrunall & Hfin).
    exists st'. split; [exact Hrunall|]. split; [exact Hfin|].
    apply Hidle. apply Hfin.
Qed.

Lemma auto_run_witness :
  exists st',
    (UI_2._auto_start ;; times 2 UI_2.run_pending_tick) (Sample.app2 3 Sample.world0)
    = (Ret tt, st') /\
    auto_finished 3 (Sample.app2 3 Sample.world0) st'.
Proof.
  assert (Hs : shaped 3 (Sample.app2 3 Sample.world0))
    by (vm_compute; repeat split; reflexivity).
  assert (Hf : fresh_ids (world (Sample.app2 3 Sample.world0)))
    by (intros j Hj; vm_compute in Hj; destruct Hj).
  destruct (auto_run_measures_every_point_once 3 _ ltac:(lia) Hs eq_refl eq_refl eq_refl Hf)
    as (st' & H1 & H2 & _).
  exists st'. split; assumption.
Defined.

(** ** The exchange with the instrument in [UI_test.py] *)

(** X4.  [_query_fetc_once], whatever line ending and timeout it is given: with
    no port open it raises [RuntimeError] and the device is not asked; with
    a port open the device is asked once, and the call raises
    [SerialException] when the write fails, raises [TimeoutError] when
    nothing or an empty line comes back, and returns the line decoded
    otherwise.  In every case the port and its timeout are afterwards what
    they were before, and so is all of the state but the device's turn. *)
Theorem query_fetc_once_restores_timeout (le : string) (ms : float) (st : UI_test.App) :
  (ser st = None -> UI_test._query_fetc_once le ms st = (Raise RuntimeError, st))
  /\ (forall port, ser st = Some port ->
        UI_test._query_fetc_once le ms st
        = (match device (oracle (world st)) (device_pos (world st)) with
           | WriteFails => Raise SerialException
           | NoReply => Raise TimeoutError
           | Line raw =>
               if String.eqb raw "" then Raise TimeoutError
               else Ret (Py.decode_ascii_ignore raw)
           end,
           set_world (set_device_pos (S (device_pos (world st))) (world st)) st)).
Proof.
  destruct st as [mn np ai md sf ae lim se rs vs fl ci ar aj rw pc bc w].
  destruct w as [o rp cp kp dp vp js nj ev f c].
  unfold UI_test._query_fetc_once. fields. split.
  - intros ->. reflexivity.
  - intros [p b t] ->. crank.
    destruct (device o vp) as [| |raw]; crank; try reflexivity.
    destruct (String.eqb raw ""); crank; reflexivity.
Qed.


(** The line of the module's docstring, sent by the device over an open
    port, is read as 5.87263 milliohm and 3.0994 volt. *)
Lemma read_meter_docstring_line :
  fst (UI_test._read_meter (Sample.appt 2 (Some Sample.com3) Sample.world0))
  = Ret (5.87263%float, 3.0994%float).
Proof. vm_compute. reflexivity. Qed.

(** ** Clear Results, Reset All, and Apply with another point count *)

Definition blank_row : Row := mkRow COLOR_NEUTRAL FgText FgText.

(** A session of [n] points with nothing measured: every reading absent,
    every flag false, every row neutral, the cursor and the combo box on the
    first point, the big box blank. *)
Definition cleared {L} (n : nat) (st : App L) : Prop :=
  shaped n st /\
  r_values st = repeat None n /\ v_values st = repeat None n /\
  flags st = repeat false n /\ row_widgets st = repeat blank_row n /\
  current_idx st = 0 /\ combo_sel (point_combo st) = 0 /\ big_canvas st = BigIdle.

(** What the user has entered or chosen stays. *)
Definition settings_kept {L} (st st' : App L) : Prop :=
  model_name st' = model_name st /\ num_points st' = num_points st /\
  auto_interval st' = auto_interval st /\ mode st' = mode st /\
  save_folder st' = save_folder st /\ auto_export st' = auto_export st /\
  limits st' = limits st /\ ser st' = ser st.

(** Of the world only the queue may differ, by jobs that left it. *)
Definition only_jobs_left {L} (st st' : App L) : Prop :=
  events (world st') = events (world st) /\ fs (world st') = fs (world st) /\
  no_reading_taken (world st) (world st') /\ nothing_scheduled st st'.

Lemma blank_flags (rmin rmax vmin vmax : float) (n : nat) :
  map (flag_of rmin rmax vmin vmax) (combine (repeat None n) (repeat None n))
  = repeat false n.
Proof. induction n as [|n IH]; cbn; [reflexivity | now rewrite IH]. Qed.

Lemma blank_rows (rmin rmax vmin vmax : float) (n : nat) :
  map (view_of rmin rmax vmin vmax) (combine (repeat None n) (repeat None n))
  = repeat blank_row n.
Proof. induction n as [|n IH]; cbn; [reflexivity | now rewrite IH]. Qed.

Lemma nth_error_repeat_0 {A} (x : A) (n : nat) : (0 < n)%nat -> nth_error (repeat x n) 0 = Some x.
Proof. destruct n; [lia | reflexivity]. Qed.

(** [_reset_results] of [UI_2.py] from the line that reads the length. *)
Definition clear_results2 : M UI_2.App unit :=
  rs <- gets r_values ;;
  let n := Z.of_nat (List.length rs) in
  modify (set_r_values (Py.replicate None n)) ;;
  modify (set_v_values (Py.replicate None n)) ;;
  modify (set_flags (Py.replicate false n)) ;;
  modify (set_current_idx 0) ;;
  try_except (combo_current 0) (fun _ => ret tt) ;;
  UI_2._refresh_rows ;;
  UI_2._update_big_box.

Lemma clear_results2_spec (n : nat) (X : UI_2.App) :
  shaped n X -> (0 < n)%nat ->
  exists st',
    clear_results2 X = (Ret tt, st') /\
    cleared n st' /\ settings_kept X st' /\ world st' = world X /\
    _auto_running st' = _auto_running X /\ _auto_job st' = _auto_job X.
Proof.
  intros (Hn & Hr & Hv & Hf & Hw & Hc) Hpos.
  unfold clear_results2. monad. rewrite Hr. unfold Py.replicate. rewrite Nat2Z.id.
  unfold try_except, combo_current. crank. rewrite Hc.
  replace (0 <? Z.of_nat n) with true by (symmetry; apply Z.ltb_lt; lia).
  change (0 <=? 0) with true. cbn [andb]. crank.
  rewrite (refresh_rows_2_spec n) by (fields; rewrite ?repeat_length; auto).
  rewrite (update_big_box_2_spec _ 0 None None)
    by (unfold refreshed; fields; try reflexivity; now apply nth_error_repeat_0).
  eexists. split; [reflexivity|].
  unfold cleared, shaped, settings_kept, refreshed, big2. fields.
  rewrite blank_flags, blank_rows, !repeat_length.
  repeat split; try reflexivity; assumption.
Qed.

(** X6.  Clear Results of [UI_2.py], on a session of [n >= 1] points: it ends
    normally; every reading is absent and every flag false again, over the
    same [n] points; the cursor is back on the first point and the big box
    blank; a running loop is stopped and its tick cancelled.  Model name,
    point count, interval, mode, folder, auto-export, limits and port stay
    as they are; nothing is shown, written or read. *)
Theorem reset_results_clears_readings_keeps_settings (n : nat) (st : UI_2.App) :
  shaped n st -> (0 < n)%nat ->
  exists st',
    UI_2._reset_results st = (Ret tt, st') /\
    cleared n st' /\ settings_kept st st' /\ only_jobs_left st st' /\
    _auto_running st' = false /\
    (_auto_running st = true ->
     _auto_job st' = None /\
     jobs (world st') = without_job (_auto_job st) (jobs (world st))) /\
    (_auto_running st = false -> world st' = world st /\ _auto_job st' = _auto_job st).
Proof.
  intros Hs Hpos.
  assert (E : UI_2._reset_results st
              = clear_results2 (if _auto_running st then stopped st else st)).
  { unfold UI_2._reset_results, clear_results2.
    rewrite (run_bind (gets _auto_running) _ st st (_auto_running st) eq_refl).
    destruct (_auto_running st); unfold when.
    - now rewrite (run_bind _ _ _ _ _ (auto_stop_spec st)).
    - now rewrite (run_bind (ret tt) _ st st tt eq_refl). }
  rewrite E. clear E.
  destruct (_auto_running st) eqn:Hrun.
  - assert (HsX : shaped n (stopped st)) by (unfold shaped, stopped; fields; exact Hs).
    assert (F : settings_kept st (stopped st) /\ _auto_running (stopped st) = false /\
                _auto_job (stopped st) = None /\
                world (stopped st)
                = set_jobs (without_job (_auto_job st) (jobs (world st))) (world st)).
    { unfold settings_kept, stopped. fields. repeat split; reflexivity. }
    revert HsX F. generalize (stopped st). intros X HsX (Fk & Fr & Fj & Fw).
    destruct (clear_results2_spec n X HsX Hpos) as (st' & Ht & Hc & Hk & Hwd & Hr' & Hj').
    exists st'. split; [exact Ht|]. split; [exact Hc|].
    split; [|split; [|split; [congruence|split]]].
    + unfold settings_kept in *. intuition congruence.
    + unfold only_jobs_left, no_reading_taken, nothing_scheduled. rewrite Hwd, Fw. fields.
      repeat split; try reflexivity. intros j. apply without_job_incl.
    + intros _. split; [congruence|]. rewrite Hwd, Fw. reflexivity.
    + discriminate.
  - destruct (clear_results2_spec n st Hs Hpos) as (st' & Ht & Hc & Hk & Hwd & Hr' & Hj').
    exists st'. split; [exact Ht|]. split; [exact Hc|]. split; [exact Hk|].
    split; [|split; [congruence|split]].
    + unfold only_jobs_left, no_reading_taken, nothing_scheduled. rewrite Hwd.
      repeat split; try reflexivity. auto.
    + discriminate.
    + intros _. split; assumption.
Qed.

Lemma reset_results_witness :
  exists st',
    UI_2._reset_results Sample.half_done2 = (Ret tt, st') /\ cleared 2 st'.
Proof.
  assert (Hs : shaped 2 Sample.half_done2) by (vm_compute; repeat split; reflexivity).
  destruct (reset_results_clears_readings_keeps_settings 2 _ Hs ltac:(lia))
    as (st' & H1 & H2 & _).
  exists st'. split; assumption.
Defined.

Lemma getitem_repeat_0 {A} (x : A) (n : nat) : (0 < n)%nat -> Py.getitem (repeat x n) 0 = Some x.
Proof.
  intros H. rewrite <- (nth_error_repeat_0 x n H).
  apply (getitem_nat (repeat x n) 0). now rewrite repeat_length.
Qed.

(** The arrays and the widgets made anew, in [UI_2.py]. *)
Lemma build_anew_2 (n : nat) (X : UI_2.App) :
  num_points X = Z.of_nat n -> (0 < n)%nat ->
  exists st',
    (_init_arrays ;; UI_2._build_main) X = (Ret tt, st') /\
    cleared n st' /\ settings_kept X st' /\ world st' = world X /\
    _auto_running st' = _auto_running X /\ _auto_job st' = _auto_job X.
Proof.
  intros Hn Hpos.
  unfold _init_arrays, UI_2._build_main, combo_current, UI_2._draw_big_box,
    _update_mode_buttons.
  crank. rewrite Hn. unfold Py.replicate. rewrite Nat2Z.id.
  cbn [combo_values combo_sel]. change (0 <=? 0) with true.
  replace (0 <? Z.max 0 (Z.of_nat n)) with true by (symmetry; apply Z.ltb_lt; lia).
  cbn [andb]. crank.
  repeat (rewrite getitem_repeat_0 by exact Hpos; crank).
  rewrite (refresh_rows_2_spec n) by (fields; rewrite ?repeat_length; auto).
  rewrite (update_big_box_2_spec _ 0 None None)
    by (unfold refreshed; fields; try reflexivity; now apply nth_error_repeat_0).
  eexists. split; [reflexivity|].
  unfold cleared, shaped, settings_kept, refreshed, big2, blank_row. fields.
  rewrite blank_flags, blank_rows, !repeat_length. cbn [combo_values combo_sel].
  repeat split; try reflexivity; try assumption; lia.
Qed.

(** The same in [UI_test.py]. *)
Lemma build_anew_t (n : nat) (X : UI_test.App) :
  num_points X = Z.of_nat n -> (0 < n)%nat ->
  exists st',
    (_init_arrays ;; UI_test._build_main) X = (Ret tt, st') /\
    cleared n st' /\ settings_kept X st' /\ world st' = world X /\
    _auto_running st' = _auto_running X /\ _auto_job st' = _auto_job X.
Proof.
  intros Hn Hpos.
  unfold _init_arrays, UI_test._build_main, combo_current, UI_test._draw_big_box,
    _update_mode_buttons, UI_test._refresh_limits_labels.
  crank. rewrite Hn. unfold Py.replicate. rewrite Nat2Z.id.
  cbn [combo_values combo_sel]. change (0 <=? 0) with true.
  replace (0 <? Z.max 0 (Z.of_nat n)) with true by (symmetry; apply Z.ltb_lt; lia).
  cbn [andb]. crank.
  repeat (rewrite getitem_repeat_0 by exact Hpos; crank).
  rewrite (refresh_rows_t_spec n) by (fields; rewrite ?repeat_length; auto).
  rewrite (update_big_box_t_spec _ 0 None None)
    by (unfold refreshed; fields; try reflexivity; now apply nth_error_repeat_0).
  eexists. split; [reflexivity|].
  unfold cleared, shaped, settings_kept, refreshed, bigt, blank_row. fields.
  rewrite blank_flags, blank_rows, !repeat_length. cbn [combo_values combo_sel].
  repeat split; try reflexivity; try assumption; lia.
Qed.

Section Rebuild.
Context {L : Type}.
Variable build : M (App L) unit.
Variable n : nat.
Hypothesis build_anew :
  forall X : App L, num_points X = Z.of_nat n ->
    exists st',
      (_init_arrays ;; build) X = (Ret tt, st') /\
      cleared n st' /\ settings_kept X st' /\ world st' = world X /\
      _auto_running st' = _auto_running X /\ _auto_job st' = _auto_job X.

(** Stop, new arrays, new widgets: what Reset does, and Apply when the
    point count has changed. *)
Lemma rebuild_spec (st : App L) :
  num_points st = Z.of_nat n ->
  exists st',
    (_auto_stop ;; _init_arrays ;; build) st = (Ret tt, st') /\
    cleared n st' /\ settings_kept st st' /\ only_jobs_left st st' /\
    _auto_running st' = false /\ _auto_job st' = None.
Proof.
  intros Hn. unfold bind at 1. rewrite auto_stop_spec.
  assert (F : num_points (stopped st) = Z.of_nat n /\ settings_kept st (stopped st) /\
              _auto_running (stopped st) = false /\ _auto_job (stopped st) = None /\
              only_jobs_left st (stopped st)).
  { unfold settings_kept, only_jobs_left, no_reading_taken, nothing_scheduled, stopped. fields.
    repeat split; try reflexivity; try assumption. intros j. apply without_job_incl. }
  revert F. generalize (stopped st). intros X (Fn & Fk & Fr & Fj & Fe & Ff & Fq & Fs).
  destruct (build_anew X Fn) as (st' & Ht & Hc & Hk & Hw & Hr & Hj).
  exists st'. split; [exact Ht|]. split; [exact Hc|].
  split; [unfold settings_kept in *; intuition congruence|].
  split; [|split; congruence].
  unfold only_jobs_left, no_reading_taken, nothing_scheduled in *. rewrite Hw.
  repeat split; try assumption; apply Fq.
Qed.

End Rebuild.

(** X7.  Reset All of either program, the point count entered being [n >= 1]
    (whatever the arrays hold, and whether or not that count was applied):
    it ends normally with a session of [n] points and nothing measured; a
    running loop is stopped; what was entered stays; nothing is shown,
    written or read. *)
Theorem reset_gives_fresh_session (n : nat) :
  (0 < n)%nat ->
  (forall st : UI_2.App, num_points st = Z.of_nat n ->
     exists st',
       UI_2._reset st = (Ret tt, st') /\
       cleared n st' /\ settings_kept st st' /\ only_jobs_left st st' /\
       _auto_running st' = false /\ _auto_job st' = None)
  /\ (forall st : UI_test.App, num_points st = Z.of_nat n ->
     exists st',
       UI_test._reset st = (Ret tt, st') /\
       cleared n st' /\ settings_kept st st' /\ only_jobs_left st st' /\
       _auto_running st' = false /\ _auto_job st' = None).
Proof.
  intros Hpos. split; intros st Hn.
  - apply (rebuild_spec UI_2._build_main n); [|exact Hn].
    intros X HX. now apply build_anew_2.
  - apply (rebuild_spec UI_test._build_main n); [|exact Hn].
    intros X HX. now apply build_anew_t.
Qed.

Lemma reset_witness :
  exists st',
    UI_2._reset Sample.half_done2 = (Ret tt, st') /\ cleared 2 st'.
Proof.
  destruct (proj1 (reset_gives_fresh_session 2 ltac:(lia)) Sample.half_done2 eq_refl)
    as (st' & H1 & H2 & _).
  exists st'. split; assumption.
Defined.

(** X8.  Apply of either program with accepted settings and a point count [n]
    that differs from the number of points the session has: the session is
    started over.  It ends normally with [n] points and nothing measured; a
    running loop is stopped; the limits and the other settings stay
    ([UI_2.py] raises an interval below 10 to 10); "Settings applied." is
    shown and nothing else. *)
Theorem apply_with_new_point_count_starts_over (n : nat) :
  (0 < n)%nat ->
  (forall st : UI_2.App,
     num_points st = Z.of_nat n -> List.length (r_values st) <> n ->
     exists st',
       UI_2._apply_settings st = (Ret tt, st') /\
       cleared n st' /\
       settings_kept (set_auto_interval (Z.max 10 (auto_interval st)) st) st' /\
       _auto_running st' = false /\ _auto_job st' = None /\
       events (world st') = events (world st) ++ [ShowInfo "Apply" "Settings applied."] /\
       fs (world st') = fs (world st))
  /\ (forall st : UI_test.App,
     num_points st = Z.of_nat n -> List.length (r_values st) <> n ->
     10 <= auto_interval st ->
     (0 <=? UI_test.r_tol (limits st))%float = true ->
     (0 <=? UI_test.v_tol (limits st))%float = true ->
     exists st',
       UI_test._apply_settings st = (Ret tt, st') /\
       cleared n st' /\ settings_kept st st' /\
       _auto_running st' = false /\ _auto_job st' = None /\
       events (world st') = events (world st) ++ [ShowInfo "Apply" "Settings applied."] /\
       fs (world st') = fs (world st)).
Proof.
  intros Hpos. split.
  - intros st Hn Hlen.
    set (X := set_auto_interval (Z.max 10 (auto_interval st)) st).
    assert (HX : num_points X = Z.of_nat n) by exact Hn.
    destruct (rebuild_spec UI_2._build_main n
                (fun Y HY => build_anew_2 n Y HY Hpos) X HX)
      as (st1 & Ht & Hc & Hk & (He & Hf & _) & Hr & Hj).
    assert (Hcond : negb (Z.of_nat n =? Z.of_nat (List.length (r_values st))) = true)
      by (apply negb_true_iff, Z.eqb_neq; lia).
    unfold UI_2._apply_settings.
    erewrite run_bind;
      [ | unfold try_except; crank;
          replace (0 <? num_points st) with true by (symmetry; apply Z.ltb_lt; lia);
          reflexivity ].
    fold X. cbv beta iota.
    rewrite (run_bind (gets r_values) _ X X (r_values X) eq_refl). cbv zeta.
    change (r_values X) with (r_values st). rewrite Hn, Hcond.
    rewrite (run_bind _ _ _ _ _ Ht).
    unfold show, on_world, modify.
    eexists. split; [reflexivity|]. fields.
    destruct Hc as (Hs & C1 & C2 & C3 & C4 & C5 & C6 & C7).
    split; [|split; [exact Hk|split; [exact Hr|split; [exact Hj|split]]]].
    + unfold cleared, shaped in *. fields. repeat split; try assumption; apply Hs.
    + now rewrite He.
    + exact Hf.
  - intros st Hn Hlen Hi Hrt Hvt.
    destruct (rebuild_spec UI_test._build_main n
                (fun Y HY => build_anew_t n Y HY Hpos) st Hn)
      as (st1 & Ht & Hc & Hk & (He & Hf & _) & Hr & Hj).
    assert (Hcond : negb (Z.of_nat n =? Z.of_nat (List.length (r_values st))) = true)
      by (apply negb_true_iff, Z.eqb_neq; lia).
    unfold UI_test._apply_settings.
    erewrite run_bind;
      [ | unfold try_except; crank;
          replace (0 <? num_points st) with true by (symmetry; apply Z.ltb_lt; lia);
          replace (10 <=? auto_interval st) with true by (symmetry; apply Z.leb_le; lia);
          crank; rewrite Hrt; crank; rewrite Hvt; reflexivity ].
    cbv beta iota.
    rewrite (run_bind (gets r_values) _ st st (r_values st) eq_refl). cbv zeta.
    rewrite Hn, Hcond.
    rewrite (run_bind _ _ _ _ _ Ht).
    unfold show, on_world, modify.
    eexists. split; [reflexivity|]. fields.
    destruct Hc as (Hs & C1 & C2 & C3 & C4 & C5 & C6 & C7).
    split; [|split; [exact Hk|split; [exact Hr|split; [exact Hj|split]]]].
    + unfold cleared, shaped in *. fields. repeat split; try assumption; apply Hs.
    + now rewrite He.
    + exact Hf.
Qed.

Lemma apply_starts_over_witness :
  exists st',
    UI_2._apply_settings (set_num_points 3 Sample.half_done2) = (Ret tt, st') /\
    cleared 3 st'.
Proof.
  destruct (proj1 (apply_with_new_point_count_starts_over 3 ltac:(lia))
              (set_num_points 3 Sample.half_done2) eq_refl)
    as (st' & H1 & H2 & _).
  - vm_compute. discriminate.
  - exists st'. split; assumption.
Defined.

(** X9.  Reset All of either program when the point count entered is not
    positive (Apply would refuse it; Reset All does not look): the readings
    are discarded, the arrays are left empty, and the call fails with
    [TclError], the combo box having no value to select. *)
Theorem reset_without_points_fails :
  (forall st : UI_2.App, num_points st <= 0 ->
     exists st',
       UI_2._reset st = (Raise TclError, st') /\
       r_values st' = [] /\ v_values st' = [] /\ flags st' = [] /\
       current_idx st' = 0 /\ _auto_running st' = false /\
       combo_values (point_combo st') = 0)
  /\ (forall st : UI_test.App, num_points st <= 0 ->
     exists st',
       UI_test._reset st = (Raise TclError, st') /\
       r_values st' = [] /\ v_values st' = [] /\ flags st' = [] /\
       current_idx st' = 0 /\ _auto_running st' = false /\
       combo_values (point_combo st') = 0).
Proof.
  split; intros st Hn.
  - unfold UI_2._reset. unfold bind at 1. rewrite auto_stop_spec.
    unfold _init_arrays, UI_2._build_main, combo_current, stopped. crank.
    cbn [combo_values combo_sel]. unfold Py.replicate.
    replace (Z.to_nat (num_points st)) with 0%nat by lia.
    replace (Z.max 0 (num_points st)) with 0 by lia.
    cbn [andb Z.ltb Z.leb Z.compare repeat]. crank.
    eexists. split; [reflexivity|]. fields. cbn [combo_values]. repeat split; reflexivity.
  - unfold UI_test._reset. unfold bind at 1. rewrite auto_stop_spec.
    unfold _init_arrays, UI_test._build_main, combo_current, stopped. crank.
    cbn [combo_values combo_sel]. unfold Py.replicate.
    replace (Z.to_nat (num_points st)) with 0%nat by lia.
    replace (Z.max 0 (num_points st)) with 0 by lia.
    cbn [andb Z.ltb Z.leb Z.compare repeat]. crank.
    eexists. split; [reflexivity|]. fields. cbn [combo_values]. repeat split; reflexivity.
Qed.

(** ** What a measurement of [UI_2.py] leaves on the screen and on disk *)

(** The part of the state that the end of [_measure_one] does not touch. *)
Definition display_kept {L} (st st' : App L) : Prop :=
  r_values st' = r_values st /\ v_values st' = v_values st /\ flags st' = flags st /\
  row_widgets st' = row_widgets st /\ big_canvas st' = big_canvas st /\
  limits st' = limits st.

Definition files_kept (w w' : World) : Prop :=
  fs w' = fs w /\ clock_pos w' = clock_pos w /\ dialog_pos w' = dialog_pos w.

Lemma measure_tail2_manual (n k : nat) (Y : UI_2.App) :
  shaped n Y -> current_idx Y = Z.of_nat k -> (k < n)%nat ->
  exists st',
    measure_tail2 false Y = (Ret tt, st') /\
    display_kept Y st' /\ files_kept (world Y) (world st') /\
    current_idx st' = Z.of_nat (Nat.min (S k) (n - 1)).
Proof.
  intros Hs Hi Hk. destruct (Nat.eq_dec (S k) n) as [E|E].
  - rewrite (measure_tail2_done n k Y Hs Hi E). eexists. split; [reflexivity|].
    unfold display_kept, files_kept. fields. repeat split; try reflexivity.
    rewrite Hi. f_equal. lia.
  - rewrite (measure_tail2_next n k false Y Hs Hi ltac:(lia)). eexists. split; [reflexivity|].
    unfold display_kept, files_kept. fields. repeat split; try reflexivity. lia.
Qed.

Lemma after_reading2_display (n k : nat) (st : UI_2.App) :
  shaped n st -> (k < n)%nat ->
  let l := limits st in
  let flag := pass_flag (UI_2.r_min l) (UI_2.r_max l) (UI_2.v_min l) (UI_2.v_max l)
                (Some (fst (reading2 st))) (Some (snd (reading2 st))) in
  limits (after_reading2 k st) = l /\
  big_canvas (after_reading2 k st) = (if flag then BigPass else BigFail) /\
  nth_error (flags (after_reading2 k st)) k = Some flag /\
  (forall i, (i < n)%nat ->
     exists r v f row,
       nth_error (r_values (after_reading2 k st)) i = Some r /\
       nth_error (v_values (after_reading2 k st)) i = Some v /\
       nth_error (flags (after_reading2 k st)) i = Some f /\
       nth_error (row_widgets (after_reading2 k st)) i = Some row /\
       point_judged (UI_2.r_min l) (UI_2.r_max l) (UI_2.v_min l) (UI_2.v_max l) r v f row) /\
  files_kept (world st) (world (after_reading2 k st)).
Proof.
  intros (Hn & Hr & Hv & Hf & Hw & Hc) Hk l flag.
  set (Z0 := set_v_values (Py.update_nth (v_values st) k (Some (snd (reading2 st))))
               (set_r_values (Py.update_nth (r_values st) k (Some (fst (reading2 st))))
                  (set_world (drawn (world st)) st))).
  assert (Lr : List.length (r_values Z0) = n) by (unfold Z0; fields; now rewrite update_nth_length).
  assert (Lv : List.length (v_values Z0) = n) by (unfold Z0; fields; now rewrite update_nth_length).
  assert (Fl : limits Z0 = l) by reflexivity.
  assert (Er : nth_error (r_values Z0) k = Some (Some (fst (reading2 st)))).
  { unfold Z0. fields. rewrite nth_error_update_nth, Nat.eqb_refl.
    now replace (Nat.ltb k _) with true by (symmetry; apply Nat.ltb_lt; lia). }
  assert (Ev : nth_error (v_values Z0) k = Some (Some (snd (reading2 st)))).
  { unfold Z0. fields. rewrite nth_error_update_nth, Nat.eqb_refl.
    now replace (Nat.ltb k _) with true by (symmetry; apply Nat.ltb_lt; lia). }
  assert (Wd : files_kept (world st) (world Z0)).
  { unfold Z0, files_kept. fields. destruct (drawn_queue (world st)) as (_ & F1 & F2 & F3).
    now rewrite F1, F2, F3. }
  assert (EY : after_reading2 k st
               = set_big_canvas (big2 l (Some (fst (reading2 st))) (Some (snd (reading2 st))))
                   (refreshed (UI_2.r_min l) (UI_2.r_max l) (UI_2.v_min l) (UI_2.v_max l) Z0))
    by reflexivity.
  rewrite EY. clear EY.
  pose proof (refreshed_all_judged (UI_2.r_min l) (UI_2.r_max l) (UI_2.v_min l) (UI_2.v_max l)
                n Z0 Lr Lv) as (Hr' & Hv' & Hl' & Hall).
  clearbody Z0.
  split; [|split; [|split; [|split]]].
  - fields. now rewrite Hl'.
  - fields. unfold flag, big2, pass_flag, ok_reading, is_some. cbn [andb]. reflexivity.
  - unfold refreshed. fields.
    now rewrite nth_error_map, (nth_error_combine _ _ _ _ _ Er Ev).
  - intros i Hi. fields. rewrite Hr', Hv'. now apply Hall.
  - unfold refreshed. fields. exact Wd.
Qed.

(** X10.  A manual measurement of [UI_2.py] at point [k]: when it returns, the
    big box shows the verdict of point [k], PASS exactly when the flag of
    point [k] is true, although the cursor has moved on to the next point
    if there is one; and every flag and every row agrees with the readings
    of its point under the limits in force.  No file is touched. *)
Theorem measure_one_shows_verdict_of_measured_point (n k : nat) (st : UI_2.App) :
  shaped n st -> current_idx st = Z.of_nat k -> (k < n)%nat ->
  exists st' flag,
    UI_2._measure_one false st = (Ret tt, st') /\
    current_idx st' = Z.of_nat (Nat.min (S k) (n - 1)) /\
    nth_error (flags st') k = Some flag /\
    big_canvas st' = (if flag then BigPass else BigFail) /\
    limits st' = limits st /\
    (forall i, (i < n)%nat ->
       exists r v f row,
         nth_error (r_values st') i = Some r /\ nth_error (v_values st') i = Some v /\
         nth_error (flags st') i = Some f /\ nth_error (row_widgets st') i = Some row /\
         point_judged (UI_2.r_min (limits st)) (UI_2.r_max (limits st))
                      (UI_2.v_min (limits st)) (UI_2.v_max (limits st)) r v f row) /\
    files_kept (world st) (world st').
Proof.
  intros Hs Hi Hk.
  pose proof (shaped_after_reading2 n k st Hs Hk) as HsY.
  destruct (after_reading2_fields k st) as (Fc & _).
  rewrite Hi in Fc.
  destruct (after_reading2_display n k st Hs Hk) as (Dl & Db & Df & Dall & Dw).
  rewrite (measure_one_2_unfold n k false st Hs Hi Hk).
  revert HsY Fc Dl Db Df Dall Dw. generalize (after_reading2 k st).
  intros Y HsY Fc Dl Db Df Dall Dw.
  destruct (measure_tail2_manual n k Y HsY Fc Hk)
    as (st' & Ht & (Kr & Kv & Kf & Kw & Kb & Kl) & (W1 & W2 & W3) & Hc).
  eexists st', _. split; [exact Ht|]. split; [exact Hc|].
  split; [rewrite Kf; exact Df|]. split; [rewrite Kb; exact Db|].
  split; [congruence|]. split.
  - intros i Hlt. rewrite Kr, Kv, Kf, Kw. now apply Dall.
  - destruct Dw as (D1 & D2 & D3). unfold files_kept. repeat split; congruence.
Qed.

Lemma measure_one_shows_verdict_witness :
  exists st' flag,
    UI_2._measure_one false (Sample.app2 2 Sample.world0) = (Ret tt, st') /\
    current_idx st' = 1 /\
    nth_error (flags st') 0 = Some flag /\
    big_canvas st' = (if flag then BigPass else BigFail).
Proof.
  assert (Hs : shaped 2 (Sample.app2 2 Sample.world0))
    by (vm_compute; repeat split; reflexivity).
  destruct (measure_one_shows_verdict_of_measured_point 2 0 _ Hs eq_refl ltac:(lia))
    as (st' & flag & H1 & H2 & H3 & H4 & _).
  exists st', flag. repeat split; assumption.
Defined.

(** The end of an Auto run in [UI_2.py]: the loop is stopped as [_auto_stop]
    stops it, then the snapshot is exported if auto-export is on, then the
    note is queued. *)
Lemma measure_tail2_auto_end (n k : nat) (Y : UI_2.App) :
  shaped n Y -> current_idx Y = Z.of_nat k -> S k = n ->
  measure_tail2 true Y
  = (when (auto_export Y) UI_2._export_snapshot ;;
     _ <- after 0 finished_note ;; ret tt) (stopped Y).
Proof.
  intros (Hn & _) Hi Hk.
  destruct Y as [mn np ai md sf ae lim se rs vs fl ci ar aj rw pc bc w].
  destruct w as [o rp cp kp dp vp js nj ev f c].
  cbn [num_points current_idx] in Hn, Hi. subst np ci.
  unfold measure_tail2, stopped, after_cancel, _update_mode_buttons, after, finished_note,
    without_job.
  crank.
  replace (Z.of_nat k <? Z.of_nat n - 1) with false by (symmetry; apply Z.ltb_ge; lia).
  destruct aj; crank; reflexivity.
Qed.

Lemma stopped_fields {L} (st : App L) :
  r_values (stopped st) = r_values st /\ v_values (stopped st) = v_values st /\
  _auto_running (stopped st) = false /\ _auto_job (stopped st) = None /\
  auto_export (stopped st) = auto_export st /\
  files_kept (world st) (world (stopped st)) /\
  events (world (stopped st)) = events (world st).
Proof. unfold stopped, files_kept. fields. repeat split; reflexivity. Qed.

Lemma shaped_stopped {L} (n : nat) (st : App L) : shaped n st -> shaped n (stopped st).
Proof. unfold shaped, stopped. fields. auto. Qed.

(** X11.  [_measure_one] of [UI_2.py] at point [k] of a session of [n] points.
    Unless it is called from Auto on the last point with auto-export on, it
    ends normally and no file is touched, the clock and the save dialog
    are not consulted.  In that one case the reading is recorded and the
    loop stopped first, and what follows is [_export_snapshot], once, from
    the state that holds the reading, and then the queueing of the
    "finished" note. *)
Theorem measure_one_exports_only_when_auto_run_completes (n k : nat) (st : UI_2.App) :
  shaped n st -> current_idx st = Z.of_nat k -> (k < n)%nat ->
  (forall from_auto,
     from_auto = false \/ (S k < n)%nat \/ auto_export st = false ->
     exists st',
       UI_2._measure_one from_auto st = (Ret tt, st') /\
       files_kept (world st) (world st'))
  /\ (S k = n -> auto_export st = true ->
      exists Y,
        shaped n Y /\
        r_values Y = Py.update_nth (r_values st) k (Some (fst (reading2 st))) /\
        v_values Y = Py.update_nth (v_values st) k (Some (snd (reading2 st))) /\
        _auto_running Y = false /\ _auto_job Y = None /\
        files_kept (world st) (world Y) /\
        UI_2._measure_one true st
        = (UI_2._export_snapshot ;; _ <- after 0 finished_note ;; ret tt) Y).
Proof.
  intros Hs Hi Hk.
  pose proof (shaped_after_reading2 n k st Hs Hk) as HsY.
  destruct (after_reading2_fields k st) as (Fc & Fr & Fv & _ & _ & _ & Fa & _).
  rewrite Hi in Fc.
  destruct (after_reading2_display n k st Hs Hk) as (_ & _ & _ & _ & Dw).
  split.
  - intros from_auto Hcase.
    rewrite (measure_one_2_unfold n k from_auto st Hs Hi Hk).
    revert HsY Fc Fa Dw. generalize (after_reading2 k st). intros Y HsY Fc Fa Dw.
    assert (Hkeep : forall st' : UI_2.App, files_kept (world Y) (world st') ->
                                           files_kept (world st) (world st')).
    { intros st' (W1 & W2 & W3). destruct Dw as (D1 & D2 & D3).
      unfold files_kept. repeat split; congruence. }
    destruct from_auto.
    + destruct (Nat.eq_dec (S k) n) as [E|E].
      * assert (Ha : auto_export st = false) by (destruct Hcase as [H|[H|H]]; [discriminate|lia|exact H]).
        rewrite (measure_tail2_auto_end n k Y HsY Fc E). rewrite Fa, Ha.
        destruct (stopped_fields Y) as (_ & _ & _ & _ & _ & Sw & _).
        revert Sw. generalize (stopped Y). intros X Sw.
        unfold when, after. crank. eexists. split; [reflexivity|]. apply Hkeep.
        destruct Sw as (S1 & S2 & S3). unfold files_kept. fields. repeat split; assumption.
      * rewrite (measure_tail2_next n k true Y HsY Fc ltac:(lia)).
        eexists. split; [reflexivity|]. apply Hkeep.
        unfold files_kept. fields. repeat split; reflexivity.
    + destruct (measure_tail2_manual n k Y HsY Fc Hk) as (st' & Ht & _ & Hw & _).
      exists st'. split; [exact Ht | now apply Hkeep].
  - intros E Ha.
    rewrite (measure_one_2_unfold n k true st Hs Hi Hk).
    revert HsY Fc Fr Fv Fa Dw. generalize (after_reading2 k st). intros Y HsY Fc Fr Fv Fa Dw.
    rewrite (measure_tail2_auto_end n k Y HsY Fc E). rewrite Fa, Ha. unfold when.
    destruct (stopped_fields Y) as (Sr & Sv & Srun & Sj & _ & Sw & _).
    exists (stopped Y).
    split; [now apply shaped_stopped|]. split; [congruence|]. split; [congruence|].
    split; [exact Srun|]. split; [exact Sj|]. split; [|reflexivity].
    destruct Sw as (S1 & S2 & S3). destruct Dw as (D1 & D2 & D3).
    unfold files_kept. repeat split; congruence.
Qed.

Lemma measure_one_exports_witness :
  exists st',
    UI_2._measure_one true (Sample.app2 2 Sample.world0) = (Ret tt, st') /\
    files_kept (world (Sample.app2 2 Sample.world0)) (world st').
Proof.
  assert (Hs : shaped 2 (Sample.app2 2 Sample.world0))
    by (vm_compute; repeat split; reflexivity).
  apply (proj1 (measure_one_exports_only_when_auto_run_completes 2 0 _ Hs eq_refl ltac:(lia))).
  right. left. lia.
Defined.

(** ** A point count entered but not applied

    The spin box of the point count writes [num_points] as the user types;
    the arrays, the rows and the combo box keep the count that was last
    applied.  The methods read [num_points] when they run. *)

(** The session holds [n] points, whatever [num_points] says. *)
Definition holds {L} (n : nat) (st : App L) : Prop :=
  List.length (r_values st) = n /\ List.length (v_values st) = n /\
  List.length (flags st) = n /\ List.length (row_widgets st) = n /\
  combo_values (point_combo st) = Z.of_nat n.

Lemma norm_index_out (n i : nat) : (n <= i)%nat -> Py.norm_index n (Z.of_nat i) = None.
Proof.
  intros H. unfold Py.norm_index.
  replace (Z.of_nat i <? Z.of_nat n) with false by (symmetry; apply Z.ltb_ge; lia).
  replace (Z.of_nat i <? 0) with false by (symmetry; apply Z.ltb_ge; lia).
  now rewrite !andb_false_r.
Qed.

Lemma getitem_out {A} (l : list A) (i : nat) :
  (List.length l <= i)%nat -> Py.getitem l (Z.of_nat i) = None.
Proof. intros H. unfold Py.getitem. now rewrite norm_index_out. Qed.

Lemma setitem_out {A} (l : list A) (i : nat) (x : A) :
  (List.length l <= i)%nat -> Py.setitem l (Z.of_nat i) x = None.
Proof. intros H. unfold Py.setitem. now rewrite norm_index_out. Qed.

Lemma measure_one_2_unfold_held (n k : nat) (from_auto : bool) (st : UI_2.App) :
  holds n st -> current_idx st = Z.of_nat k -> (k < n)%nat ->
  UI_2._measure_one from_auto st = measure_tail2 from_auto (after_reading2 k st).
Proof.
  intros (Hr & Hv & Hf & Hw & Hc) Hi Hk.
  unfold UI_2._measure_one. monad.
  rewrite (run_bind _ _ _ _ _ (read_meter_2_spec st)).
  destruct (reading2 st) as [r v] eqn:Erv. monad.
  rewrite Hi, setitem_nat by lia. monad.
  rewrite setitem_nat by lia. monad.
  erewrite run_bind;
    [ | apply (refresh_rows_2_spec n); fields; rewrite ?update_nth_length; assumption ].
  erewrite run_bind;
    [ | apply (update_big_box_2_spec _ k (Some r) (Some v));
        unfold refreshed; fields; try assumption;
        rewrite nth_error_update_nth, Nat.eqb_refl;
        replace (Nat.ltb k _) with true by (symmetry; apply Nat.ltb_lt; lia); reflexivity ].
  unfold after_reading2, recorded2, measure_tail2. rewrite Erv. cbn [fst snd].
  reflexivity.
Qed.

Lemma after_reading2_held (n k : nat) (st : UI_2.App) :
  holds n st ->
  holds n (after_reading2 k st) /\
  num_points (after_reading2 k st) = num_points st /\
  events (world (after_reading2 k st)) = events (world st) /\
  jobs (world (after_reading2 k st)) = jobs (world st).
Proof.
  intros (Hr & Hv & Hf & Hw & Hc).
  unfold holds, after_reading2, recorded2, refreshed. fields.
  rewrite !length_map, !length_combine, !update_nth_length.
  destruct (drawn_fields (world st)) as (_ & Dj & _ & De).
  repeat split; try assumption; try lia.
Qed.

(** The cursor is past the points the session holds: a measurement takes a
    reading, fails to store it, and raises [IndexError]. *)
Lemma measure_one_2_past_end (n : nat) (from_auto : bool) (X : UI_2.App) :
  List.length (r_values X) = n -> current_idx X = Z.of_nat n ->
  UI_2._measure_one from_auto X = (Raise IndexError, set_world (drawn (world X)) X).
Proof.
  intros Hr Hi. unfold UI_2._measure_one. monad.
  rewrite (run_bind _ _ _ _ _ (read_meter_2_spec X)).
  destruct (reading2 X) as [r v]. monad.
  rewrite Hi, setitem_out by lia. reflexivity.
Qed.

(** X12.  [UI_2.py], a point count entered above the [n] points the session holds
    and not applied, the cursor on the last of the [n] points.  A
    measurement, manual or from the loop, records its reading there, moves
    the cursor past the end and fails with [TclError], the combo box
    having no such value; no "done" or "finished" message is shown.  A tick
    of a running loop fails in the same way: the loop is left marked as
    running with no tick queued, so that Start (Auto) returns at once and
    does nothing.  Every further measurement takes a reading, stores
    nothing and fails with [IndexError]. *)
Theorem measure_with_unapplied_larger_count_fails (n : nat) (st : UI_2.App) :
  (0 < n)%nat -> holds n st -> Z.of_nat n < num_points st ->
  current_idx st = Z.of_nat (n - 1) ->
  (forall from_auto,
     exists st',
       UI_2._measure_one from_auto st = (Raise TclError, st') /\
       r_values st' = Py.update_nth (r_values st) (n - 1) (Some (fst (reading2 st))) /\
       v_values st' = Py.update_nth (v_values st) (n - 1) (Some (snd (reading2 st))) /\
       current_idx st' = Z.of_nat n /\
       _auto_running st' = _auto_running st /\
       events (world st') = events (world st) /\ jobs (world st') = jobs (world st) /\
       (_auto_running st = true ->
        UI_2._tick_auto st = (Raise TclError, st') /\
        UI_2._auto_start st' = (Ret tt, st')) /\
       (forall again,
          exists st'',
            UI_2._measure_one again st' = (Raise IndexError, st'') /\
            r_values st'' = r_values st' /\ v_values st'' = v_values st' /\
            current_idx st'' = Z.of_nat n /\
            rand_pos (world st'') = (3 + rand_pos (world st'))%nat)).
Proof.
  intros Hpos Hh Hm Hi from_auto.
  destruct (after_reading2_held n (n - 1) st Hh) as ((Yr & Yv & Yf & Yw & Yc) & Yn & Ye & Yj).
  destruct (after_reading2_fields (n - 1) st) as (Fc & Fr & Fv & _ & Frun & _).
  rewrite Hi in Fc.
  assert (Hunfold : forall fa, UI_2._measure_one fa st
                               = measure_tail2 fa (after_reading2 (n - 1) st))
    by (intros fa; apply (measure_one_2_unfold_held n (n - 1) fa st Hh Hi); lia).
  assert (Htail : forall (fa : bool) (Y : UI_2.App),
             current_idx Y = Z.of_nat (n - 1) -> num_points Y = num_points st ->
             combo_values (point_combo Y) = Z.of_nat n ->
             measure_tail2 fa Y = (Raise TclError, set_current_idx (Z.of_nat n) Y)).
  { intros fa Y Hc Hn Hcv. unfold measure_tail2, combo_current. crank.
    rewrite Hc, Hn.
    replace (Z.of_nat (n - 1) <? num_points st - 1) with true
      by (symmetry; apply Z.ltb_lt; lia).
    crank. rewrite Hcv.
    replace (Z.of_nat (n - 1) + 1) with (Z.of_nat n) by lia.
    rewrite Z.ltb_irrefl, andb_false_r. reflexivity. }
  rewrite Hunfold.
  revert Yr Yv Yf Yw Yc Yn Ye Yj Fc Fr Fv Frun Hunfold.
  generalize (after_reading2 (n - 1) st).
  intros Y Yr Yv Yf Yw Yc Yn Ye Yj Fc Fr Fv Frun Hunfold.
  rewrite (Htail from_auto Y Fc Yn Yc).
  eexists. split; [reflexivity|]. fields.
  split; [exact Fr|]. split; [exact Fv|]. split; [reflexivity|].
  split; [exact Frun|]. split; [exact Ye|]. split; [exact Yj|]. split.
  - intros Hrun. split.
    + unfold UI_2._tick_auto.
      rewrite (run_bind (gets _auto_running) _ st st (_auto_running st) eq_refl).
      rewrite Hrun. cbn [negb].
      now rewrite (run_bind_raise _ _ _ _ _ (eq_trans (Hunfold true) (Htail true Y Fc Yn Yc))).
    + unfold UI_2._auto_start.
      rewrite (run_bind (gets _auto_running) _ _ _ _ eq_refl). fields.
      now rewrite Frun, Hrun.
  - intros again.
    rewrite (measure_one_2_past_end n again (set_current_idx (Z.of_nat n) Y))
      by (fields; auto).
    eexists. split; [reflexivity|]. fields.
    repeat split; reflexivity.
Qed.

Lemma measure_with_unapplied_count_witness :
  exists st',
    UI_2._measure_one false
      (set_current_idx 1 (set_num_points 5 (Sample.app2 2 Sample.world0)))
    = (Raise TclError, st') /\
    current_idx st' = 2.
Proof.
  assert (Hh : holds 2 (set_current_idx 1 (set_num_points 5 (Sample.app2 2 Sample.world0))))
    by (vm_compute; repeat split; reflexivity).
  destruct (measure_with_unapplied_larger_count_fails 2 _ ltac:(lia) Hh
              ltac:(vm_compute; reflexivity) eq_refl false)
    as (st' & H1 & _ & _ & H2 & _).
  exists st'. split; assumption.
Defined.

Lemma result_rows_raises {L} (k : nat) :
  forall (i : nat) (st : App L),
    (i <= List.length (r_values st))%nat -> (List.length (r_values st) < i + k)%nat ->
    result_rows k (Z.of_nat i) st = (Raise IndexError, st).
Proof.
  induction k as [|k IH]; intros i st Hi Hk; [lia|].
  cbn [result_rows]. monad.
  destruct (Nat.eq_dec i (List.length (r_values st))) as [E|E].
  - rewrite getitem_out by lia. reflexivity.
  - destruct (nth_error_some_lt (r_values st) i) as [r Er]; [lia|].
    rewrite getitem_nat, Er by lia. monad.
    destruct (Py.getitem (v_values st) (Z.of_nat i)) as [v|]; [|reflexivity]. monad.
    replace (Z.of_nat i + 1) with (Z.of_nat (S i)) by lia.
    destruct r as [x|], v as [y|]; crank;
      try (destruct (Py.getitem (flags st) (Z.of_nat i)); [|reflexivity]);
      rewrite (IH (S i) st) by lia; reflexivity.
Qed.

Lemma result_lines_2_raises (st : UI_2.App) :
  (List.length (r_values st) < Z.to_nat (num_points st))%nat ->
  UI_2._result_lines st = (Raise IndexError, set_world (ticked (world st)) st).
Proof.
  intros H. unfold UI_2._result_lines, now. monad.
  erewrite run_bind_raise; [reflexivity|].
  apply (result_rows_raises _ 0); fields; lia.
Qed.

Lemma result_lines_t_raises (st : UI_test.App) :
  (List.length (r_values st) < Z.to_nat (num_points st))%nat ->
  UI_test._result_lines st = (Raise IndexError, set_world (ticked (world st)) st).
Proof.
  intros H. unfold UI_test._result_lines, now, UI_test._r_bounds, UI_test._v_bounds. monad.
  erewrite run_bind_raise; [reflexivity|].
  apply (result_rows_raises _ 0); fields; lia.
Qed.

Lemma result_lines_2_listed (st : UI_2.App) :
  (Z.to_nat (num_points st) <= List.length (r_values st))%nat ->
  (Z.to_nat (num_points st) <= List.length (v_values st))%nat ->
  (Z.to_nat (num_points st) <= List.length (flags st))%nat ->
  UI_2._result_lines st =
  (Ret (report2 st (time_now (world st))), set_world (ticked (world st)) st).
Proof.
  intros Hr Hv Hf. unfold UI_2._result_lines, now. monad.
  erewrite run_bind; [ | apply (result_rows_spec _ 0); fields; lia ].
  monad. unfold report2, report_rows, row_at. fields. reflexivity.
Qed.

Lemma replace_file_holds (p : path) (text : string) (l : list (path * string)) :
  mem_path p (map fst l) = true -> In (p, text) (replace_file p text l).
Proof.
  induction l as [|[q t] l IH]; cbn; [discriminate|].
  destruct (path_eqb p q) eqn:E; cbn.
  - intros _. left. apply path_eqb_eq in E. now subst.
  - intros H. right. now apply IH.
Qed.

Lemma write_file_holds (f f' : FS) (p : path) (text : string) :
  write_file f p text = Some f' -> In (p, text) (files f').
Proof.
  unfold write_file. destruct (is_dir f p); [discriminate|].
  destruct (is_file f p) eqn:Ef.
  - destruct (mem_path p (locked f)); [discriminate|]. intros [= <-]. cbn.
    now apply replace_file_holds.
  - destruct (is_dir f (parent p) && negb (mem_path (parent p) (locked f)));
      [|discriminate]. intros [= <-]. cbn. now left.
Qed.

(** X13.  The report and the snapshot when the point count entered differs from
    the [n] points the session holds.  With a smaller count the report of
    [UI_2.py] lists only that many rows, while its Overall line is still
    judged over all [n] points.  With a larger count [_result_lines] of
    either program raises [IndexError], the clock having been read; and
    [_export_snapshot] of [UI_2.py], the folder made and the file opened,
    catches it: the "Export" error box is shown, the call ends normally, and
    the file is left behind empty. *)
Theorem report_with_unapplied_count (n : nat) :
  (forall st : UI_2.App,
     holds n st -> (Z.to_nat (num_points st) <= n)%nat ->
     exists header overall,
       fst (UI_2._result_lines st)
       = Ret (header ++ report_rows st (Z.to_nat (num_points st))
                     ++ [""; ("Overall" ++ Py.TAB ++ overall)%string]) /\
       List.length header = 7%nat /\
       List.length (report_rows st (Z.to_nat (num_points st))) = Z.to_nat (num_points st) /\
       (overall = "PASS" <-> all_passed st n))
  /\ (forall st : UI_2.App,
        holds n st -> (n < Z.to_nat (num_points st))%nat ->
        UI_2._result_lines st = (Raise IndexError, set_world (ticked (world st)) st))
  /\ (forall st : UI_test.App,
        holds n st -> (n < Z.to_nat (num_points st))%nat ->
        UI_test._result_lines st = (Raise IndexError, set_world (ticked (world st)) st))
  /\ (forall (st : UI_2.App) (fs1 fs2 : FS),
        holds n st -> (n < Z.to_nat (num_points st))%nat ->
        makedirs (fs (world st)) (export_dir st) = Some fs1 ->
        write_file fs1 (export_path st) "" = Some fs2 ->
        exists st',
          UI_2._export_snapshot st = (Ret tt, st') /\
          session_kept st st' /\
          events (world st') = events (world st) ++ [ShowError "Export" IndexError] /\
          fs (world st') = fs2 /\ In (export_path st, ""%string) (files fs2)).
Proof.
  split; [|split; [|split]].
  - intros st (Hr & Hv & Hf & _) Hm.
    rewrite result_lines_2_listed by lia. cbn [fst]. unfold report2.
    assert (Hiff : Py.all (map is_some (r_values st)) && Py.all (flags st) = true
                   <-> all_passed st n).
    { unfold all_passed.
      rewrite andb_true_iff, all_present_iff, all_true_iff, Hr, Hf. reflexivity. }
    eexists. eexists. split; [reflexivity|]. split; [reflexivity|].
    split; [unfold report_rows; now rewrite length_map, length_seq|].
    rewrite <- Hiff. unfold LABEL_OK, LABEL_NG.
    destruct (Py.all (map is_some (r_values st)) && Py.all (flags st));
      split; try reflexivity; discriminate.
  - intros st (Hr & _) Hm. apply result_lines_2_raises. lia.
  - intros st (Hr & _) Hm. apply result_lines_t_raises. lia.
  - intros st fs1 fs2 (Hr & _) Hm Hmk Hwr.
    unfold export_dir in Hmk.
    unfold UI_2._export_snapshot, os_makedirs, write_report, now.
    crank. rewrite Hmk. crank.
    match goal with
    | |- context [write_file fs1 ?p ""%string] => change p with (export_path st)
    end.
    rewrite Hwr. crank.
    rewrite result_lines_2_raises by (fields; lia).
    unfold ticked. crank.
    eexists. split; [reflexivity|]. unfold session_kept. fields.
    split; [repeat split; reflexivity|]. split; [reflexivity|]. split; [reflexivity|].
    exact (write_file_holds _ _ _ _ Hwr).
Qed.

(** ** [str] and [int] of Python, there and back *)

Lemma digit_char_facts (d : Z) :
  0 <= d < 10 ->
  Py.is_digit (Py.digit_char d) = true /\ Py.digit_val (Py.digit_char d) = d /\
  Py.is_space (Py.digit_char d) = false /\
  Ascii.eqb (Py.digit_char d) "-" = false /\ Ascii.eqb (Py.digit_char d) "+" = false.
Proof.
  intros H.
  assert (E : d = 0 \/ d = 1 \/ d = 2 \/ d = 3 \/ d = 4 \/ d = 5 \/ d = 6 \/ d = 7 \/
              d = 8 \/ d = 9) by lia.
  repeat (destruct E as [->|E]; [repeat split; reflexivity|]).
  subst d. repeat split; reflexivity.
Qed.

(** Every character of the text is a decimal digit. *)
Fixpoint digits_only (s : string) : bool :=
  match s with
  | EmptyString => true
  | String c s' => Py.is_digit c && digits_only s'
  end.

Lemma digits_fuel_spec (fuel : nat) :
  forall (n : Z) (acc : string),
    (0 < fuel)%nat -> 0 <= n < 10 ^ Z.of_nat fuel ->
    exists c d e,
      Py.digits_fuel fuel n acc = String c (d ++ acc)%string /\
      Py.is_digit c = true /\ Py.is_space c = false /\
      Ascii.eqb c "-" = false /\ Ascii.eqb c "+" = false /\
      digits_only d = true /\ 0 <= e /\
      forall a b, Py.read_digits (String c (d ++ acc)) a b
                  = Py.read_digits acc (a * 10 ^ e + n) true.
Proof.
  induction fuel as [|fuel IH]; intros n acc Hfuel Hn.
  - lia.
  - cbn [Py.digits_fuel].
    assert (Hmod : 0 <= n mod 10 < 10) by (apply Z.mod_pos_bound; lia).
    destruct (digit_char_facts (n mod 10) Hmod) as (D1 & D2 & D3 & D4 & D5).
    destruct (Z.ltb_spec n 10) as [Hlt|Hge].
    + exists (Py.digit_char (n mod 10)), ""%string, 1.
      rewrite Z.mod_small in * by lia.
      repeat split; try assumption; try reflexivity; try lia.
      intros a b. cbn [append Py.read_digits]. rewrite D1, D2. f_equal. lia.
    + assert (Hdiv : 0 <= n / 10 < 10 ^ Z.of_nat fuel).
      { split; [apply Z.div_pos; lia|].
        apply Z.div_lt_upper_bound; [lia|].
        rewrite Nat2Z.inj_succ, Z.pow_succ_r in Hn by lia. lia. }
      assert (Hf : (0 < fuel)%nat).
      { destruct fuel; [|lia]. cbn in Hdiv.
        assert (1 <= n / 10) by (apply Z.div_le_lower_bound; lia). lia. }
      destruct (IH (n / 10) (String (Py.digit_char (n mod 10)) acc) Hf Hdiv)
        as (c & d & e & E & C1 & C2 & C3 & C4 & C5 & He & Hread).
      exists c, (d ++ String (Py.digit_char (n mod 10)) "")%string, (e + 1).
      assert (Eapp : forall x : string,
                 ((d ++ String (Py.digit_char (n mod 10)) "") ++ x)%string
                 = (d ++ String (Py.digit_char (n mod 10)) x)%string)
        by (intros x; apply append_snoc).
      rewrite Eapp. split; [exact E|].
      repeat split; try assumption; try lia.
      * clear - C5 D1. induction d as [|x d IHd]; cbn in *.
        -- now rewrite D1.
        -- apply andb_true_iff in C5 as [-> C5]. now apply IHd.
      * intros a b. rewrite Hread. cbn [Py.read_digits]. rewrite D1, D2. f_equal.
        rewrite Z.pow_add_r, Z.pow_1_r by lia.
        rewrite (Z.div_mod n 10) at 3 by lia. ring.
Qed.

Lemma log2_fuel (n : Z) : 0 <= n -> n < 10 ^ Z.of_nat (S (Z.to_nat (Z.log2 n + 1))).
Proof.
  intros Hn.
  assert (H0 : 0 <= Z.log2 n) by apply Z.log2_nonneg.
  rewrite Nat2Z.inj_succ, Z2Nat.id by lia.
  destruct (Z.eq_dec n 0) as [->|Hne]; [cbn; lia|].
  assert (Hlog : n < 2 ^ Z.succ (Z.log2 n)) by (apply Z.log2_spec; lia).
  apply (Z.lt_le_trans _ _ _ Hlog).
  apply (Z.le_trans _ (10 ^ Z.succ (Z.log2 n))).
  - apply Z.pow_le_mono_l. lia.
  - apply Z.pow_le_mono_r; lia.
Qed.

Lemma no_space_lstrip (c : ascii) (s : string) :
  Py.is_space c = false -> Py.lstrip (String c s) = String c s.
Proof. intros H. cbn. now rewrite H. Qed.

Lemma digit_not_space (c : ascii) : Py.is_digit c = true -> Py.is_space c = false.
Proof.
  unfold Py.is_digit, Py.is_space. intros H.
  apply andb_true_iff in H as [H1 H2]. apply Nat.leb_le in H1.
  replace (nat_of_ascii c <=? 13)%nat with false by (symmetry; apply Nat.leb_gt; lia).
  replace (nat_of_ascii c <=? 32)%nat with false by (symmetry; apply Nat.leb_gt; lia).
  now rewrite !andb_false_r.
Qed.

Lemma digits_rstrip (s : string) : digits_only s = true -> Py.rstrip s = s.
Proof.
  induction s as [|c s IH]; [reflexivity|]. cbn. intros H.
  apply andb_true_iff in H as [Hc Hs]. rewrite (IH Hs).
  destruct s; [now rewrite (digit_not_space c Hc) | reflexivity].
Qed.

Lemma digits_only_app (a b : string) :
  digits_only (a ++ b) = digits_only a && digits_only b.
Proof. induction a as [|c a IH]; cbn; [reflexivity | now rewrite IH, andb_assoc]. Qed.

(** [int(str(n)) == n] for [n >= 0]. *)
Lemma int_str_int (n : Z) : 0 <= n -> Py.int (Py.str_int n) = Some n.
Proof.
  intros Hn. unfold Py.str_int.
  replace (n <? 0) with false by (symmetry; apply Z.ltb_ge; lia).
  unfold Py.nat_digits.
  destruct (digits_fuel_spec _ n "" (Nat.lt_0_succ _) (conj Hn (log2_fuel n Hn)))
    as (c & d & e & E & C1 & C2 & C3 & C4 & C5 & He & Hread).
  rewrite E. unfold Py.int, Py.strip.
  rewrite no_space_lstrip by exact C2.
  rewrite digits_rstrip
    by (cbn; rewrite C1, digits_only_app, C5; reflexivity).
  assert (Hgo : Py.read_digits (String c (d ++ "")) 0 false = Some n).
  { rewrite Hread. cbn. f_equal; lia. }
  destruct c as [b0 b1 b2 b3 b4 b5 b6 b7].
  destruct b0, b1, b2, b3, b4, b5, b6, b7; try exact Hgo;
    solve [cbn in C3; discriminate C3 | cbn in C4; discriminate C4].
Qed.

(** ** Choosing a point *)

Lemma combo_get_selected (n k : nat) :
  (k < n)%nat -> Py.int (combo_get (mkCombo (Z.of_nat n) (Z.of_nat k))) = Some (Z.of_nat k + 1).
Proof.
  intros H. unfold combo_get. cbn [combo_sel combo_values].
  replace (0 <=? Z.of_nat k) with true by (symmetry; apply Z.leb_le; lia).
  replace (Z.of_nat k <? Z.of_nat n) with true by (symmetry; apply Z.ltb_lt; lia).
  cbn [andb]. apply int_str_int. lia.
Qed.

Lemma jump_to_2_spec (n k : nat) (st : UI_2.App) (r v : option float) :
  shaped n st -> (k < n)%nat ->
  nth_error (r_values st) k = Some r -> nth_error (v_values st) k = Some v ->
  UI_2._jump_to (Z.of_nat k) st
  = (Ret tt, set_big_canvas (big2 (limits st) r v)
               (set_point_combo (mkCombo (Z.of_nat n) (Z.of_nat k))
                  (set_current_idx (Z.of_nat k) st)))
  /\ UI_2._on_combo (set_point_combo (mkCombo (Z.of_nat n) (Z.of_nat k)) st)
     = UI_2._jump_to (Z.of_nat k) st.
Proof.
  intros (Hn & Hr & Hv & Hf & Hw & Hc) Hk Er Ev.
  assert (E1 : UI_2._jump_to (Z.of_nat k) st
               = (Ret tt, set_big_canvas (big2 (limits st) r v)
                            (set_point_combo (mkCombo (Z.of_nat n) (Z.of_nat k))
                               (set_current_idx (Z.of_nat k) st)))).
  { unfold UI_2._jump_to, combo_current, _scroll_row_into_view. crank. rewrite Hc.
    replace (0 <=? Z.of_nat k) with true by (symmetry; apply Z.leb_le; lia).
    replace (Z.of_nat k <? Z.of_nat n) with true by (symmetry; apply Z.ltb_lt; lia).
    cbn [andb]. crank.
    rewrite (update_big_box_2_spec _ k r v) by (fields; auto).
    reflexivity. }
  split; [exact E1|]. rewrite E1.
  unfold UI_2._on_combo, _scroll_row_into_view. crank.
  rewrite (combo_get_selected n k Hk). crank.
  replace (Z.of_nat k + 1 - 1) with (Z.of_nat k) by lia.
  rewrite (update_big_box_2_spec _ k r v) by (fields; auto).
  destruct st as [mn np ai md sf ae lim se rs vs fl ci ar aj rw pc bc w]. reflexivity.
Qed.

Lemma jump_to_t_spec (n k : nat) (st : UI_test.App) (r v : option float) :
  shaped n st -> (k < n)%nat ->
  nth_error (r_values st) k = Some r -> nth_error (v_values st) k = Some v ->
  UI_test._jump_to (Z.of_nat k) st
  = (Ret tt, set_big_canvas (bigt st r v)
               (set_point_combo (mkCombo (Z.of_nat n) (Z.of_nat k))
                  (set_current_idx (Z.of_nat k) st)))
  /\ UI_test._on_combo (set_point_combo (mkCombo (Z.of_nat n) (Z.of_nat k)) st)
     = UI_test._jump_to (Z.of_nat k) st.
Proof.
  intros (Hn & Hr & Hv & Hf & Hw & Hc) Hk Er Ev.
  assert (E1 : UI_test._jump_to (Z.of_nat k) st
               = (Ret tt, set_big_canvas (bigt st r v)
                            (set_point_combo (mkCombo (Z.of_nat n) (Z.of_nat k))
                               (set_current_idx (Z.of_nat k) st)))).
  { unfold UI_test._jump_to, combo_current, _scroll_row_into_view. crank. rewrite Hc.
    replace (0 <=? Z.of_nat k) with true by (symmetry; apply Z.leb_le; lia).
    replace (Z.of_nat k <? Z.of_nat n) with true by (symmetry; apply Z.ltb_lt; lia).
    cbn [andb]. crank.
    rewrite (update_big_box_t_spec _ k r v) by (fields; auto).
    unfold bigt, UI_test._r_bounds, UI_test._v_bounds. fields. reflexivity. }
  split; [exact E1|]. rewrite E1.
  unfold UI_test._on_combo, _scroll_row_into_view. crank.
  rewrite (combo_get_selected n k Hk). crank.
  replace (Z.of_nat k + 1 - 1) with (Z.of_nat k) by lia.
  rewrite (update_big_box_t_spec _ k r v) by (fields; auto).
  unfold bigt, UI_test._r_bounds, UI_test._v_bounds. fields.
  destruct st as [mn np ai md sf ae lim se rs vs fl ci ar aj rw pc bc w]. reflexivity.
Qed.

(** The point [k] is shown: the cursor and the combo box are on it, and
    the big box is blank when it has no reading and else shows the verdict
    [verdict] gives its readings.  Nothing else has changed. *)
Definition point_shown {L} (verdict : float -> float -> bool) (k : nat) (st st' : App L) : Prop :=
  current_idx st' = Z.of_nat k /\ combo_sel (point_combo st') = Z.of_nat k /\
  r_values st' = r_values st /\ v_values st' = v_values st /\ flags st' = flags st /\
  row_widgets st' = row_widgets st /\ world st' = world st /\
  settings_kept st st' /\
  (nth_error (r_values st) k = Some None -> nth_error (v_values st) k = Some None ->
   big_canvas st' = BigIdle) /\
  (forall x y, nth_error (r_values st) k = Some (Some x) ->
               nth_error (v_values st) k = Some (Some y) ->
               big_canvas st' = if verdict x y then BigPass else BigFail).

(** X14.  In both programs a click on the label of point [k] ([_jump_to]) and the
    choice of point [k] in the combo box ([_on_combo], the box showing
    [k + 1]) end normally in one and the same state: the cursor and the
    combo box are on [k], the big box shows the verdict of point [k] or is
    blank when the point has no reading, and readings, flags, rows, settings
    and the world are untouched. *)
Theorem jump_and_combo_show_the_same_point (n k : nat) :
  (k < n)%nat ->
  (forall st : UI_2.App,
     shaped n st ->
     exists st',
       UI_2._jump_to (Z.of_nat k) st = (Ret tt, st') /\
       UI_2._on_combo (set_point_combo (mkCombo (Z.of_nat n) (Z.of_nat k)) st) = (Ret tt, st') /\
       point_shown (fun x y => within (UI_2.r_min (limits st)) (UI_2.r_max (limits st)) x
                               && within (UI_2.v_min (limits st)) (UI_2.v_max (limits st)) y)
                   k st st')
  /\ (forall st : UI_test.App,
     shaped n st ->
     exists st',
       UI_test._jump_to (Z.of_nat k) st = (Ret tt, st') /\
       UI_test._on_combo (set_point_combo (mkCombo (Z.of_nat n) (Z.of_nat k)) st) = (Ret tt, st') /\
       point_shown (fun x y => within (fst (UI_test._r_bounds st)) (snd (UI_test._r_bounds st)) x
                               && within (fst (UI_test._v_bounds st)) (snd (UI_test._v_bounds st)) y)
                   k st st').
Proof.
  intros Hk. split; intros st Hs.
  - pose proof Hs as (_ & Hr & Hv & _).
    destruct (nth_error_some_lt (r_values st) k) as [r Er]; [lia|].
    destruct (nth_error_some_lt (v_values st) k) as [v Ev]; [lia|].
    destruct (jump_to_2_spec n k st r v Hs Hk Er Ev) as (E1 & E2).
    eexists. split; [exact E1|]. split; [now rewrite E2|].
    unfold point_shown, settings_kept. fields. cbn [combo_sel].
    repeat split; try reflexivity.
    + intros Rn Vn. rewrite Er in Rn. rewrite Ev in Vn. injection Rn as ->. injection Vn as ->.
      reflexivity.
    + intros x y Rx Vy. rewrite Er in Rx. rewrite Ev in Vy. injection Rx as ->.
      injection Vy as ->. reflexivity.
  - pose proof Hs as (_ & Hr & Hv & _).
    destruct (nth_error_some_lt (r_values st) k) as [r Er]; [lia|].
    destruct (nth_error_some_lt (v_values st) k) as [v Ev]; [lia|].
    destruct (jump_to_t_spec n k st r v Hs Hk Er Ev) as (E1 & E2).
    eexists. split; [exact E1|]. split; [now rewrite E2|].
    unfold point_shown, settings_kept. fields. cbn [combo_sel].
    repeat split; try reflexivity.
    + intros Rn Vn. rewrite Er in Rn. rewrite Ev in Vn. injection Rn as ->. injection Vn as ->.
      reflexivity.
    + intros x y Rx Vy. rewrite Er in Rx. rewrite Ev in Vy. injection Rx as ->.
      injection Vy as ->. reflexivity.
Qed.

Lemma jump_and_combo_witness :
  exists st',
    UI_2._jump_to 1 Sample.half_done2 = (Ret tt, st') /\
    UI_2._on_combo (set_point_combo (mkCombo 2 1) Sample.half_done2) = (Ret tt, st') /\
    current_idx st' = 1 /\ big_canvas st' = BigIdle.
Proof.
  assert (Hs : shaped 2 Sample.half_done2) by (vm_compute; repeat split; reflexivity).
  destruct (proj1 (jump_and_combo_show_the_same_point 2 1 ltac:(lia)) _ Hs)
    as (st' & H1 & H2 & H3 & _ & _ & _ & _ & _ & _ & _ & H4 & _).
  exists st'. split; [exact H1|]. split; [exact H2|]. split; [exact H3|].
  apply H4; reflexivity.
Defined.

(** X15.  In [UI_2.py] any point can be measured again: a click on the label of
    point [k] followed by a manual measurement ends normally, writes the new
    readings at [k], over what was there, leaves every other reading as it
    was, and moves the cursor to the point after [k], or leaves it on [k]
    when [k] is the last. *)
Theorem jump_then_measure_overwrites_point (n k : nat) (st : UI_2.App) :
  shaped n st -> (k < n)%nat ->
  exists st' r v,
    (UI_2._jump_to (Z.of_nat k) ;; UI_2._measure_one false) st = (Ret tt, st') /\
    r_values st' = Py.update_nth (r_values st) k (Some r) /\
    v_values st' = Py.update_nth (v_values st) k (Some v) /\
    (forall i, i <> k -> nth_error (r_values st') i = nth_error (r_values st) i /\
                         nth_error (v_values st') i = nth_error (v_values st) i) /\
    current_idx st' = Z.of_nat (Nat.min (S k) (n - 1)).
Proof.
  intros Hs Hk. pose proof Hs as (_ & Hr & Hv & _).
  destruct (nth_error_some_lt (r_values st) k) as [r0 Er]; [lia|].
  destruct (nth_error_some_lt (v_values st) k) as [v0 Ev]; [lia|].
  destruct (jump_to_2_spec n k st r0 v0 Hs Hk Er Ev) as (E1 & _).
  rewrite (run_bind _ _ _ _ _ E1).
  set (J := set_big_canvas (big2 (limits st) r0 v0)
              (set_point_combo (mkCombo (Z.of_nat n) (Z.of_nat k))
                 (set_current_idx (Z.of_nat k) st))).
  assert (HsJ : shaped n J).
  { destruct Hs as (H1 & H2 & H3 & H4 & H5 & H6).
    unfold shaped, J. fields. cbn [combo_values]. repeat split; assumption || reflexivity. }
  assert (FJ : current_idx J = Z.of_nat k /\ r_values J = r_values st /\
               v_values J = v_values st) by (unfold J; fields; auto).
  clearbody J. destruct FJ as (Jc & Jr & Jv).
  destruct (measure_one_2_step n k J HsJ Jc Hk) as (st' & (Hm & Hc & r & v & Hr' & Hv') & _).
  exists st', r, v. split; [exact Hm|]. rewrite Jr in Hr'. rewrite Jv in Hv'.
  split; [exact Hr'|]. split; [exact Hv'|]. split; [|exact Hc].
  intros i Hi. rewrite Hr', Hv', !nth_error_update_nth.
  replace (Nat.eqb i k) with false by (symmetry; now apply Nat.eqb_neq). now split.
Qed.

Lemma jump_then_measure_witness :
  exists st' r v,
    (UI_2._jump_to 0 ;; UI_2._measure_one false) Sample.half_done2 = (Ret tt, st') /\
    r_values st' = [Some r; None] /\ v_values st' = [Some v; None].
Proof.
  assert (Hs : shaped 2 Sample.half_done2) by (vm_compute; repeat split; reflexivity).
  destruct (jump_then_measure_overwrites_point 2 0 _ Hs ltac:(lia))
    as (st' & r & v & H1 & H2 & H3 & _).
  exists st', r, v. split; [exact H1|]. split; [exact H2 | exact H3].
Defined.

(** ** Connecting and disconnecting *)

(** X16.  [_connect_serial] and [_disconnect_serial] of both programs never raise
    and leave readings, flags, cursor and configuration alone.  With a blank
    port name only a warning is shown and the connection stays as it is.
    Otherwise the program is connected afterwards exactly when the baud rate
    is an integer and the port could be opened, with the name stripped, that
    rate and a timeout of one second; in every other case it is
    disconnected afterwards, a connection it had before included, and the
    error is shown.  After [_disconnect_serial] it is disconnected. *)
Theorem connect_serial_outcomes (L : Type) (com_port baudrate : string)
        (refused : option Exn) (st : App L) :
  (exists st',
     _connect_serial com_port baudrate refused st = (Ret tt, st') /\
     session_kept st st' /\ fs (world st') = fs (world st) /\
     (Py.strip com_port = ""%string ->
      ser st' = ser st /\
      events (world st')
      = events (world st) ++ [ShowWarning "Serial" "Please select a COM Port."]) /\
     (Py.strip com_port <> ""%string ->
      (forall baud, Py.int baudrate = Some baud -> refused = None ->
         ser st' = Some (mkSerial (Py.strip com_port) baud 1) /\
         exists text, events (world st') = events (world st) ++ [ShowInfo "Serial" text]) /\
      (Py.int baudrate = None ->
         ser st' = None /\
         events (world st') = events (world st) ++ [ShowError "Serial" ValueError]) /\
      (forall baud e, Py.int baudrate = Some baud -> refused = Some e ->
         ser st' = None /\
         events (world st') = events (world st) ++ [ShowError "Serial" e])))
  /\ (exists st',
        _disconnect_serial st = (Ret tt, st') /\
        ser st' = None /\ session_kept st st' /\
        events (world st') = events (world st) ++ [ShowInfo "Serial" "Disconnected"]).
Proof.
  split.
  - unfold _connect_serial, _update_serial_buttons. crank.
    destruct (String.eqb (Py.strip com_port) "") eqn:Ep; crank.
    + apply String.eqb_eq in Ep.
      eexists. split; [reflexivity|]. unfold session_kept. fields.
      split; [repeat split; reflexivity|]. split; [reflexivity|].
      split; [intros _; split; reflexivity | intros H; contradiction].
    + apply String.eqb_neq in Ep.
      destruct (Py.int baudrate) as [baud|]; crank.
      * destruct refused as [e|]; crank;
          (eexists; split; [reflexivity|]); unfold session_kept; fields;
          (split; [repeat split; reflexivity|]); (split; [reflexivity|]);
          (split; [intros H; contradiction|]); intros _;
          (split; [|split]); try discriminate.
        -- intros b0 e0 [= <-] [= <-]. split; reflexivity.
        -- intros b0 [= <-] _. split; [reflexivity|]. eexists. reflexivity.
      * eexists. split; [reflexivity|]. unfold session_kept. fields.
        split; [repeat split; reflexivity|]. split; [reflexivity|].
        split; [intros H; contradiction|]. intros _.
        split; [discriminate|]. split; [|discriminate].
        intros _. split; reflexivity.
  - unfold _disconnect_serial, _update_serial_buttons. crank.
    eexists. split; [reflexivity|]. unfold session_kept. fields.
    repeat split; reflexivity.
Qed.

(** ** The list of ports *)

Section SortedBy.
Context {A K : Type}.
Variable leb : K -> K -> bool.
Variable key : A -> K.
Hypothesis leb_total : forall a b, leb a b = true \/ leb b a = true.

(** The key of [x] is not greater than the key of [y]. *)
Definition key_ordered (x y : A) : Prop := leb (key x) (key y) = true.

Lemma insert_sorted_perm (x : A) (l : list A) :
  Permutation (Py.insert_sorted leb key x l) (x :: l).
Proof.
  induction l as [|y l IH]; cbn; [reflexivity|].
  destruct (leb (key y) (key x)); [|reflexivity].
  rewrite IH. apply perm_swap.
Qed.

Lemma insert_sorted_hd (x y : A) (l : list A) :
  key_ordered y x -> HdRel key_ordered y l -> HdRel key_ordered y (Py.insert_sorted leb key x l).
Proof.
  intros Hyx Hl. destruct l as [|z l]; cbn; [now constructor|].
  destruct (leb (key z) (key x)); constructor; [now inversion Hl | exact Hyx].
Qed.

Lemma insert_sorted_sorted (x : A) (l : list A) :
  Sorted key_ordered l -> Sorted key_ordered (Py.insert_sorted leb key x l).
Proof.
  induction 1 as [|y l Hl IH Hd]; cbn; [repeat constructor|].
  destruct (leb (key y) (key x)) eqn:E.
  - constructor; [exact IH | now apply insert_sorted_hd].
  - constructor; [now constructor|]. constructor.
    destruct (leb_total (key x) (key y)) as [H|H]; [exact H | congruence].
Qed.

Lemma sorted_by_from (l : list A) :
  forall acc, Sorted key_ordered acc ->
    Permutation (fold_left (fun a x => Py.insert_sorted leb key x a) l acc) (acc ++ l) /\
    Sorted key_ordered (fold_left (fun a x => Py.insert_sorted leb key x a) l acc).
Proof.
  induction l as [|x l IH]; intros acc Hacc; cbn.
  - rewrite app_nil_r. now split.
  - destruct (IH _ (insert_sorted_sorted x acc Hacc)) as [P S0].
    split; [|exact S0]. rewrite P, insert_sorted_perm.
    cbn. apply Permutation_middle.
Qed.

Lemma sorted_by_spec (l : list A) :
  Permutation (Py.sorted_by leb key l) l /\ Sorted key_ordered (Py.sorted_by leb key l).
Proof. apply (sorted_by_from l []). constructor. Qed.

End SortedBy.

Lemma all_digits_only (s : string) : Py.all_digits s = digits_only s.
Proof. induction s as [|c s IH]; cbn; [reflexivity | now rewrite IH]. Qed.

Lemma read_all_digits (s : string) :
  digits_only s = true -> forall acc, 0 <= acc ->
  exists n, Py.read_digits s acc true = Some n /\ 0 <= n.
Proof.
  induction s as [|c s IH]; cbn [digits_only Py.read_digits]; intros H acc Hacc;
    [now exists acc|].
  apply andb_true_iff in H as [Hc Hs]. rewrite Hc.
  apply IH; [exact Hs|].
  unfold Py.is_digit in Hc. apply andb_true_iff in Hc as [H1 _]. apply Nat.leb_le in H1.
  unfold Py.digit_val. lia.
Qed.

(** [int] of a text that [isdigit] accepts does not raise. *)
Lemma int_of_isdigit (s : string) :
  Py.isdigit s = true -> exists n, Py.int s = Some n /\ 0 <= n.
Proof.
  unfold Py.isdigit. rewrite all_digits_only. intros H.
  apply andb_true_iff in H as [Hne Hd].
  destruct s as [|c s]; [discriminate|]. clear Hne.
  pose proof Hd as Hd'. cbn [digits_only] in Hd'. apply andb_true_iff in Hd' as [Hc Hs].
  unfold Py.int, Py.strip.
  rewrite no_space_lstrip by now apply digit_not_space.
  rewrite digits_rstrip by exact Hd.
  assert (Hgo : exists n, Py.read_digits (String c s) 0 false = Some n /\ 0 <= n).
  { cbn [Py.read_digits]. rewrite Hc. apply read_all_digits; [exact Hs|].
    unfold Py.is_digit in Hc. apply andb_true_iff in Hc as [H1 _]. apply Nat.leb_le in H1.
    unfold Py.digit_val. lia. }
  destruct c as [b0 b1 b2 b3 b4 b5 b6 b7].
  destruct b0, b1, b2, b3, b4, b5, b6, b7; try exact Hgo; discriminate.
Qed.

(** The key of [UI_2.py], which never raises. *)
Definition port_key2 (x : string) : bool * Z * string :=
  (negb (String.eqb (substring 0 3 x) "COM"),
   if String.prefix "COM" x && Py.isdigit (Py.drop 3 x)
   then match Py.int (Py.drop 3 x) with Some n => n | None => 0 end
   else 0,
   x).

Lemma port_key_2_total (x : string) : UI_2.port_key x = Some (port_key2 x).
Proof.
  unfold UI_2.port_key, port_key2.
  destruct (String.prefix "COM" x && Py.isdigit (Py.drop 3 x)) eqn:E; [|reflexivity].
  apply andb_true_iff in E as [_ E]. destruct (int_of_isdigit _ E) as (n & -> & _).
  reflexivity.
Qed.

Lemma port_keys_2_total (l : list string) : UI_2.port_keys l = Some (map port_key2 l).
Proof.
  induction l as [|x l IH]; cbn; [reflexivity|]. now rewrite port_key_2_total, IH.
Qed.

Lemma string_leb_refl (s : string) : String.leb s s = true.
Proof. destruct (String.leb_total s s); assumption. Qed.

Lemma key_leb_2_total (a b : bool * Z * string) :
  UI_2.key_leb a b = true \/ UI_2.key_leb b a = true.
Proof.
  destruct a as [[a1 a2] a3], b as [[b1 b2] b3]. unfold UI_2.key_leb.
  destruct a1, b1; cbn [Bool.eqb negb]; auto;
    destruct (Z.eqb_spec a2 b2) as [->|Hne];
    try (rewrite Z.eqb_refl; apply String.leb_total);
    (replace (b2 =? a2) with false by (symmetry; apply Z.eqb_neq; congruence));
    destruct (Z.ltb_spec a2 b2); auto; right; apply Z.ltb_lt; lia.
Qed.

Lemma substring_0_all (s : string) : substring 0 (String.length s) s = s.
Proof. induction s as [|c s IH]; cbn; [reflexivity | now rewrite IH]. Qed.

Lemma substring_0_0 (s : string) : substring 0 0 s = ""%string.
Proof. now destruct s. Qed.

Lemma com_name_parts (s : string) :
  String.prefix "COM" ("COM" ++ s) = true /\ Py.drop 3 ("COM" ++ s) = s /\
  substring 0 3 ("COM" ++ s) = "COM"%string.
Proof.
  split; [|split].
  - cbn. now destruct s.
  - unfold Py.drop. cbn [append String.length Nat.sub substring].
    rewrite ?Nat.sub_0_r. apply substring_0_all.
  - cbn [append substring]. now rewrite substring_0_0.
Qed.

Lemma str_int_isdigit (i : Z) : 0 <= i -> Py.isdigit (Py.str_int i) = true.
Proof.
  intros Hi. unfold Py.str_int.
  replace (i <? 0) with false by (symmetry; apply Z.ltb_ge; lia).
  unfold Py.nat_digits.
  destruct (digits_fuel_spec _ i "" (Nat.lt_0_succ _) (conj Hi (log2_fuel i Hi)))
    as (c & d & e & E & C1 & _ & _ & _ & C5 & _).
  rewrite E. unfold Py.isdigit. rewrite all_digits_only. cbn [String.eqb negb andb digits_only].
  now rewrite C1, digits_only_app, C5.
Qed.

Lemma port_key2_numbered (i : Z) :
  0 <= i -> port_key2 ("COM" ++ Py.str_int i) = (false, i, ("COM" ++ Py.str_int i)%string).
Proof.
  intros Hi. unfold port_key2.
  destruct (com_name_parts (Py.str_int i)) as (-> & -> & ->).
  now rewrite str_int_isdigit, int_str_int by exact Hi.
Qed.

(** The name [x] may stand before the name [y] in the list of [UI_2.py]. *)
Definition port_before (x y : string) : Prop :=
  UI_2.key_leb (port_key2 x) (port_key2 y) = true.

Lemma sorted_keys_names (l : list (bool * Z * string)) :
  Forall (fun k => k = port_key2 (snd k)) l ->
  Sorted (key_ordered UI_2.key_leb (fun k => k)) l ->
  Sorted port_before (map snd l).
Proof.
  intros Hall Hs. induction Hs as [|k l Hl IH Hd]; cbn; [constructor|].
  inversion Hall as [|? ? Hk Hrest]; subst.
  constructor; [now apply IH|].
  destruct Hd as [|k' l' Hkk']; cbn; constructor.
  inversion Hrest as [|? ? Hk' _]; subst.
  unfold port_before. rewrite <- Hk, <- Hk'. exact Hkk'.
Qed.

Lemma chosen_port (selected : string) (ports raw : list string) :
  Permutation ports raw ->
  (In selected raw ->
   (if existsb (String.eqb selected) ports then selected else hd ""%string ports) = selected) /\
  (~ In selected raw ->
   (if existsb (String.eqb selected) ports then selected else hd ""%string ports)
   = hd ""%string ports).
Proof.
  intros P. destruct (existsb (String.eqb selected) ports) eqn:E; split; try reflexivity.
  - intros Hn. exfalso. apply Hn. apply existsb_exists in E as (x & Hx & Ex).
    apply String.eqb_eq in Ex. subst x. now apply (Permutation_in _ P).
  - intros Hin. apply (Permutation_in _ (Permutation_sym P)) in Hin.
    assert (existsb (String.eqb selected) ports = true)
      by (apply existsb_exists; exists selected; split; [exact Hin | apply String.eqb_refl]).
    congruence.
Qed.

(** X17.  [_refresh_com_ports] of [UI_2.py].  The list offered holds the names
    listed, each as often as it was listed, arranged so that each name may
    stand before the next; a port [COMi] may stand before [COMj] exactly
    when [i <= j], by number and not by text, and before every name that
    does not begin with [COM], never behind one.  The port selected is kept
    when it is among the names and becomes the first of the list otherwise
    (none when the list is empty).  When the listing fails the list is
    empty and nothing is selected. *)
Theorem refresh_com_ports_sorts_by_number :
  (forall (raw : list string) (selected : string),
     let ports := fst (UI_2._refresh_com_ports (Some raw) selected) in
     let chosen := snd (UI_2._refresh_com_ports (Some raw) selected) in
     Permutation ports raw /\ Sorted port_before ports /\
     (In selected raw -> chosen = selected) /\
     (~ In selected raw -> chosen = hd ""%string ports))
  /\ (forall selected, UI_2._refresh_com_ports None selected = ([], ""%string))
  /\ (forall i j, 0 <= i -> 0 <= j ->
        (port_before ("COM" ++ Py.str_int i) ("COM" ++ Py.str_int j) <-> i <= j))
  /\ (forall i y, 0 <= i -> substring 0 3 y <> "COM"%string ->
        port_before ("COM" ++ Py.str_int i) y /\ ~ port_before y ("COM" ++ Py.str_int i))
  /\ fst (UI_2._refresh_com_ports (Some ["COM10"; "COM3"; "/dev/ttyUSB0"; "COM1"]) "")
     = ["COM1"; "COM3"; "COM10"; "/dev/ttyUSB0"]%string.
Proof.
  split; [|split; [|split; [|split]]].
  - intros raw selected. unfold UI_2._refresh_com_ports. rewrite port_keys_2_total.
    cbn [fst snd].
    destruct (sorted_by_spec UI_2.key_leb (fun k => k) key_leb_2_total (map port_key2 raw))
      as (P & S0).
    assert (Pn : Permutation (map snd (Py.sorted_by UI_2.key_leb (fun k => k)
                                         (map port_key2 raw))) raw).
    { rewrite (Permutation_map snd P), map_map. cbn [port_key2 snd]. now rewrite map_id. }
    split; [exact Pn|]. split; [|now apply chosen_port].
    apply sorted_keys_names; [|exact S0].
    apply Forall_forall. intros k Hk.
    apply (Permutation_in _ P), in_map_iff in Hk as (x & <- & _). reflexivity.
  - reflexivity.
  - intros i j Hi Hj. unfold port_before.
    rewrite !port_key2_numbered by assumption. unfold UI_2.key_leb. cbn [Bool.eqb].
    destruct (Z.eqb_spec i j) as [->|Hne].
    + rewrite string_leb_refl. split; [lia | reflexivity].
    + rewrite Z.ltb_lt. lia.
  - intros i y Hi Hy. unfold port_before.
    rewrite port_key2_numbered by assumption. unfold port_key2, UI_2.key_leb.
    replace (String.eqb (substring 0 3 y) "COM") with false
      by (symmetry; now apply String.eqb_neq).
    cbn [negb Bool.eqb]. split; [reflexivity | discriminate].
  - vm_compute. reflexivity.
Qed.

Lemma prefix_com_split (x : string) :
  String.prefix "COM" x = true -> x = ("COM" ++ Py.drop 3 x)%string.
Proof.
  intros H. apply String.prefix_correct in H.
  destruct x as [|a [|b [|c s]]]; try discriminate H.
  cbn [String.length substring] in H. rewrite substring_0_0 in H.
  injection H as -> -> ->.
  destruct (com_name_parts s) as (_ & D & _). cbn [append] in D |- *. now rewrite D.
Qed.

Lemma remove_com_digits (d : string) :
  digits_only d = true -> Py.remove_str_from "COM" 0 d = d.
Proof.
  induction d as [|c d IH]; [reflexivity|].
  cbn [digits_only]. intros H. apply andb_true_iff in H as [Hc Hd].
  cbn [Py.remove_str_from].
  destruct (String.prefix "COM" (String c d)) eqn:E.
  - apply String.prefix_correct in E. cbn [String.length substring] in E.
    injection E as -> _. discriminate Hc.
  - now rewrite IH.
Qed.

Lemma remove_com_numbered (x : string) :
  String.prefix "COM" x = true -> Py.isdigit (Py.drop 3 x) = true ->
  Py.remove_str "COM" x = Py.drop 3 x.
Proof.
  intros Hp Hd. rewrite (prefix_com_split x Hp) at 1.
  pose proof (proj1 (com_name_parts (Py.drop 3 x))) as P.
  unfold Py.isdigit in Hd. rewrite all_digits_only in Hd.
  apply andb_true_iff in Hd as [_ Hd].
  revert P Hd. generalize (Py.drop 3 x). intros d P Hd.
  unfold Py.remove_str. cbn [append] in P |- *.
  cbn [Py.remove_str_from]. rewrite P. cbn [String.length Nat.sub Py.remove_str_from].
  now apply remove_com_digits.
Qed.

(** The name is [COM] followed by decimal digits only. *)
Definition numbered (x : string) : bool :=
  String.prefix "COM" x && Py.isdigit (Py.drop 3 x).

Definition port_keyt (x : string) : UI_test.PortKey :=
  if numbered x
  then UI_test.KInt (match Py.int (Py.drop 3 x) with Some n => n | None => 0 end)
  else UI_test.KStr x.

Lemma port_key_t_total (x : string) : UI_test.port_key x = Some (port_keyt x).
Proof.
  unfold UI_test.port_key, port_keyt, numbered.
  destruct (String.prefix "COM" x && Py.isdigit (Py.drop 3 x)) eqn:E; [|reflexivity].
  apply andb_true_iff in E as [Ep E]. rewrite (remove_com_numbered x Ep E).
  destruct (int_of_isdigit _ E) as (n & -> & _). reflexivity.
Qed.

Lemma port_keys_t_total (l : list string) :
  UI_test.port_keys l = Some (map (fun x => (port_keyt x, x)) l).
Proof.
  induction l as [|x l IH]; cbn; [reflexivity|]. now rewrite port_key_t_total, IH.
Qed.

Lemma same_kind_numbered (x y : string) :
  UI_test.same_kind (port_keyt x) (port_keyt y) = Bool.eqb (numbered x) (numbered y).
Proof. unfold port_keyt. now destruct (numbered x), (numbered y). Qed.

Lemma port_keyt_numbered (i : Z) :
  0 <= i -> port_keyt ("COM" ++ Py.str_int i) = UI_test.KInt i.
Proof.
  intros Hi. unfold port_keyt, numbered.
  destruct (com_name_parts (Py.str_int i)) as (-> & -> & _).
  now rewrite str_int_isdigit, int_str_int by exact Hi.
Qed.

(** An order of all keys that agrees with [UI_test.key_leb] on two keys of
    one kind. *)
Definition key_leb_all (a b : UI_test.PortKey) : bool :=
  match a, b with
  | UI_test.KInt _, UI_test.KStr _ => true
  | UI_test.KStr _, UI_test.KInt _ => false
  | _, _ => UI_test.key_leb a b
  end.

Lemma key_leb_all_total (a b : UI_test.PortKey) :
  key_leb_all a b = true \/ key_leb_all b a = true.
Proof.
  destruct a as [m|s], b as [n|t]; cbn; auto; [|apply String.leb_total].
  destruct (Z.leb_spec m n); auto. right. apply Z.leb_le. lia.
Qed.

Lemma key_leb_all_same (a b : UI_test.PortKey) :
  UI_test.same_kind a b = true -> UI_test.key_leb a b = key_leb_all a b.
Proof. now destruct a, b. Qed.

Section SortedAlike.
Context {A K : Type}.
Variables leb leb' : K -> K -> bool.
Variable key : A -> K.

Lemma insert_sorted_ext (x : A) (l : list A) :
  (forall y, In y l -> leb (key y) (key x) = leb' (key y) (key x)) ->
  Py.insert_sorted leb key x l = Py.insert_sorted leb' key x l.
Proof.
  induction l as [|y l IH]; intros H; cbn; [reflexivity|].
  rewrite (H y (or_introl eq_refl)), IH; [reflexivity|].
  intros z Hz. apply H. now right.
Qed.

Lemma sorted_by_ext_from (l : list A) :
  forall acc,
    (forall y z, In y (acc ++ l) -> In z (acc ++ l) -> leb (key y) (key z) = leb' (key y) (key z)) ->
    fold_left (fun a x => Py.insert_sorted leb key x a) l acc
    = fold_left (fun a x => Py.insert_sorted leb' key x a) l acc.
Proof.
  induction l as [|x l IH]; intros acc H; cbn; [reflexivity|].
  rewrite <- (insert_sorted_ext x acc).
  - apply IH. intros y z Hy Hz.
    assert (Hin : forall w, In w (Py.insert_sorted leb key x acc ++ l) -> In w (acc ++ x :: l)).
    { intros w Hw. apply in_app_iff in Hw as [Hw|Hw].
      - apply (Permutation_in _ (insert_sorted_perm leb key x acc)) in Hw.
        destruct Hw as [->|Hw]; apply in_app_iff; [right; now left | now left].
      - apply in_app_iff. right. now right. }
    apply H; now apply Hin.
  - intros y Hy. apply H; apply in_app_iff; [now left | right; now left].
Qed.

Lemma sorted_by_ext (l : list A) :
  (forall y z, In y l -> In z l -> leb (key y) (key z) = leb' (key y) (key z)) ->
  Py.sorted_by leb key l = Py.sorted_by leb' key l.
Proof. intros H. apply sorted_by_ext_from. exact H. Qed.

End SortedAlike.

(** The name [x] may stand before the name [y] in the list of
    [UI_test.py]: two numbers, or two texts, in order. *)
Definition port_before_t (x y : string) : Prop :=
  UI_test.key_leb (port_keyt x) (port_keyt y) = true.

Lemma sorted_keys_names_t (raw : list string) (l : list (UI_test.PortKey * string)) :
  (forall x y, In x raw -> In y raw -> numbered x = numbered y) ->
  (forall p, In p l -> In p (map (fun x => (port_keyt x, x)) raw)) ->
  Sorted (key_ordered key_leb_all fst) l ->
  Sorted port_before_t (map snd l).
Proof.
  intros Hk Hin Hs. induction Hs as [|p l Hl IH Hd]; cbn; [constructor|].
  constructor; [apply IH; intros q Hq; apply Hin; now right|].
  destruct Hd as [|q l' Hpq]; cbn; constructor.
  destruct (proj1 (in_map_iff _ _ _) (Hin p (or_introl eq_refl))) as (x & <- & Hx).
  destruct (proj1 (in_map_iff _ _ _) (Hin q (or_intror (or_introl eq_refl))))
    as (y & <- & Hy).
  unfold port_before_t. cbn [snd]. unfold key_ordered in Hpq. cbn [fst] in Hpq.
  rewrite key_leb_all_same; [exact Hpq|].
  rewrite same_kind_numbered, (Hk x y Hx Hy). now destruct (numbered y).
Qed.

Lemma sorted_ports_alike (raw : list string) :
  (forall x y, In x raw -> In y raw -> numbered x = numbered y) ->
  UI_test.sorted_ports (map (fun x => (port_keyt x, x)) raw)
  = Some (map snd (Py.sorted_by key_leb_all fst (map (fun x => (port_keyt x, x)) raw))).
Proof.
  intros Hk.
  assert (Hs : forall p q, In p (map (fun x => (port_keyt x, x)) raw) ->
                           In q (map (fun x => (port_keyt x, x)) raw) ->
                           UI_test.same_kind (fst p) (fst q) = true).
  { intros p q Hp Hq. apply in_map_iff in Hp as (x & <- & Hx).
    apply in_map_iff in Hq as (y & <- & Hy). cbn [fst].
    rewrite same_kind_numbered, (Hk x y Hx Hy). now destruct (numbered y). }
  rewrite <- (sorted_by_ext UI_test.key_leb key_leb_all fst)
    by (intros p q Hp Hq; apply key_leb_all_same; now apply Hs).
  revert Hs. generalize (map (fun x => (port_keyt x, x)) raw). intros ks Hs.
  destruct ks as [|[k x] rest]; [reflexivity|].
  unfold UI_test.sorted_ports.
  replace (forallb (fun p => UI_test.same_kind k (fst p)) rest) with true; [reflexivity|].
  symmetry. apply forallb_forall. intros q Hq.
  apply (Hs (k, x) q); [now left | now right].
Qed.

Lemma sorted_ports_mixed (raw : list string) (x y : string) :
  In x raw -> In y raw -> numbered x = true -> numbered y = false ->
  UI_test.sorted_ports (map (fun x => (port_keyt x, x)) raw) = None.
Proof.
  intros Hx Hy Nx Ny. destruct raw as [|h rest]; [contradiction|].
  cbn [map UI_test.sorted_ports].
  replace (forallb (fun p => UI_test.same_kind (port_keyt h) (fst p))
             (map (fun x => (port_keyt x, x)) rest)) with false; [reflexivity|].
  symmetry. apply Bool.not_true_is_false. intros F.
  assert (Hall : forall z, In z rest -> numbered h = numbered z).
  { intros z Hz.
    pose proof (proj1 (forallb_forall _ _) F (port_keyt z, z)
                  (in_map (fun x => (port_keyt x, x)) rest z Hz)) as S0.
    cbn [fst] in S0. rewrite same_kind_numbered in S0. now apply Bool.eqb_prop. }
  assert (Hh : forall z, In z (h :: rest) -> numbered z = numbered h).
  { intros z [<-|Hz]; [reflexivity | symmetry; now apply Hall]. }
  pose proof (Hh x Hx). pose proof (Hh y Hy). congruence.
Qed.

(** X18.  [_refresh_com_ports] of [UI_test.py].  When the names listed are all
    numbered ports ([COM] and digits) or all other names, the list offered
    holds them, each as often as listed, numbered ports in the order of
    their numbers and other names in the order of their text, and the port
    selected is kept when it is among them and becomes the first otherwise.
    When a numbered port is listed beside any other name, the list offered
    is empty and nothing is selected, as it is when the listing fails. *)
Theorem refresh_com_ports_t_needs_names_of_one_kind :
  (forall (raw : list string) (selected : string),
     (forall x y, In x raw -> In y raw -> numbered x = numbered y) ->
     let ports := fst (UI_test._refresh_com_ports (Some raw) selected) in
     let chosen := snd (UI_test._refresh_com_ports (Some raw) selected) in
     Permutation ports raw /\ Sorted port_before_t ports /\
     (In selected raw -> chosen = selected) /\
     (~ In selected raw -> chosen = hd ""%string ports))
  /\ (forall (raw : list string) (selected x y : string),
        In x raw -> In y raw -> numbered x = true -> numbered y = false ->
        UI_test._refresh_com_ports (Some raw) selected = ([], ""%string))
  /\ (forall selected, UI_test._refresh_com_ports None selected = ([], ""%string))
  /\ (forall i j, 0 <= i -> 0 <= j ->
        (port_before_t ("COM" ++ Py.str_int i) ("COM" ++ Py.str_int j) <-> i <= j))
  /\ (forall x y, numbered x = false -> numbered y = false ->
        (port_before_t x y <-> String.leb x y = true))
  /\ UI_test._refresh_com_ports (Some ["COM10"; "COM3"; "COM1"]) "COM3"
     = (["COM1"; "COM3"; "COM10"], "COM3")%string
  /\ UI_test._refresh_com_ports (Some ["COM3"; "/dev/ttyUSB0"]) "COM3" = ([], ""%string).
Proof.
  split; [|split; [|split; [|split; [|split; [|split]]]]].
  - intros raw selected Hk. unfold UI_test._refresh_com_ports.
    rewrite port_keys_t_total, (sorted_ports_alike raw Hk). cbn [fst snd].
    destruct (sorted_by_spec key_leb_all fst key_leb_all_total
                (map (fun x => (port_keyt x, x)) raw)) as (P & S0).
    assert (Pn : Permutation (map snd (Py.sorted_by key_leb_all fst
                                         (map (fun x => (port_keyt x, x)) raw))) raw).
    { rewrite (Permutation_map snd P), map_map. cbn [snd]. now rewrite map_id. }
    split; [exact Pn|]. split; [|now apply chosen_port].
    apply (sorted_keys_names_t raw); [exact Hk | | exact S0].
    intros p Hp. now apply (Permutation_in _ P).
  - intros raw selected x y Hx Hy Nx Ny. unfold UI_test._refresh_com_ports.
    now rewrite port_keys_t_total, (sorted_ports_mixed raw x y Hx Hy Nx Ny).
  - reflexivity.
  - intros i j Hi Hj. unfold port_before_t.
    rewrite !port_keyt_numbered by assumption. cbn [UI_test.key_leb]. apply Z.leb_le.
  - intros x y Nx Ny. unfold port_before_t, port_keyt. rewrite Nx, Ny. reflexivity.
  - vm_compute. reflexivity.
  - vm_compute. reflexivity.
Qed.

(* ================================================================== *)
(** * The table of [Export (.txt)] in [UI_test.py] *)

(** The line of point [j] in the table of [st]. *)
Definition table_row_at (st : UI_test.App) (j : nat) : string :=
  let l := limits st in
  UI_test.table_row (UI_test.r_set l - UI_test.r_tol l) (UI_test.r_set l + UI_test.r_tol l)
                    (UI_test.v_set l - UI_test.v_tol l) (UI_test.v_set l + UI_test.v_tol l)
                    (Z.of_nat j) (nth j (r_values st) None) (nth j (v_values st) None).

(** The lines above the rows, at time [t]. *)
Definition table_heading (st : UI_test.App) (t : Time) : list string :=
  let l := limits st in
  let m := Py.strip (model_name st) in
  [ ("Model : " ++ (if String.eqb m "" then "-" else m))%string;
    ("Time  : " ++ stamp_text t)%string;
    ("R Set/Tol : " ++ Py.repr_float (UI_test.r_set l) ++ " mΩ  ±"
     ++ Py.repr_float (UI_test.r_tol l) ++ " mΩ  -> min="
     ++ Py.format_f 3 (UI_test.r_set l - UI_test.r_tol l) ++ ", max="
     ++ Py.format_f 3 (UI_test.r_set l + UI_test.r_tol l))%string;
    ("V Set/Tol : " ++ Py.repr_float (UI_test.v_set l) ++ " V  ±"
     ++ Py.repr_float (UI_test.v_tol l) ++ " V  -> min="
     ++ Py.format_f 4 (UI_test.v_set l - UI_test.v_tol l) ++ ", max="
     ++ Py.format_f 4 (UI_test.v_set l + UI_test.v_tol l))%string;
    "";
    UI_test.table_header;
    Py.repeat_char "-" (Py.len UI_test.table_header) ].

Definition table_lines (st : UI_test.App) (t : Time) : list string :=
  table_heading st t ++ map (table_row_at st) (seq 0 (Z.to_nat (num_points st))).

(** The world after [Export (.txt)]: the dialog cancelled, the file
    written, or the error box. *)
Definition table_saved (st : UI_test.App) : World :=
  let w := world st in
  if String.eqb (chosen_file w) "" then dialog_shown (ticked w)
  else
    match write_file (fs w) (chosen_path w)
            (Py.join Py.LF (table_lines st (time_now (ticked w)))) with
    | None =>
        set_events (events w ++ [ShowError "Export (.txt)" OSError])
          (dialog_shown (ticked (ticked w)))
    | Some fs1 =>
        set_events (events w ++ [ShowInfo "Export (.txt)" "Saved successfully."])
          (set_fs fs1 (dialog_shown (ticked (ticked w))))
    end.

Lemma table_rows_spec (a b c d : float) (k : nat) :
  forall (i : nat) (st : UI_test.App),
    (i + k <= List.length (r_values st))%nat ->
    (i + k <= List.length (v_values st))%nat ->
    UI_test.table_rows a b c d k (Z.of_nat i) st
    = (Ret (map (fun j => UI_test.table_row a b c d (Z.of_nat j)
                            (nth j (r_values st) None) (nth j (v_values st) None))
                (seq i k)), st).
Proof.
  induction k as [|k IH]; intros i st Hr Hv; [reflexivity|].
  destruct (nth_error_some_lt (r_values st) i) as [r Er]; [lia|].
  destruct (nth_error_some_lt (v_values st) i) as [v Ev]; [lia|].
  cbn [UI_test.table_rows seq map]. monad.
  rewrite getitem_nat, Er by lia. monad.
  rewrite getitem_nat, Ev by lia. monad.
  replace (Z.of_nat i + 1) with (Z.of_nat (S i)) by lia.
  erewrite run_bind by (apply (IH (S i)); lia). monad.
  now rewrite (nth_error_nth _ _ _ Er), (nth_error_nth _ _ _ Ev).
Qed.

Lemma table_rows_raises (a b c d : float) (k : nat) :
  forall (i : nat) (st : UI_test.App),
    (i <= List.length (r_values st))%nat -> (List.length (r_values st) < i + k)%nat ->
    UI_test.table_rows a b c d k (Z.of_nat i) st = (Raise IndexError, st).
Proof.
  induction k as [|k IH]; intros i st Hi Hk; [lia|].
  cbn [UI_test.table_rows]. monad.
  destruct (Nat.eq_dec i (List.length (r_values st))) as [E|E].
  - rewrite getitem_out by lia. reflexivity.
  - destruct (nth_error_some_lt (r_values st) i) as [r Er]; [lia|].
    rewrite getitem_nat, Er by lia. monad.
    destruct (Py.getitem (v_values st) (Z.of_nat i)) as [v|]; [|reflexivity]. crank.
    replace (Z.of_nat i + 1) with (Z.of_nat (S i)) by lia.
    rewrite (IH (S i) st) by lia. reflexivity.
Qed.

Lemma export_txt_table_spec (n : nat) (st : UI_test.App) :
  List.length (r_values st) = n -> List.length (v_values st) = n ->
  (Z.to_nat (num_points st) <= n)%nat ->
  UI_test._export_txt_table st = (Ret tt, set_world (table_saved st) st).
Proof.
  intros Hr Hv Hn.
  destruct st as [mn np ai md sf ae lim se rs vs fl ci ar aj rw pc bc w].
  destruct w as [o rp cp kp dp vp js nj ev f c].
  cbn [r_values v_values num_points] in Hr, Hv, Hn.
  unfold table_saved, chosen_file, chosen_path, dialog_shown, ticked, time_now,
    table_lines, table_heading, table_row_at.
  unfold UI_test._export_txt_table, now, asksaveasfilename. crank.
  destruct (String.eqb (dialog o dp) ""); crank; [reflexivity|].
  rewrite (table_rows_spec _ _ _ _ (Z.to_nat np) 0) by (fields; lia).
  crank.
  destruct (write_file f _ _) as [fs1|]; crank; reflexivity.
Qed.

Lemma export_txt_table_raises (n : nat) (st : UI_test.App) :
  List.length (r_values st) = n -> (n < Z.to_nat (num_points st))%nat ->
  chosen_file (world st) <> ""%string ->
  UI_test._export_txt_table st
  = (Raise IndexError, set_world (dialog_shown (ticked (ticked (world st)))) st).
Proof.
  intros Hr Hn Hc.
  destruct st as [mn np ai md sf ae lim se rs vs fl ci ar aj rw pc bc w].
  destruct w as [o rp cp kp dp vp js nj ev f c].
  cbn [r_values num_points world] in Hr, Hn, Hc.
  unfold chosen_file in Hc. cbn [oracle dialog_pos] in Hc.
  apply String.eqb_neq in Hc.
  unfold dialog_shown, ticked.
  unfold UI_test._export_txt_table, now, asksaveasfilename. crank.
  rewrite Hc. crank.
  rewrite (table_rows_raises _ _ _ _ (Z.to_nat np) 0) by (fields; lia).
  reflexivity.
Qed.

(** A session of two points of [UI_test.py], the first measured, the model
    named, whose save dialog answers [table.txt]. *)
Definition table_session : UI_test.App :=
  set_model_name " AB12 "
    (set_world (mkWorld (mkOracle (rand_tape Sample.oracle0) (choice_tape Sample.oracle0)
                                  (clock Sample.oracle0) (fun _ => "table.txt"%string)
                                  (device Sample.oracle0))
                        0 0 0 0 0 [] 0 [] (mkFS [["home"%string]] [] []) ["home"%string])
               Sample.half_donet).

(** X19.  [_export_txt_table], the [Export (.txt)] button of [UI_test.py], in a
    session that holds at least as many points as the count entered.  The
    call ends normally and changes nothing of the session; it never makes a
    folder and schedules nothing.  When the dialog is cancelled no file is
    touched and nothing is shown.  Otherwise the table, seven heading lines
    and one line for each point counted, goes to the chosen file and
    [Saved successfully.] is shown, or, when that file cannot be written,
    the file system stays as it was and the error box [Export (.txt)] is
    shown. *)
Theorem export_table_writes_or_reports (n : nat) (st : UI_test.App) :
  holds n st -> (Z.to_nat (num_points st) <= n)%nat ->
  let w := world st in
  let lines := table_lines st (time_now (ticked w)) in
  exists w',
    UI_test._export_txt_table st = (Ret tt, set_world w' st) /\
    dirs (fs w') = dirs (fs w) /\ jobs w' = jobs w /\
    List.length lines = (7 + Z.to_nat (num_points st))%nat /\
    (chosen_file w = ""%string -> fs w' = fs w /\ events w' = events w) /\
    (chosen_file w <> ""%string ->
     match write_file (fs w) (chosen_path w) (Py.join Py.LF lines) with
     | Some fs1 =>
         fs w' = fs1 /\ In (chosen_path w, Py.join Py.LF lines) (files fs1) /\
         events w' = events w ++ [ShowInfo "Export (.txt)" "Saved successfully."]
     | None =>
         fs w' = fs w /\ events w' = events w ++ [ShowError "Export (.txt)" OSError]
     end).
Proof.
  intros (Hr & Hv & _) Hn w lines.
  exists (table_saved st). split; [now apply (export_txt_table_spec n)|].
  assert (Hlen : List.length lines = (7 + Z.to_nat (num_points st))%nat).
  { unfold lines, table_lines, table_heading.
    now rewrite length_app, length_map, length_seq. }
  unfold table_saved. fold w. fold lines.
  destruct (String.eqb (chosen_file w) "") eqn:Ec.
  - apply String.eqb_eq in Ec.
    repeat split; try reflexivity; try exact Hlen. intros Hne. now elim Hne.
  - apply String.eqb_neq in Ec.
    destruct (write_file (fs w) (chosen_path w) (Py.join Py.LF lines)) as [fs1|] eqn:Ew.
    + split; [exact (write_file_dirs _ _ _ _ Ew)|]. split; [reflexivity|].
      split; [exact Hlen|]. split; [intros E; now elim Ec|]. intros _.
      split; [reflexivity|]. split; [exact (write_file_holds _ _ _ _ Ew) | reflexivity].
    + split; [reflexivity|]. split; [reflexivity|].
      split; [exact Hlen|]. split; [intros E; now elim Ec|]. intros _.
      split; reflexivity.
Qed.

Lemma export_table_witness :
  exists w',
    UI_test._export_txt_table table_session = (Ret tt, set_world w' table_session) /\
    events w' = [ShowInfo "Export (.txt)" "Saved successfully."] /\
    List.length (files (fs w')) = 1%nat.
Proof.
  assert (Hh : holds 2 table_session) by (vm_compute; repeat split; reflexivity).
  destruct (export_table_writes_or_reports 2 table_session Hh ltac:(vm_compute; lia))
    as (w' & E & _ & _ & _ & _ & Hw).
  exists w'. split; [exact E|].
  assert (Hne : chosen_file (world table_session) <> ""%string) by (vm_compute; discriminate).
  specialize (Hw Hne).
  destruct (write_file (fs (world table_session)) (chosen_path (world table_session)) _)
    as [fs1|] eqn:Ew; [|vm_compute in Ew; discriminate Ew].
  destruct Hw as (-> & _ & ->). split; [reflexivity|].
  vm_compute in Ew. injection Ew as <-. reflexivity.
Defined.

(** X20.  [_export_txt_table] when the count entered is larger than the number of
    points the session holds and a file has been chosen: the call raises
    [IndexError] while the lines are made, before any file is opened.
    Nothing is written, nothing is shown and the session is as it was; the
    clock has been read twice and the dialog answered. *)
Theorem export_table_with_unapplied_count_writes_nothing (n : nat) (st : UI_test.App) :
  holds n st -> (n < Z.to_nat (num_points st))%nat ->
  chosen_file (world st) <> ""%string ->
  exists w',
    UI_test._export_txt_table st = (Raise IndexError, set_world w' st) /\
    fs w' = fs (world st) /\ events w' = events (world st) /\ jobs w' = jobs (world st) /\
    clock_pos w' = S (S (clock_pos (world st))) /\
    dialog_pos w' = S (dialog_pos (world st)).
Proof.
  intros (Hr & _) Hn Hc.
  exists (dialog_shown (ticked (ticked (world st)))).
  split; [now apply (export_txt_table_raises n)|].
  repeat split; reflexivity.
Qed.

Lemma export_table_unapplied_witness :
  exists w',
    UI_test._export_txt_table (set_num_points 3 table_session)
    = (Raise IndexError, set_world w' (set_num_points 3 table_session)) /\
    files (fs w') = [].
Proof.
  assert (Hh : holds 2 (set_num_points 3 table_session))
    by (vm_compute; repeat split; reflexivity).
  destruct (export_table_with_unapplied_count_writes_nothing 2 _ Hh
              ltac:(vm_compute; lia) ltac:(vm_compute; discriminate))
    as (w' & E & Hf & _).
  exists w'. split; [exact E|]. now rewrite Hf.
Defined.

(* ================================================================== *)
(** * The [Test Read] button *)

(** X21.  [Test Read] takes two readings and shows [R] of the first beside [V] of
    the second; the session is not changed, no reading is stored.  In
    [UI_2.py] the second reading is drawn further down the tape of random
    numbers; in [UI_test.py] with a port open the instrument is asked
    twice. *)
Theorem test_read_shows_parts_of_two_readings :
  (forall st : UI_2.App,
     let st1 := set_world (drawn (world st)) st in
     UI_2.test_read st
     = (Ret tt,
        set_world
          (set_events (events (world st)
                       ++ [ShowInfo "Test Read"
                             (UI_2.test_read_text (fst (reading2 st)) (snd (reading2 st1)))])
                      (drawn (drawn (world st))))
          st))
  /\ (forall st : UI_test.App,
        let st1 := set_world (worldt st) st in
        UI_test.test_read st
        = (Ret tt,
           set_world
             (set_events (events (world st)
                          ++ [ShowInfo "Test Read"
                                (UI_test.test_read_text (fst (readingt st))
                                                        (snd (readingt st1)))])
                         (worldt st1))
             st))
  /\ (forall st : UI_2.App,
        rand_pos (world (snd (UI_2.test_read st))) = (6 + rand_pos (world st))%nat)
  /\ (forall st : UI_test.App,
        ser st <> None ->
        device_pos (world (snd (UI_test.test_read st))) = S (S (device_pos (world st)))).
Proof.
  assert (H2 : forall st : UI_2.App,
             UI_2.test_read st
             = (Ret tt,
                set_world
                  (set_events (events (world st)
                               ++ [ShowInfo "Test Read"
                                     (UI_2.test_read_text
                                        (fst (reading2 st))
                                        (snd (reading2 (set_world (drawn (world st)) st))))])
                              (drawn (drawn (world st))))
                  st)).
  { intros st.
    destruct st as [mn np ai md sf ae lim se rs vs fl ci ar aj rw pc bc w].
    destruct w as [o rp cp kp dp vp js nj ev f c].
    unfold UI_2.test_read.
    erewrite run_bind by apply read_meter_2_spec.
    erewrite run_bind by apply read_meter_2_spec.
    unfold show, on_world, modify, drawn, advance. fields.
    destruct (rand_tape o rp <? 0.8)%float; fields;
      destruct (rand_tape o (3 + rp) <? 0.8)%float; reflexivity. }
  assert (Ht : forall st : UI_test.App,
             UI_test.test_read st
             = (Ret tt,
                set_world
                  (set_events (events (world st)
                               ++ [ShowInfo "Test Read"
                                     (UI_test.test_read_text
                                        (fst (readingt st))
                                        (snd (readingt (set_world (worldt st) st))))])
                              (worldt (set_world (worldt st) st)))
                  st)).
  { intros st. unfold UI_test.test_read.
    erewrite run_bind by apply read_meter_t_spec.
    erewrite run_bind by apply read_meter_t_spec.
    generalize (readingt st) (readingt (set_world (worldt st) st)). intros a b.
    assert (Ev : events (worldt (set_world (worldt st) st)) = events (world st)).
    { unfold worldt, asked, drawn, advance, instrument_reading. fields.
      destruct (ser st); fields; repeat (match goal with
        | |- context [match ?x with _ => _ end] => destruct x; fields end);
        reflexivity. }
    rewrite <- Ev. generalize (worldt (set_world (worldt st) st)). intros w1.
    destruct st; destruct w1; reflexivity. }
  split; [exact H2|]. split; [exact Ht|]. split.
  - intros st. rewrite H2. cbn [snd].
    destruct st as [mn np ai md sf ae lim se rs vs fl ci ar aj rw pc bc w].
    destruct w as [o rp cp kp dp vp js nj ev f c].
    unfold drawn, advance. fields. reflexivity.
  - intros st Hs. rewrite Ht. cbn [snd].
    destruct st as [mn np ai md sf ae lim se rs vs fl ci ar aj rw pc bc w].
    destruct w as [o rp cp kp dp vp js nj ev f c].
    destruct se as [p|]; [|now elim Hs].
    unfold worldt, asked, drawn, advance, instrument_reading. fields.
    repeat (match goal with
            | |- context [match ?x with _ => _ end] => destruct x; fields end);
      reflexivity.
Qed.

(* ================================================================== *)
(** * C10: the exports, whatever point count is entered *)

(** More points are counted than the session holds: a count was entered
    above the points held and not applied. *)
Definition miscounted {L} (st : App L) : bool :=
  (List.length (r_values st) <? Z.to_nat (num_points st))%nat.

Lemma result_lines_t_listed (st : UI_test.App) :
  (Z.to_nat (num_points st) <= List.length (r_values st))%nat ->
  (Z.to_nat (num_points st) <= List.length (v_values st))%nat ->
  (Z.to_nat (num_points st) <= List.length (flags st))%nat ->
  UI_test._result_lines st =
  (Ret (reportt st (time_now (world st))), set_world (ticked (world st)) st).
Proof.
  intros Hr Hv Hf.
  unfold UI_test._result_lines, now, UI_test._r_bounds, UI_test._v_bounds. monad.
  erewrite run_bind; [ | apply (result_rows_spec _ 0); fields; lia ].
  monad. unfold reportt, report_rows, row_at, UI_test._r_bounds, UI_test._v_bounds.
  fields. reflexivity.
Qed.

Lemma held_listed {L} (n : nat) (st : App L) :
  holds n st -> miscounted st = false ->
  (Z.to_nat (num_points st) <= List.length (r_values st))%nat /\
  (Z.to_nat (num_points st) <= List.length (v_values st))%nat /\
  (Z.to_nat (num_points st) <= List.length (flags st))%nat.
Proof.
  intros (Hr & Hv & Hf & _) Em. unfold miscounted in Em. apply Nat.ltb_ge in Em. lia.
Qed.

Section ExportAnyCount.
Context {L : Type}.

(** The shape of every export, the point count being what it may: the
    exception of [makedirs] leaves the method; else the method ends normally,
    having changed the world only.  The error box is shown when the file
    cannot be opened, and also when it was opened and the lines could not
    be made, the file being left as [open] left it, empty. *)
Definition export_outcome (st : App L) (dest : path) (text : string) (cancelled : bool)
           (res : Outcome unit * App L) : Prop :=
  match makedirs (fs (world st)) (export_dir st) with
  | None => res = (Raise OSError, st)
  | Some fs1 =>
      exists w', res = (Ret tt, set_world w' st) /\
        if cancelled then fs w' = fs1 /\ export_error_reported (world st) w' = false
        else
          match write_file fs1 dest "" with
          | None => fs w' = fs1 /\ export_error_reported (world st) w' = true
          | Some fs2 =>
              if miscounted st
              then fs w' = fs2 /\ export_error_reported (world st) w' = true
              else fs w' = put_file fs2 dest text /\
                   export_error_reported (world st) w' = false
          end
  end.

(** The error box is shown exactly when the export was not cancelled, the
    folder is there, and the file cannot be opened for writing or more
    points are counted than the session holds. *)
Definition error_box_exactly_when (st : App L) (dest : path) (cancelled : bool)
           (res : Outcome unit * App L) : Prop :=
  export_error_reported (world st) (world (snd res)) = true <->
  cancelled = false /\
  exists fs1, makedirs (fs (world st)) (export_dir st) = Some fs1 /\
              is_dir fs1 (export_dir st) = true /\
              (write_file fs1 dest "" = None \/ miscounted st = true).

(** With more points counted than held, a file that can be opened is left
    behind empty, and the error is reported although the destination can be
    written. *)
Definition left_empty_when_miscounted (st : App L) (dest : path) (cancelled : bool)
           (res : Outcome unit * App L) : Prop :=
  cancelled = false -> miscounted st = true ->
  forall fs1 fs2,
    makedirs (fs (world st)) (export_dir st) = Some fs1 ->
    write_file fs1 dest "" = Some fs2 ->
    fst res = Ret tt /\ fs (world (snd res)) = fs2 /\ In (dest, ""%string) (files fs2) /\
    export_error_reported (world st) (world (snd res)) = true.

Lemma result_outcome (st : App L) (dest : path) (text : string) (cancelled : bool)
      (res : Outcome unit * App L) :
  miscounted st = false ->
  export_result st dest text cancelled res -> export_outcome st dest text cancelled res.
Proof.
  intros Em. unfold export_result, export_outcome, export_world. rewrite Em.
  destruct (makedirs (fs (world st)) (export_dir st)) as [fs1|]; [|auto].
  intros (w' & E & Hw). exists w'. split; [exact E|].
  destruct cancelled; [exact Hw|].
  destruct (write_file fs1 dest "") as [fs2|]; exact Hw.
Qed.

Variables (st : App L) (dest : path) (text : string) (cancelled : bool).
Variable res : Outcome unit * App L.
Hypothesis Hres : export_outcome st dest text cancelled res.

Lemma outcome_session_kept : session_kept st (snd res).
Proof.
  unfold export_outcome in Hres.
  destruct (makedirs (fs (world st)) (export_dir st)) as [fs1|].
  - destruct Hres as (w' & -> & _). unfold session_kept. cbn [snd]. fields.
    repeat split; reflexivity.
  - rewrite Hres. unfold session_kept. cbn [snd]. repeat split; reflexivity.
Qed.

Lemma outcome_folder_made : folder_made st res.
Proof.
  unfold export_outcome in Hres. unfold folder_made.
  destruct (makedirs (fs (world st)) (export_dir st)) as [fs1|] eqn:Em.
  - left. destruct Hres as (w' & -> & Hw). cbn [fst snd]. fields.
    split; [reflexivity|].
    assert (Hd : is_dir fs1 (export_dir st) = true).
    { unfold makedirs in Em. apply makedirs_rev_spec in Em as (D & _).
      now rewrite rev_involutive in D. }
    destruct cancelled; [destruct Hw as [-> _]; exact Hd|].
    destruct (write_file fs1 dest "") as [fs2|] eqn:Ew;
      [|destruct Hw as [-> _]; exact Hd].
    apply write_file_dirs in Ew.
    destruct (miscounted st); destruct Hw as [-> _]; rewrite <- Hd;
      apply is_dir_dirs; [exact Ew | cbn; exact Ew].
  - right. now split.
Qed.

Lemma outcome_error_box : error_box_exactly_when st dest cancelled res.
Proof.
  unfold export_outcome in Hres. unfold error_box_exactly_when.
  destruct (makedirs (fs (world st)) (export_dir st)) as [fs1|] eqn:Em.
  - destruct Hres as (w' & -> & Hw). cbn [snd]. fields.
    assert (Hd : is_dir fs1 (export_dir st) = true).
    { unfold makedirs in Em. apply makedirs_rev_spec in Em as (D & _).
      now rewrite rev_involutive in D. }
    destruct cancelled.
    + destruct Hw as [_ ->]. split; [discriminate | intros [C _]; discriminate C].
    + destruct (write_file fs1 dest "") as [fs2|] eqn:Ew.
      * destruct (miscounted st); destruct Hw as [_ ->].
        -- split; [|reflexivity]. intros _. split; [reflexivity|].
           exists fs1. split; [reflexivity|]. split; [exact Hd | now right].
        -- split; [discriminate|]. intros (_ & f & Ef & _ & [F|F]); [|discriminate F].
           injection Ef as <-. congruence.
      * destruct Hw as [_ ->]. split; [|reflexivity]. intros _. split; [reflexivity|].
        exists fs1. split; [reflexivity|]. split; [exact Hd | now left].
  - rewrite Hres. cbn [snd]. unfold export_error_reported.
    rewrite new_events_same by reflexivity. cbn [existsb].
    split; [discriminate|]. intros (_ & f & Ef & _). discriminate Ef.
Qed.

Lemma outcome_left_empty : left_empty_when_miscounted st dest cancelled res.
Proof.
  unfold export_outcome in Hres. unfold left_empty_when_miscounted.
  intros -> Ec fs1 fs2 Em Ew. rewrite Em, Ew, Ec in Hres.
  destruct Hres as (w' & -> & Hf & Hr). cbn [fst snd]. fields.
  split; [reflexivity|]. split; [exact Hf|]. split; [|exact Hr].
  exact (write_file_holds _ _ _ _ Ew).
Qed.

End ExportAnyCount.

Lemma export_snapshot_2_listed (n : nat) (st : UI_2.App) :
  holds n st -> miscounted st = false ->
  UI_2._export_snapshot st =
  match makedirs (fs (world st)) (export_dir st) with
  | None => (Raise OSError, st)
  | Some fs1 =>
      (Ret tt,
       set_world (exported st fs1 (report2 st)
                    [ShowInfo "Export" ("Saved:" ++ Py.LF ++ export_file st)%string]) st)
  end.
Proof.
  intros Hh Em. destruct (held_listed n st Hh Em) as (Hr & Hv & Hf).
  unfold UI_2._export_snapshot, os_makedirs, write_report, now, export_dir, exported,
    export_path, export_file, time_now, ticked, put_file.
  crank.
  destruct (makedirs (fs (world st)) (resolve (cwd (world st)) (export_folder st)))
    as [fs1|]; crank; [|reflexivity].
  destruct (write_file fs1 _ "") as [fs2|]; crank; [|reflexivity].
  rewrite result_lines_2_listed by (fields; assumption).
  unfold report2, report_rows, row_at, time_now, ticked. crank. reflexivity.
Qed.

Lemma export_snapshot_t_listed (n : nat) (st : UI_test.App) :
  holds n st -> miscounted st = false ->
  UI_test._export_snapshot st =
  match makedirs (fs (world st)) (export_dir st) with
  | None => (Raise OSError, st)
  | Some fs1 => (Ret tt, set_world (exported st fs1 (reportt st) []) st)
  end.
Proof.
  intros Hh Em. destruct (held_listed n st Hh Em) as (Hr & Hv & Hf).
  unfold UI_test._export_snapshot, os_makedirs, write_report, now, export_dir, exported,
    export_path, export_file, time_now, ticked, put_file.
  crank.
  destruct (makedirs (fs (world st)) (resolve (cwd (world st)) (export_folder st)))
    as [fs1|]; crank; [|reflexivity].
  destruct (write_file fs1 _ "") as [fs2|]; crank; [|reflexivity].
  rewrite result_lines_t_listed by (fields; assumption).
  unfold reportt, report_rows, row_at, time_now, ticked, UI_test._r_bounds, UI_test._v_bounds.
  crank. rewrite app_nil_r. destruct st as [mn np ai md sf ae lim se rs vs fl ci ar aj rw pc bc w].
  destruct w. reflexivity.
Qed.

Lemma manual_export_2_listed (n : nat) (st : UI_2.App) :
  holds n st -> miscounted st = false ->
  UI_2._manual_export st =
  match makedirs (fs (world st)) (export_dir st) with
  | None => (Raise OSError, st)
  | Some fs1 => (Ret tt, set_world (saved_as st fs1 (report2 st)) st)
  end.
Proof.
  intros Hh Em. destruct (held_listed n st Hh Em) as (Hr & Hv & Hf).
  unfold UI_2._manual_export, os_makedirs, write_report, now, asksaveasfilename,
    export_dir, saved_as, chosen_path, chosen_file, dialog_shown, time_now, ticked, put_file.
  crank.
  destruct (makedirs (fs (world st)) (resolve (cwd (world st)) (export_folder st)))
    as [fs1|]; crank; [|reflexivity].
  destruct (String.eqb (dialog (oracle (world st)) (dialog_pos (world st))) "");
    crank; [reflexivity|].
  destruct (write_file fs1 _ "") as [fs2|]; crank; [|reflexivity].
  rewrite result_lines_2_listed by (fields; assumption).
  unfold report2, report_rows, row_at, time_now, ticked. crank. reflexivity.
Qed.

Lemma snapshot_2_listed_result (n : nat) (st : UI_2.App) :
  holds n st -> miscounted st = false ->
  export_result st (export_path st)
    (Py.join Py.LF (report2 st (time_now (ticked (world st))))) false
    (UI_2._export_snapshot st).
Proof.
  intros Hh Em. unfold export_result. rewrite (export_snapshot_2_listed n st Hh Em).
  destruct (makedirs (fs (world st)) (export_dir st)) as [fs1|]; [|reflexivity].
  eexists. split; [reflexivity|]. now apply exported_world.
Qed.

Lemma snapshot_t_listed_result (n : nat) (st : UI_test.App) :
  holds n st -> miscounted st = false ->
  export_result st (export_path st)
    (Py.join Py.LF (reportt st (time_now (ticked (world st))))) false
    (UI_test._export_snapshot st).
Proof.
  intros Hh Em. unfold export_result. rewrite (export_snapshot_t_listed n st Hh Em).
  destruct (makedirs (fs (world st)) (export_dir st)) as [fs1|]; [|reflexivity].
  eexists. split; [reflexivity|]. now apply exported_world.
Qed.

Lemma manual_2_listed_result (n : nat) (st : UI_2.App) :
  holds n st -> miscounted st = false ->
  export_result st (chosen_path (world st))
    (Py.join Py.LF (report2 st (time_now (ticked (world st)))))
    (String.eqb (chosen_file (world st)) "")
    (UI_2._manual_export st).
Proof.
  intros Hh Em. unfold export_result. rewrite (manual_export_2_listed n st Hh Em).
  destruct (makedirs (fs (world st)) (export_dir st)) as [fs1|]; [|reflexivity].
  eexists. split; [reflexivity|]. apply saved_as_world.
Qed.

Lemma snapshot_2_miscounted (st : UI_2.App) (text : string) :
  miscounted st = true ->
  export_outcome st (export_path st) text false (UI_2._export_snapshot st).
Proof.
  intros Em. pose proof (proj1 (Nat.ltb_lt _ _) Em) as Hlt.
  unfold export_outcome. rewrite Em.
  unfold UI_2._export_snapshot, os_makedirs, write_report, now, export_dir,
    export_path, export_file, time_now, ticked.
  crank.
  destruct (makedirs (fs (world st)) (resolve (cwd (world st)) (export_folder st)))
    as [fs1|]; crank; [|reflexivity].
  destruct (write_file fs1 _ "") as [fs2|]; crank.
  - rewrite result_lines_2_raises by (fields; exact Hlt). unfold ticked. crank.
    eexists. split; [reflexivity|]. split; [reflexivity|].
    unfold export_error_reported.
    now rewrite (new_events_app _ _ [ShowError "Export" IndexError]).
  - eexists. split; [reflexivity|]. split; [reflexivity|].
    unfold export_error_reported.
    now rewrite (new_events_app _ _ [ShowError "Export" OSError]).
Qed.

Lemma snapshot_t_miscounted (st : UI_test.App) (text : string) :
  miscounted st = true ->
  export_outcome st (export_path st) text false (UI_test._export_snapshot st).
Proof.
  intros Em. pose proof (proj1 (Nat.ltb_lt _ _) Em) as Hlt.
  unfold export_outcome. rewrite Em.
  unfold UI_test._export_snapshot, os_makedirs, write_report, now, export_dir,
    export_path, export_file, time_now, ticked.
  crank.
  destruct (makedirs (fs (world st)) (resolve (cwd (world st)) (export_folder st)))
    as [fs1|]; crank; [|reflexivity].
  destruct (write_file fs1 _ "") as [fs2|]; crank.
  - rewrite result_lines_t_raises by (fields; exact Hlt). unfold ticked. crank.
    eexists. split; [reflexivity|]. split; [reflexivity|].
    unfold export_error_reported.
    now rewrite (new_events_app _ _ [ShowError "Export" IndexError]).
  - eexists. split; [reflexivity|]. split; [reflexivity|].
    unfold export_error_reported.
    now rewrite (new_events_app _ _ [ShowError "Export" OSError]).
Qed.

Lemma manual_2_miscounted (st : UI_2.App) (text : string) :
  miscounted st = true ->
  export_outcome st (chosen_path (world st)) text
    (String.eqb (chosen_file (world st)) "") (UI_2._manual_export st).
Proof.
  intros Em. pose proof (proj1 (Nat.ltb_lt _ _) Em) as Hlt.
  unfold export_outcome. rewrite Em.
  unfold UI_2._manual_export, os_makedirs, write_report, now, asksaveasfilename,
    export_dir, chosen_path, chosen_file, time_now, ticked.
  crank.
  destruct (makedirs (fs (world st)) (resolve (cwd (world st)) (export_folder st)))
    as [fs1|]; crank; [|reflexivity].
  destruct (String.eqb (dialog (oracle (world st)) (dialog_pos (world st))) ""); crank.
  - eexists. split; [reflexivity|]. split; [reflexivity|].
    unfold export_error_reported. now rewrite new_events_same.
  - destruct (write_file fs1 _ "") as [fs2|]; crank.
    + rewrite result_lines_2_raises by (fields; exact Hlt). unfold ticked. crank.
      eexists. split; [reflexivity|]. split; [reflexivity|].
      unfold export_error_reported.
      now rewrite (new_events_app _ _ [ShowError "Export" IndexError]).
    + eexists. split; [reflexivity|]. split; [reflexivity|].
      unfold export_error_reported.
      now rewrite (new_events_app _ _ [ShowError "Export" OSError]).
Qed.

Lemma snapshot_2_outcome (n : nat) (st : UI_2.App) :
  holds n st ->
  export_outcome st (export_path st)
    (Py.join Py.LF (report2 st (time_now (ticked (world st))))) false
    (UI_2._export_snapshot st).
Proof.
  intros Hh. destruct (Bool.bool_dec (miscounted st) true) as [Em|Em].
  - now apply snapshot_2_miscounted.
  - apply Bool.not_true_is_false in Em.
    apply result_outcome; [exact Em | now apply (snapshot_2_listed_result n)].
Qed.

Lemma snapshot_t_outcome (n : nat) (st : UI_test.App) :
  holds n st ->
  export_outcome st (export_path st)
    (Py.join Py.LF (reportt st (time_now (ticked (world st))))) false
    (UI_test._export_snapshot st).
Proof.
  intros Hh. destruct (Bool.bool_dec (miscounted st) true) as [Em|Em].
  - now apply snapshot_t_miscounted.
  - apply Bool.not_true_is_false in Em.
    apply result_outcome; [exact Em | now apply (snapshot_t_listed_result n)].
Qed.

Lemma manual_2_outcome (n : nat) (st : UI_2.App) :
  holds n st ->
  export_outcome st (chosen_path (world st))
    (Py.join Py.LF (report2 st (time_now (ticked (world st)))))
    (String.eqb (chosen_file (world st)) "")
    (UI_2._manual_export st).
Proof.
  intros Hh. destruct (Bool.bool_dec (miscounted st) true) as [Em|Em].
  - now apply manual_2_miscounted.
  - apply Bool.not_true_is_false in Em.
    apply result_outcome; [exact Em | now apply (manual_2_listed_result n)].
Qed.



